(** * Perceptron City: the game core of the React components

    The repository holds several variants of one component, [PerceptronCity]:
    - [Sliders]: src/components/PerceptronCity.tsx, three input sliders,
      fixed weights 1.2 / 0.8 / 1.0 and the three-way [cityState];
    - [Counts]: the first drag-and-drop variant, which keeps a counter of
      available items per energy type and a list of placed items;
    - [Static]: the item-based variant with the [hasChecked] flag and the
      fixed weights 2 / 6 / 12 (two copies of it exist in the repository,
      they differ in markup only);
    - [Dynamic]: the weather variant, whose weights come from three sliders.

    A component is a set of [useState] cells and of handlers.  A handler
    reads the cells of the render it was created in and calls setters; the
    next render sees the cells so updated.  It is embedded as a function from
    the record of cells to the record of cells: every value it writes is
    computed from the state [s] it was given, and the setters are applied to
    it one after the other.  The JSX decides which handler an event can
    reach; that is [enabled], evaluated like the rest of the JSX on the cells
    of a render, and [dispatch] is an event on a screen rendered from the
    current cells.

    The screens are the children of [<AnimatePresence mode="wait">] and have
    [exit] animations: when [gameStatus] changes, the screen that leaves stays
    mounted while it fades out, with the elements and the handlers of its last
    render, and the next screen is mounted when it is gone.  [UI], [fire] and
    [exitComplete] are that: the cells, and the cells the mounted screen was
    rendered from. *)

From Stdlib Require Import ZArith List String Ascii Bool Lia Permutation.
From Stdlib Require Import DecimalString Floats.
Import ListNotations.

Set Warnings "-inexact-float".

Local Open Scope Z_scope.

(** ** Shared types *)

(** [type EnergyType = "solar" | "wind" | "hydro"] *)
Inductive EnergyType : Type := solar | wind | hydro.

(** [type GameStatus = "intro" | "playing" | "won" | "lost"] *)
Inductive GameStatus : Type := intro | playing | won | lost.

(** [interface PlacedItem { id: string; type: EnergyType }] *)
Record PlacedItem : Type := mkItem { id : string; type : EnergyType }.

Definition EnergyType_eqb (a b : EnergyType) : bool :=
  match a, b with
  | solar, solar | wind, wind | hydro, hydro => true
  | _, _ => false
  end.

Definition GameStatus_eqb (a b : GameStatus) : bool :=
  match a, b with
  | intro, intro | playing, playing | won, won | lost, lost => true
  | _, _ => false
  end.

(** Reverse application, to chain the setters a handler calls. *)
Notation "s |> f" := (f s) (at level 45, left associativity, only parsing).

(** The template literal [`solar-${i}`]. *)
Definition itemId (prefix : string) (i : nat) : string :=
  (prefix ++ "-" ++ NilEmpty.string_of_uint (Nat.to_uint i))%string.

(** The loop that fills the stock:
    [for (let i = 0; i < n; i++) { items.push(solar-i); items.push(wind-i);
    items.push(hydro-i) }]. *)
Definition initialItems (n : nat) : list PlacedItem :=
  flat_map
    (fun i => [ mkItem (itemId "solar" i) solar;
                mkItem (itemId "wind" i) wind;
                mkItem (itemId "hydro" i) hydro ])
    (seq 0 n).

(** [items.find(i => i.id === itemId)], [undefined] as [None]. *)
Definition findById (itemId : string) (items : list PlacedItem)
  : option PlacedItem :=
  find (fun i => (id i =? itemId)%string) items.

(** [items.filter(i => i.id !== itemId)] *)
Definition removeById (itemId : string) (items : list PlacedItem)
  : list PlacedItem :=
  filter (fun i => negb (id i =? itemId)%string) items.

(** [items.some(i => i.id === itemId)] *)
Definition someById (itemId : string) (items : list PlacedItem) : bool :=
  existsb (fun i => (id i =? itemId)%string) items.

(** The sum of a list of integers, for the specification side. *)
Definition sumZ (l : list Z) : Z := fold_right Z.add 0 l.

(** ** The item-based variant with fixed weights *)

Module Static.

Definition SOLAR_WEIGHT : Z := 2.
Definition WIND_WEIGHT : Z := 6.
Definition HYDRO_WEIGHT : Z := 12.
Definition THRESHOLD_MIN : Z := 80.
Definition THRESHOLD_MAX : Z := 88.

(** The [useState] cells.  The numbers of this variant are small integers,
    on which the arithmetic of JavaScript is exact: they are in [Z]. *)
Record State : Type := mkState {
  gameStatus : GameStatus;
  attemptsLeft : Z;
  hasChecked : bool;
  placedItems : list PlacedItem;
  availableItems : list PlacedItem
}.

Definition initialState : State :=
  {| gameStatus := intro;
     attemptsLeft := 5;
     hasChecked := false;
     placedItems := [];
     availableItems := initialItems 5 |}.

Definition setGameStatus (v : GameStatus) (s : State) : State :=
  mkState v (attemptsLeft s) (hasChecked s) (placedItems s) (availableItems s).
Definition setAttemptsLeft (v : Z) (s : State) : State :=
  mkState (gameStatus s) v (hasChecked s) (placedItems s) (availableItems s).
Definition setHasChecked (v : bool) (s : State) : State :=
  mkState (gameStatus s) (attemptsLeft s) v (placedItems s) (availableItems s).
Definition setPlacedItems (v : list PlacedItem) (s : State) : State :=
  mkState (gameStatus s) (attemptsLeft s) (hasChecked s) v (availableItems s).
Definition setAvailableItems (v : list PlacedItem) (s : State) : State :=
  mkState (gameStatus s) (attemptsLeft s) (hasChecked s) (placedItems s) v.

(** The weight the reducer adds for an item of a given type. *)
Definition weight (t : EnergyType) : Z :=
  match t with
  | solar => SOLAR_WEIGHT
  | wind => WIND_WEIGHT
  | hydro => HYDRO_WEIGHT
  end.

(** [placedItems.reduce((sum, item) => { if (item.type === "solar") return
    sum + SOLAR_WEIGHT; ... return sum; }, 0)] *)
Definition totalEnergy (placed : list PlacedItem) : Z :=
  fold_left
    (fun sum item =>
       if EnergyType_eqb (type item) solar then sum + SOLAR_WEIGHT
       else if EnergyType_eqb (type item) wind then sum + WIND_WEIGHT
       else if EnergyType_eqb (type item) hydro then sum + HYDRO_WEIGHT
       else sum)
    placed 0.

(** [totalEnergy >= THRESHOLD_MIN && totalEnergy <= THRESHOLD_MAX], the
    [currentIsInRange] of [handleCheckEnergy]. *)
Definition currentIsInRange (s : State) : bool :=
  (totalEnergy (placedItems s) >=? THRESHOLD_MIN)
  && (totalEnergy (placedItems s) <=? THRESHOLD_MAX).

(** The [isInRange] the playing screen shows. *)
Definition isInRange (s : State) : bool :=
  hasChecked s && currentIsInRange s.

Inductive Image : Type := skylineDark | skylineLight | skylineFire.

Definition getBackgroundImage (s : State) : Image :=
  match gameStatus s with
  | playing | intro => skylineDark
  | won => skylineLight
  | lost =>
      if totalEnergy (placedItems s) >? THRESHOLD_MAX
      then skylineFire else skylineDark
  end.

Definition handleStartGame (s : State) : State :=
  s |> setGameStatus playing |> setHasChecked false.

Definition handleCheckEnergy (s : State) : State :=
  let s1 := s |> setHasChecked true in
  if currentIsInRange s then
    s1 |> setGameStatus won
  else
    let newAttempts := attemptsLeft s - 1 in
    let s2 := s1 |> setAttemptsLeft newAttempts in
    if newAttempts =? 0 then s2 |> setGameStatus lost else s2.

Definition handleReplay (s : State) : State :=
  s |> setGameStatus intro
    |> setAttemptsLeft 5
    |> setPlacedItems []
    |> setHasChecked false
    |> setAvailableItems (initialItems 5).

Definition handleDrop (s : State) (itemId : string) : State :=
  match findById itemId (availableItems s) with
  | Some item =>
      s |> setAvailableItems (removeById itemId (availableItems s))
        |> setPlacedItems (placedItems s ++ [item])
        |> setHasChecked false
  | None => s
  end.

Definition handleRemoveItem (s : State) (id : string) : State :=
  match findById id (placedItems s) with
  | Some item =>
      s |> setPlacedItems (removeById id (placedItems s))
        |> setAvailableItems (availableItems s ++ [item])
        |> setHasChecked false
  | None => s
  end.

(** What the presentation layer can send. *)
Inductive Event : Type :=
| StartGame
| Drop (itemId : string)
| RemoveItem (id : string)
| CheckEnergy
| Replay.

Definition handle (s : State) (e : Event) : State :=
  match e with
  | StartGame => handleStartGame s
  | Drop itemId => handleDrop s itemId
  | RemoveItem id => handleRemoveItem s id
  | CheckEnergy => handleCheckEnergy s
  | Replay => handleReplay s
  end.

(** The gates of the JSX, in a render from the cells [s]: the start button
    is rendered in [{gameStatus === "intro" && ...}]; the drop zone, the
    placed items and the check button in [{gameStatus === "playing" && ...}],
    the button with [disabled={placedItems.length === 0}]; the replay button
    on the won and lost screens. *)
Definition enabled (s : State) (e : Event) : bool :=
  match e with
  | StartGame => GameStatus_eqb (gameStatus s) intro
  | Drop _ | RemoveItem _ => GameStatus_eqb (gameStatus s) playing
  | CheckEnergy =>
      GameStatus_eqb (gameStatus s) playing
      && negb (Nat.eqb (List.length (placedItems s)) 0)
  | Replay =>
      GameStatus_eqb (gameStatus s) won || GameStatus_eqb (gameStatus s) lost
  end.

(** An event on a screen that was rendered from the current cells. *)
Definition dispatch (s : State) (e : Event) : State :=
  if enabled s e then handle s e else s.

(** States a sequence of handler calls leads to, in any order. *)
Inductive reachable : State -> Prop :=
| reachable_init : reachable initialState
| reachable_handle s e : reachable s -> reachable (handle s e).

(** The handlers as closures of a render: what they read, they read in
    the cells [r] of the render that made them; what they write, they write
    into the cells [s] there are when they run.  The handlers above are these
    with [r = s]. *)
Definition handleStartGameFrom (r s : State) : State :=
  s |> setGameStatus playing |> setHasChecked false.

Definition handleCheckEnergyFrom (r s : State) : State :=
  let s1 := s |> setHasChecked true in
  if currentIsInRange r then
    s1 |> setGameStatus won
  else
    let newAttempts := attemptsLeft r - 1 in
    let s2 := s1 |> setAttemptsLeft newAttempts in
    if newAttempts =? 0 then s2 |> setGameStatus lost else s2.

Definition handleReplayFrom (r s : State) : State :=
  s |> setGameStatus intro
    |> setAttemptsLeft 5
    |> setPlacedItems []
    |> setHasChecked false
    |> setAvailableItems (initialItems 5).

Definition handleDropFrom (r s : State) (itemId : string) : State :=
  match findById itemId (availableItems r) with
  | Some item =>
      s |> setAvailableItems (removeById itemId (availableItems r))
        |> setPlacedItems (placedItems r ++ [item])
        |> setHasChecked false
  | None => s
  end.

Definition handleRemoveItemFrom (r s : State) (id : string) : State :=
  match findById id (placedItems r) with
  | Some item =>
      s |> setPlacedItems (removeById id (placedItems r))
        |> setAvailableItems (availableItems r ++ [item])
        |> setHasChecked false
  | None => s
  end.

Definition handleFrom (r s : State) (e : Event) : State :=
  match e with
  | StartGame => handleStartGameFrom r s
  | Drop itemId => handleDropFrom r s itemId
  | RemoveItem id => handleRemoveItemFrom r s id
  | CheckEnergy => handleCheckEnergyFrom r s
  | Replay => handleReplayFrom r s
  end.

(** The component on the page: its cells, and the cells its mounted screen
    was last rendered from.  The two are the same unless the screen is
    leaving. *)
Record UI : Type := mkUI { cells : State; rendered : State }.

Definition initialUI : UI := mkUI initialState initialState.

(** The render after the cells became [s']: a screen whose phase is still
    the current one is rendered again, from [s']; a screen whose phase is not
    the current one any more is leaving and keeps its last render [r]. *)
Definition rerender (r s' : State) : UI :=
  if GameStatus_eqb (gameStatus s') (gameStatus r)
  then mkUI s' s' else mkUI s' r.

(** An event on the mounted screen: the JSX that offers it and the handler
    that takes it are those of the render of that screen. *)
Definition fire (u : UI) (e : Event) : UI :=
  if enabled (rendered u) e
  then rerender (rendered u) (handleFrom (rendered u) (cells u) e)
  else u.

(** The end of an exit animation: the screen of the current phase is
    mounted, rendered from the current cells. *)
Definition exitComplete (u : UI) : UI := mkUI (cells u) (cells u).

Inductive ui_steps : UI -> Prop :=
| ui_steps_init : ui_steps initialUI
| ui_steps_fire u e : ui_steps u -> ui_steps (fire u e)
| ui_steps_exit u : ui_steps u -> ui_steps (exitComplete u).

(** The states of the cells that events on the screens lead to. *)
Definition ui_reachable (s : State) : Prop :=
  exists u : UI, ui_steps u /\ cells u = s.

End Static.

(** ** The first drag-and-drop variant: counters of available items *)

Module Counts.

Definition SOLAR_WEIGHT : Z := 2.
Definition WIND_WEIGHT : Z := 6.
Definition HYDRO_WEIGHT : Z := 12.
Definition THRESHOLD_MIN : Z := 80.
Definition THRESHOLD_MAX : Z := 88.

Record State : Type := mkState {
  gameStatus : GameStatus;
  attemptsLeft : Z;
  availableSolar : Z;
  availableWind : Z;
  availableHydro : Z;
  placedItems : list PlacedItem
}.

Definition initialState : State :=
  {| gameStatus := intro;
     attemptsLeft := 5;
     availableSolar := 5;
     availableWind := 5;
     availableHydro := 5;
     placedItems := [] |}.

Definition setGameStatus (v : GameStatus) (s : State) : State :=
  mkState v (attemptsLeft s) (availableSolar s) (availableWind s)
          (availableHydro s) (placedItems s).
Definition setAttemptsLeft (v : Z) (s : State) : State :=
  mkState (gameStatus s) v (availableSolar s) (availableWind s)
          (availableHydro s) (placedItems s).
Definition setAvailableSolar (v : Z) (s : State) : State :=
  mkState (gameStatus s) (attemptsLeft s) v (availableWind s)
          (availableHydro s) (placedItems s).
Definition setAvailableWind (v : Z) (s : State) : State :=
  mkState (gameStatus s) (attemptsLeft s) (availableSolar s) v
          (availableHydro s) (placedItems s).
Definition setAvailableHydro (v : Z) (s : State) : State :=
  mkState (gameStatus s) (attemptsLeft s) (availableSolar s)
          (availableWind s) v (placedItems s).
Definition setPlacedItems (v : list PlacedItem) (s : State) : State :=
  mkState (gameStatus s) (attemptsLeft s) (availableSolar s)
          (availableWind s) (availableHydro s) v.

Definition weight (t : EnergyType) : Z :=
  match t with
  | solar => SOLAR_WEIGHT
  | wind => WIND_WEIGHT
  | hydro => HYDRO_WEIGHT
  end.

Definition totalEnergy (placed : list PlacedItem) : Z :=
  fold_left
    (fun sum item =>
       if EnergyType_eqb (type item) solar then sum + SOLAR_WEIGHT
       else if EnergyType_eqb (type item) wind then sum + WIND_WEIGHT
       else if EnergyType_eqb (type item) hydro then sum + HYDRO_WEIGHT
       else sum)
    placed 0.

(** [const isInRange = totalEnergy >= THRESHOLD_MIN && totalEnergy <=
    THRESHOLD_MAX] *)
Definition isInRange (s : State) : bool :=
  (totalEnergy (placedItems s) >=? THRESHOLD_MIN)
  && (totalEnergy (placedItems s) <=? THRESHOLD_MAX).

Definition handleStartGame (s : State) : State :=
  s |> setGameStatus playing.

Definition handleCheckEnergy (s : State) : State :=
  if isInRange s then
    s |> setGameStatus won
  else
    let newAttempts := attemptsLeft s - 1 in
    let s1 := s |> setAttemptsLeft newAttempts in
    if newAttempts =? 0 then s1 |> setGameStatus lost else s1.

Definition handleReplay (s : State) : State :=
  s |> setGameStatus intro
    |> setAttemptsLeft 5
    |> setPlacedItems []
    |> setAvailableSolar 5
    |> setAvailableWind 5
    |> setAvailableHydro 5.

(** [handleDrop] reads the energy type from the drag payload and names the
    new item with [crypto.randomUUID()]; [uuid] is the value that call
    returned. *)
Definition handleDrop (s : State) (type : EnergyType) (uuid : string)
  : State :=
  if EnergyType_eqb type solar && (availableSolar s >? 0) then
    s |> setAvailableSolar (availableSolar s - 1)
      |> setPlacedItems (placedItems s ++ [mkItem uuid type])
  else if EnergyType_eqb type wind && (availableWind s >? 0) then
    s |> setAvailableWind (availableWind s - 1)
      |> setPlacedItems (placedItems s ++ [mkItem uuid type])
  else if EnergyType_eqb type hydro && (availableHydro s >? 0) then
    s |> setAvailableHydro (availableHydro s - 1)
      |> setPlacedItems (placedItems s ++ [mkItem uuid type])
  else s.

Definition handleRemoveItem (s : State) (id : string) : State :=
  match findById id (placedItems s) with
  | Some item =>
      let s1 := if EnergyType_eqb (type item) solar
                then s |> setAvailableSolar (availableSolar s + 1) else s in
      let s2 := if EnergyType_eqb (type item) wind
                then s1 |> setAvailableWind (availableWind s + 1) else s1 in
      let s3 := if EnergyType_eqb (type item) hydro
                then s2 |> setAvailableHydro (availableHydro s + 1) else s2 in
      s3 |> setPlacedItems (removeById id (placedItems s))
  | None => s
  end.

Inductive Event : Type :=
| StartGame
| Drop (type : EnergyType) (uuid : string)
| RemoveItem (id : string)
| CheckEnergy
| Replay.

Definition handle (s : State) (e : Event) : State :=
  match e with
  | StartGame => handleStartGame s
  | Drop type uuid => handleDrop s type uuid
  | RemoveItem id => handleRemoveItem s id
  | CheckEnergy => handleCheckEnergy s
  | Replay => handleReplay s
  end.

(** The same gates as in the other variants, in a render from the cells
    [s]: one screen per [gameStatus], and
    [disabled={placedItems.length === 0}] on the check button. *)
Definition enabled (s : State) (e : Event) : bool :=
  match e with
  | StartGame => GameStatus_eqb (gameStatus s) intro
  | Drop _ _ | RemoveItem _ => GameStatus_eqb (gameStatus s) playing
  | CheckEnergy =>
      GameStatus_eqb (gameStatus s) playing
      && negb (Nat.eqb (List.length (placedItems s)) 0)
  | Replay =>
      GameStatus_eqb (gameStatus s) won || GameStatus_eqb (gameStatus s) lost
  end.

(** An event on a screen that was rendered from the current cells. *)
Definition dispatch (s : State) (e : Event) : State :=
  if enabled s e then handle s e else s.

(** The handlers as closures of a render that read the cells [r] of that
    render and write into the cells [s] there are when they run. *)
Definition handleStartGameFrom (r s : State) : State :=
  s |> setGameStatus playing.

Definition handleCheckEnergyFrom (r s : State) : State :=
  if isInRange r then
    s |> setGameStatus won
  else
    let newAttempts := attemptsLeft r - 1 in
    let s1 := s |> setAttemptsLeft newAttempts in
    if newAttempts =? 0 then s1 |> setGameStatus lost else s1.

Definition handleReplayFrom (r s : State) : State :=
  s |> setGameStatus intro
    |> setAttemptsLeft 5
    |> setPlacedItems []
    |> setAvailableSolar 5
    |> setAvailableWind 5
    |> setAvailableHydro 5.

Definition handleDropFrom (r s : State) (type : EnergyType) (uuid : string)
  : State :=
  if EnergyType_eqb type solar && (availableSolar r >? 0) then
    s |> setAvailableSolar (availableSolar r - 1)
      |> setPlacedItems (placedItems r ++ [mkItem uuid type])
  else if EnergyType_eqb type wind && (availableWind r >? 0) then
    s |> setAvailableWind (availableWind r - 1)
      |> setPlacedItems (placedItems r ++ [mkItem uuid type])
  else if EnergyType_eqb type hydro && (availableHydro r >? 0) then
    s |> setAvailableHydro (availableHydro r - 1)
      |> setPlacedItems (placedItems r ++ [mkItem uuid type])
  else s.

Definition handleRemoveItemFrom (r s : State) (id : string) : State :=
  match findById id (placedItems r) with
  | Some item =>
      let s1 := if EnergyType_eqb (type item) solar
                then s |> setAvailableSolar (availableSolar r + 1) else s in
      let s2 := if EnergyType_eqb (type item) wind
                then s1 |> setAvailableWind (availableWind r + 1) else s1 in
      let s3 := if EnergyType_eqb (type item) hydro
                then s2 |> setAvailableHydro (availableHydro r + 1) else s2 in
      s3 |> setPlacedItems (removeById id (placedItems r))
  | None => s
  end.

Definition handleFrom (r s : State) (e : Event) : State :=
  match e with
  | StartGame => handleStartGameFrom r s
  | Drop type uuid => handleDropFrom r s type uuid
  | RemoveItem id => handleRemoveItemFrom r s id
  | CheckEnergy => handleCheckEnergyFrom r s
  | Replay => handleReplayFrom r s
  end.

Record UI : Type := mkUI { cells : State; rendered : State }.

Definition initialUI : UI := mkUI initialState initialState.

Definition rerender (r s' : State) : UI :=
  if GameStatus_eqb (gameStatus s') (gameStatus r)
  then mkUI s' s' else mkUI s' r.

Definition fire (u : UI) (e : Event) : UI :=
  if enabled (rendered u) e
  then rerender (rendered u) (handleFrom (rendered u) (cells u) e)
  else u.

Definition exitComplete (u : UI) : UI := mkUI (cells u) (cells u).

Inductive ui_steps : UI -> Prop :=
| ui_steps_init : ui_steps initialUI
| ui_steps_fire u e : ui_steps u -> ui_steps (fire u e)
| ui_steps_exit u : ui_steps u -> ui_steps (exitComplete u).

Definition ui_reachable (s : State) : Prop :=
  exists u : UI, ui_steps u /\ cells u = s.

(** [crypto.randomUUID()] is taken to return an id that no placed item
    has. *)
Definition freshId (s : State) (e : Event) : Prop :=
  match e with
  | Drop _ uuid => ~ In uuid (map id (placedItems s))
  | _ => True
  end.

(** States a sequence of handler calls leads to, each drop with a fresh
    id. *)
Inductive reachable : State -> Prop :=
| reachable_init : reachable initialState
| reachable_handle s e :
    reachable s -> freshId s e -> reachable (handle s e).

(** The counter of a type. *)
Definition availableOf (s : State) (t : EnergyType) : Z :=
  match t with
  | solar => availableSolar s
  | wind => availableWind s
  | hydro => availableHydro s
  end.

End Counts.

(** ** Numbers of the weather variant

    The weights of the weather variant are not integers: they are binary64
    numbers, Rocq's primitive [float]. *)

(** The string [x.toFixed(2)] returns, by what it denotes. *)
Inductive Fixed2 : Type :=
| Hundredths (negative : bool) (n : Z)
    (** digits with two decimals, [n / 100] in value, after a minus sign
        when [negative] *)
| Plain (x : float).
    (** the string of [x] itself: [x] is not finite, or is 1e21 or more *)

(** The integer nearest to [100 * m * 2^e], the larger one of two. *)
Definition nearestHundredths (m : positive) (e : Z) : Z :=
  if 0 <=? e then 100 * Z.pos m * 2 ^ e
  else (200 * Z.pos m + 2 ^ (- e)) / 2 ^ (1 - e).

(** [10^21 <= m * 2^e] *)
Definition atLeast1e21 (m : positive) (e : Z) : bool :=
  if 0 <=? e then 10 ^ 21 <=? Z.pos m * 2 ^ e
  else 10 ^ 21 * 2 ^ (- e) <=? Z.pos m.

(** [Number.prototype.toFixed] with two fraction digits: a number that is
    not finite or is 1e21 or more prints as itself; otherwise the sign is set
    aside and the digits are those of the integer [n] for which [n / 100] is
    nearest to the exact value of the number, the larger [n] of two. *)
Definition toFixed2 (x : float) : Fixed2 :=
  match Prim2SF x with
  | S754_zero _ => Hundredths false 0
  | S754_finite s m e =>
      if atLeast1e21 m e then Plain x
      else Hundredths s (nearestHundredths m e)
  | S754_infinity _ | S754_nan => Plain x
  end.

(** [Number(string)] on those strings: the binary64 number nearest to the
    decimal value, which is the correctly rounded quotient of [n] by 100. *)
Definition Number (d : Fixed2) : float :=
  match d with
  | Plain x => x
  | Hundredths s n =>
      match n with
      | Z.pos p =>
          SF2Prim
            (SFdiv prec emax (S754_finite s p 0) (S754_finite false 100 0))
      | _ => SF2Prim (S754_zero s)
      end
  end.

(** ** The weather variant *)

Module Weather.
(** [{ sun: number, wind: number, rain: number }] *)
Record t : Type := mk { sun : float; wind : float; rain : float }.
End Weather.

Module Weights.
(** [{ solar: number, wind: number, hydro: number }] *)
Record t : Type := mk { solar : float; wind : float; hydro : float }.
End Weights.

Module Dynamic.

Definition NUM_ITEMS_PER_TYPE : nat := 5.
Definition THRESHOLD_MIN : float := 100%float.
Definition THRESHOLD_MAX : float := 150%float.

Record State : Type := mkState {
  gameStatus : GameStatus;
  attemptsLeft : Z;
  hasChecked : bool;
  placedItems : list PlacedItem;
  weather : Weather.t;
  availableItems : list PlacedItem
}.

Definition initialState : State :=
  {| gameStatus := intro;
     attemptsLeft := 3;
     hasChecked := false;
     placedItems := [];
     weather := Weather.mk 0 0 0;
     availableItems := initialItems NUM_ITEMS_PER_TYPE |}.

Definition setGameStatus (v : GameStatus) (s : State) : State :=
  mkState v (attemptsLeft s) (hasChecked s) (placedItems s) (weather s)
          (availableItems s).
Definition setAttemptsLeft (v : Z) (s : State) : State :=
  mkState (gameStatus s) v (hasChecked s) (placedItems s) (weather s)
          (availableItems s).
Definition setHasChecked (v : bool) (s : State) : State :=
  mkState (gameStatus s) (attemptsLeft s) v (placedItems s) (weather s)
          (availableItems s).
Definition setPlacedItems (v : list PlacedItem) (s : State) : State :=
  mkState (gameStatus s) (attemptsLeft s) (hasChecked s) v (weather s)
          (availableItems s).
Definition setWeather (v : Weather.t) (s : State) : State :=
  mkState (gameStatus s) (attemptsLeft s) (hasChecked s) (placedItems s) v
          (availableItems s).
Definition setAvailableItems (v : list PlacedItem) (s : State) : State :=
  mkState (gameStatus s) (attemptsLeft s) (hasChecked s) (placedItems s)
          (weather s) v.

(** [(weather.sun * 100) / NUM_ITEMS_PER_TYPE], before any rounding. *)
Definition rawWeight (intensity : float) : float :=
  (intensity * 100 / 5)%float.

Definition getDynamicWeights (w : Weather.t) : Weights.t :=
  let solarWeight := (Weather.sun w * 100 / 5)%float in
  let windWeight := (Weather.wind w * 100 / 5)%float in
  let hydroWeight := (Weather.rain w * 100 / 5)%float in
  {| Weights.solar := Number (toFixed2 solarWeight);
     Weights.wind := Number (toFixed2 windWeight);
     Weights.hydro := Number (toFixed2 hydroWeight) |}.

Definition SOLAR_WEIGHT (w : Weather.t) : float :=
  Weights.solar (getDynamicWeights w).
Definition WIND_WEIGHT (w : Weather.t) : float :=
  Weights.wind (getDynamicWeights w).
Definition HYDRO_WEIGHT (w : Weather.t) : float :=
  Weights.hydro (getDynamicWeights w).

Definition weight (w : Weather.t) (t : EnergyType) : float :=
  match t with
  | solar => SOLAR_WEIGHT w
  | wind => WIND_WEIGHT w
  | hydro => HYDRO_WEIGHT w
  end.


(** [placedItems.reduce(..., 0)] with the weights of the current weather. *)
Definition totalEnergy (w : Weather.t) (placed : list PlacedItem) : float :=
  fold_left
    (fun sum item =>
       if EnergyType_eqb (type item) solar then (sum + SOLAR_WEIGHT w)%float
       else if EnergyType_eqb (type item) wind then (sum + WIND_WEIGHT w)%float
       else if EnergyType_eqb (type item) hydro
       then (sum + HYDRO_WEIGHT w)%float
       else sum)
    placed 0%float.

(** [totalEnergy >= THRESHOLD_MIN && totalEnergy <= THRESHOLD_MAX] *)
Definition currentIsInRange (s : State) : bool :=
  (THRESHOLD_MIN <=? totalEnergy (weather s) (placedItems s))%float
  && (totalEnergy (weather s) (placedItems s) <=? THRESHOLD_MAX)%float.

Definition isInRange (s : State) : bool :=
  hasChecked s && currentIsInRange s.

Definition handleStartGame (s : State) : State :=
  s |> setGameStatus playing |> setHasChecked false.

Definition handleCheckEnergy (s : State) : State :=
  let s1 := s |> setHasChecked true in
  if currentIsInRange s then
    s1 |> setGameStatus won
  else
    let newAttempts := attemptsLeft s - 1 in
    let s2 := s1 |> setAttemptsLeft newAttempts in
    if newAttempts =? 0 then s2 |> setGameStatus lost else s2.

Definition handleReplay (s : State) : State :=
  s |> setGameStatus intro
    |> setAttemptsLeft 3
    |> setPlacedItems []
    |> setHasChecked false
    |> setWeather (Weather.mk 0 0 0)
    |> setAvailableItems (initialItems NUM_ITEMS_PER_TYPE).

(** [targetContainer: 'available' | 'powerGrid'] *)
Inductive Container : Type := available | powerGrid.

Definition handleDrop (s : State) (targetContainer : Container)
           (itemId : string) : State :=
  let item :=
    match findById itemId (availableItems s) with
    | Some i => Some i
    | None => findById itemId (placedItems s)
    end in
  match item with
  | Some item =>
      let s1 :=
        match targetContainer with
        | powerGrid =>
            if someById itemId (availableItems s) then
              s |> setAvailableItems (removeById itemId (availableItems s))
                |> setPlacedItems (placedItems s ++ [item])
            else s
        | available =>
            if someById itemId (placedItems s) then
              s |> setPlacedItems (removeById itemId (placedItems s))
                |> setAvailableItems (availableItems s ++ [item])
            else s
        end in
      s1 |> setHasChecked false
  | None => s
  end.

Definition handleAddItem (s : State) (id : string) : State :=
  match findById id (availableItems s) with
  | Some item =>
      s |> setAvailableItems (removeById id (availableItems s))
        |> setPlacedItems (placedItems s ++ [item])
        |> setHasChecked false
  | None => s
  end.

Definition handleRemoveItem (s : State) (id : string) : State :=
  match findById id (placedItems s) with
  | Some item =>
      s |> setPlacedItems (removeById id (placedItems s))
        |> setAvailableItems (availableItems s ++ [item])
        |> setHasChecked false
  | None => s
  end.

(** [type: 'sun' | 'wind' | 'rain'] *)
Inductive WeatherKey : Type := sunKey | windKey | rainKey.

(** [setWeather(prev => ({ ...prev, [type]: value / 100 }));
    setHasChecked(false)] *)
Definition handleWeatherChange (s : State) (type : WeatherKey)
           (value : float) : State :=
  let prev := weather s in
  let v := (value / 100)%float in
  s |> setWeather
         match type with
         | sunKey => Weather.mk v (Weather.wind prev) (Weather.rain prev)
         | windKey => Weather.mk (Weather.sun prev) v (Weather.rain prev)
         | rainKey => Weather.mk (Weather.sun prev) (Weather.wind prev) v
         end
    |> setHasChecked false.

Inductive Event : Type :=
| StartGame
| DropOn (targetContainer : Container) (itemId : string)
| AddItem (id : string)
| RemoveItem (id : string)
| WeatherChange (type : WeatherKey) (value : float)
| CheckEnergy
| Replay.

Definition handle (s : State) (e : Event) : State :=
  match e with
  | StartGame => handleStartGame s
  | DropOn targetContainer itemId => handleDrop s targetContainer itemId
  | AddItem id => handleAddItem s id
  | RemoveItem id => handleRemoveItem s id
  | WeatherChange type value => handleWeatherChange s type value
  | CheckEnergy => handleCheckEnergy s
  | Replay => handleReplay s
  end.

(** The gates of the JSX, in a render from the cells [s]: the weather
    card, the two drop zones, the items and the check button (with
    [disabled={placedItems.length === 0}]) are rendered while
    [gameStatus === "playing"]; the start button on the intro screen; the
    replay button on the won and lost screens. *)
Definition enabled (s : State) (e : Event) : bool :=
  match e with
  | StartGame => GameStatus_eqb (gameStatus s) intro
  | DropOn _ _ | AddItem _ | RemoveItem _ | WeatherChange _ _ =>
      GameStatus_eqb (gameStatus s) playing
  | CheckEnergy =>
      GameStatus_eqb (gameStatus s) playing
      && negb (Nat.eqb (List.length (placedItems s)) 0)
  | Replay =>
      GameStatus_eqb (gameStatus s) won || GameStatus_eqb (gameStatus s) lost
  end.

(** An event on a screen that was rendered from the current cells. *)
Definition dispatch (s : State) (e : Event) : State :=
  if enabled s e then handle s e else s.

(** States a sequence of handler calls leads to, in any order. *)
Inductive reachable : State -> Prop :=
| reachable_init : reachable initialState
| reachable_handle s e : reachable s -> reachable (handle s e).

(** The handlers as closures of a render that read the cells [r] of that
    render and write into the cells [s] there are when they run.  The weather
    handler updates the weather with a function of the weather there is
    ([setWeather(prev => ...)]). *)
Definition handleStartGameFrom (r s : State) : State :=
  s |> setGameStatus playing |> setHasChecked false.

Definition handleCheckEnergyFrom (r s : State) : State :=
  let s1 := s |> setHasChecked true in
  if currentIsInRange r then
    s1 |> setGameStatus won
  else
    let newAttempts := attemptsLeft r - 1 in
    let s2 := s1 |> setAttemptsLeft newAttempts in
    if newAttempts =? 0 then s2 |> setGameStatus lost else s2.

Definition handleReplayFrom (r s : State) : State :=
  s |> setGameStatus intro
    |> setAttemptsLeft 3
    |> setPlacedItems []
    |> setHasChecked false
    |> setWeather (Weather.mk 0 0 0)
    |> setAvailableItems (initialItems NUM_ITEMS_PER_TYPE).

Definition handleDropFrom (r s : State) (targetContainer : Container)
           (itemId : string) : State :=
  let item :=
    match findById itemId (availableItems r) with
    | Some i => Some i
    | None => findById itemId (placedItems r)
    end in
  match item with
  | Some item =>
      let s1 :=
        match targetContainer with
        | powerGrid =>
            if someById itemId (availableItems r) then
              s |> setAvailableItems (removeById itemId (availableItems r))
                |> setPlacedItems (placedItems r ++ [item])
            else s
        | available =>
            if someById itemId (placedItems r) then
              s |> setPlacedItems (removeById itemId (placedItems r))
                |> setAvailableItems (availableItems r ++ [item])
            else s
        end in
      s1 |> setHasChecked false
  | None => s
  end.

Definition handleAddItemFrom (r s : State) (id : string) : State :=
  match findById id (availableItems r) with
  | Some item =>
      s |> setAvailableItems (removeById id (availableItems r))
        |> setPlacedItems (placedItems r ++ [item])
        |> setHasChecked false
  | None => s
  end.

Definition handleRemoveItemFrom (r s : State) (id : string) : State :=
  match findById id (placedItems r) with
  | Some item =>
      s |> setPlacedItems (removeById id (placedItems r))
        |> setAvailableItems (availableItems r ++ [item])
        |> setHasChecked false
  | None => s
  end.

Definition handleFrom (r s : State) (e : Event) : State :=
  match e with
  | StartGame => handleStartGameFrom r s
  | DropOn targetContainer itemId => handleDropFrom r s targetContainer itemId
  | AddItem id => handleAddItemFrom r s id
  | RemoveItem id => handleRemoveItemFrom r s id
  | WeatherChange type value => handleWeatherChange s type value
  | CheckEnergy => handleCheckEnergyFrom r s
  | Replay => handleReplayFrom r s
  end.

Record UI : Type := mkUI { cells : State; rendered : State }.

Definition initialUI : UI := mkUI initialState initialState.

Definition rerender (r s' : State) : UI :=
  if GameStatus_eqb (gameStatus s') (gameStatus r)
  then mkUI s' s' else mkUI s' r.

(** The weather card is not a child of [AnimatePresence]: it is there
    exactly while the current phase is playing, rendered from the current
    cells.  The rest is offered by the mounted screen. *)
Definition offered (u : UI) (e : Event) : bool :=
  match e with
  | WeatherChange _ _ => enabled (cells u) e
  | _ => enabled (rendered u) e
  end.

Definition fire (u : UI) (e : Event) : UI :=
  if offered u e
  then rerender (rendered u) (handleFrom (rendered u) (cells u) e)
  else u.

Definition exitComplete (u : UI) : UI := mkUI (cells u) (cells u).

Inductive ui_steps : UI -> Prop :=
| ui_steps_init : ui_steps initialUI
| ui_steps_fire u e : ui_steps u -> ui_steps (fire u e)
| ui_steps_exit u : ui_steps u -> ui_steps (exitComplete u).

Definition ui_reachable (s : State) : Prop :=
  exists u : UI, ui_steps u /\ cells u = s.

End Dynamic.

(** ** The slider variant *)

Module Sliders.

Definition solarWeight : float := 1.2%float.
Definition windWeight : float := 0.8%float.
Definition hydroWeight : float := 1.0%float.
Definition THRESHOLD_MIN : float := 10%float.
Definition THRESHOLD_MAX : float := 20%float.

Record State : Type := mkState {
  solarInput : float;
  windInput : float;
  hydroInput : float
}.

Definition initialState : State := mkState 5 5 5.

(** [solarInput * solarWeight + windInput * windWeight + hydroInput *
    hydroWeight] *)
Definition totalEnergy (s : State) : float :=
  (solarInput s * solarWeight + windInput s * windWeight
   + hydroInput s * hydroWeight)%float.

Inductive CityState : Type := off | powered | overload.

(** [let cityState = "off"; if (totalEnergy >= THRESHOLD_MIN && totalEnergy
    <= THRESHOLD_MAX) cityState = "powered"; else if (totalEnergy >
    THRESHOLD_MAX) cityState = "overload";] *)
Definition classify (totalEnergy : float) : CityState :=
  if ((THRESHOLD_MIN <=? totalEnergy) && (totalEnergy <=? THRESHOLD_MAX))%float
  then powered
  else if (THRESHOLD_MAX <? totalEnergy)%float then overload
  else off.

Definition cityState (s : State) : CityState := classify (totalEnergy s).

End Sliders.

(** ** Predicates of the specification *)

(** No item is in both collections. *)
Definition disjoint (l1 l2 : list PlacedItem) : Prop :=
  forall x, In x l1 -> ~ In x l2.

(** The ids of the items of the two collections are distinct: an item has
    one id, no two items share one, and no item is in both collections. *)
Definition distinctIds (availableItems placedItems : list PlacedItem) : Prop :=
  NoDup (map id (availableItems ++ placedItems)).

(** The two collections together hold the stock of the game, each item
    once. *)
Definition holdsStock (availableItems placedItems : list PlacedItem) : Prop :=
  Permutation (availableItems ++ placedItems) (initialItems 5).

(** The number of placed items of a type. *)
Definition placedOf (t : EnergyType) (placed : list PlacedItem) : Z :=
  Z.of_nat
    (List.length (filter (fun item => EnergyType_eqb (type item) t) placed)).

(** The number of items of the game: three types, five items of each. *)
Definition totalItemCount : nat := 3 * 5.

(** A move of an item that is in the collection it is taken from. *)
Definition Static_presentMove (s : Static.State) (e : Static.Event) : Prop :=
  match e with
  | Static.Drop itemId => In itemId (map id (Static.availableItems s))
  | Static.RemoveItem id' => In id' (map id (Static.placedItems s))
  | _ => False
  end.

Definition Dynamic_presentMove (s : Dynamic.State) (e : Dynamic.Event)
  : Prop :=
  match e with
  | Dynamic.DropOn Dynamic.powerGrid itemId
  | Dynamic.AddItem itemId => In itemId (map id (Dynamic.availableItems s))
  | Dynamic.DropOn Dynamic.available itemId
  | Dynamic.RemoveItem itemId => In itemId (map id (Dynamic.placedItems s))
  | _ => False
  end.

(** The weight as the specification words it, [weather[category] * 100 /
    itemsPerCategory] with no rounding. *)
Definition unroundedWeight (w : Weather.t) (t : EnergyType) : float :=
  match t with
  | solar => Dynamic.rawWeight (Weather.sun w)
  | wind => Dynamic.rawWeight (Weather.wind w)
  | hydro => Dynamic.rawWeight (Weather.rain w)
  end.

(** A position of a weather slider ([max={100}], [step={1}]) as a number. *)
Definition sliderValue (v : nat) : float :=
  PrimFloat.of_uint63 (Uint63.of_Z (Z.of_nat v)).

(** The state after a sequence of events from the initial state, each made
    on a screen rendered from the current cells: the exit animation an event
    starts has ended before the next event. *)
Definition Static_play (events : list Static.Event) : Static.State :=
  fold_left Static.dispatch events Static.initialState.

Definition Counts_play (events : list Counts.Event) : Counts.State :=
  fold_left Counts.dispatch events Counts.initialState.

Definition Dynamic_play (events : list Dynamic.Event) : Dynamic.State :=
  fold_left Dynamic.dispatch events Dynamic.initialState.

(** Events made one after the other on the mounted screen, with no exit
    animation ending in between. *)
Definition Static_fires (u : Static.UI) (events : list Static.Event)
  : Static.UI :=
  fold_left Static.fire events u.

Definition Counts_fires (u : Counts.UI) (events : list Counts.Event)
  : Counts.UI :=
  fold_left Counts.fire events u.

(** What holds of the cells on each screen when every event was made on a
    screen rendered from them. *)
Definition Static_screenInv (s : Static.State) : Prop :=
  match Static.gameStatus s with
  | intro => s = Static.initialState
  | playing =>
      1 <= Static.attemptsLeft s <= 5
      /\ (Static.hasChecked s = true -> Static.currentIsInRange s = false)
  | won =>
      1 <= Static.attemptsLeft s <= 5
      /\ Static.currentIsInRange s = true
      /\ Static.hasChecked s = true
  | lost =>
      Static.attemptsLeft s = 0
      /\ Static.currentIsInRange s = false
      /\ Static.hasChecked s = true
  end.

Definition Counts_screenInv (s : Counts.State) : Prop :=
  match Counts.gameStatus s with
  | intro => s = Counts.initialState
  | playing => 1 <= Counts.attemptsLeft s <= 5
  | won => 1 <= Counts.attemptsLeft s <= 5 /\ Counts.isInRange s = true
  | lost => Counts.attemptsLeft s = 0 /\ Counts.isInRange s = false
  end.

Definition Dynamic_screenInv (s : Dynamic.State) : Prop :=
  match Dynamic.gameStatus s with
  | intro => s = Dynamic.initialState
  | playing =>
      1 <= Dynamic.attemptsLeft s <= 3
      /\ (Dynamic.hasChecked s = true -> Dynamic.currentIsInRange s = false)
  | won =>
      1 <= Dynamic.attemptsLeft s <= 3
      /\ Dynamic.currentIsInRange s = true
      /\ Dynamic.hasChecked s = true
  | lost =>
      Dynamic.attemptsLeft s = 0
      /\ Dynamic.currentIsInRange s = false
      /\ Dynamic.hasChecked s = true
  end.

(** What holds of the cells [s] and of the last render [r] of the mounted
    screen, by the phase of each: a screen rendered from the current cells
    ([r = s]), the intro screen leaving for a game, the playing screen leaving
    after the check that ended the game, a won or lost screen leaving after
    the replay.  A render of the playing screen has [hasChecked] only after a
    check that failed on its grid. *)
Definition Static_uiInv (u : Static.UI) : Prop :=
  let r := Static.rendered u in
  let s := Static.cells u in
  (Static.gameStatus r = playing -> Static.hasChecked r = true ->
   Static.currentIsInRange r = false)
  /\ match Static.gameStatus r, Static.gameStatus s with
     | intro, intro => r = Static.initialState /\ s = Static.initialState
     | intro, playing =>
         Static.attemptsLeft s = 5 /\ Static.hasChecked s = false
     | playing, playing => r = s /\ 1 <= Static.attemptsLeft s <= 5
     | playing, won =>
         Static.currentIsInRange r = true
         /\ 1 <= Static.attemptsLeft s <= 5
     | playing, lost =>
         Static.currentIsInRange r = false
         /\ Static.attemptsLeft r = 1 /\ Static.attemptsLeft s = 0
     | won, won => r = s /\ 1 <= Static.attemptsLeft s <= 5
     | lost, lost => r = s /\ Static.attemptsLeft s = 0
     | won, intro | lost, intro => s = Static.initialState
     | _, _ => False
     end.

Definition Counts_uiInv (u : Counts.UI) : Prop :=
  let r := Counts.rendered u in
  let s := Counts.cells u in
  match Counts.gameStatus r, Counts.gameStatus s with
  | intro, intro => r = Counts.initialState /\ s = Counts.initialState
  | intro, playing => Counts.attemptsLeft s = 5
  | playing, playing => r = s /\ 1 <= Counts.attemptsLeft s <= 5
  | playing, won =>
      Counts.isInRange r = true /\ 1 <= Counts.attemptsLeft s <= 5
  | playing, lost =>
      Counts.isInRange r = false
      /\ Counts.attemptsLeft r = 1 /\ Counts.attemptsLeft s = 0
  | won, won => r = s /\ 1 <= Counts.attemptsLeft s <= 5
  | lost, lost => r = s /\ Counts.attemptsLeft s = 0
  | won, intro | lost, intro => s = Counts.initialState
  | _, _ => False
  end.

Definition Dynamic_uiInv (u : Dynamic.UI) : Prop :=
  let r := Dynamic.rendered u in
  let s := Dynamic.cells u in
  (Dynamic.gameStatus r = playing -> Dynamic.hasChecked r = true ->
   Dynamic.currentIsInRange r = false)
  /\ match Dynamic.gameStatus r, Dynamic.gameStatus s with
     | intro, intro => r = Dynamic.initialState /\ s = Dynamic.initialState
     | intro, playing =>
         Dynamic.attemptsLeft s = 3 /\ Dynamic.hasChecked s = false
     | playing, playing => r = s /\ 1 <= Dynamic.attemptsLeft s <= 3
     | playing, won =>
         Dynamic.currentIsInRange r = true
         /\ 1 <= Dynamic.attemptsLeft s <= 3
     | playing, lost =>
         Dynamic.currentIsInRange r = false
         /\ Dynamic.attemptsLeft r = 1 /\ Dynamic.attemptsLeft s = 0
     | won, won => r = s /\ 1 <= Dynamic.attemptsLeft s <= 3
     | lost, lost => r = s /\ Dynamic.attemptsLeft s = 0
     | won, intro | lost, intro => s = Dynamic.initialState
     | _, _ => False
     end.

(** The positions of an input slider of the slider variant ([min="0"],
    [max="10"], [step="0.5"]), as [parseFloat] reads them. *)
Definition inputPositions : list float :=
  map (fun k => (sliderValue k / 2)%float) (seq 0 21).

(** * Properties *)

(** ** Lists of items searched and filtered by id *)

Section ItemLists.

Implicit Types (i : string) (x : PlacedItem) (l : list PlacedItem).

Lemma findById_some i l x :
  findById i l = Some x -> In x l /\ id x = i.
Proof.
  unfold findById. intros H. apply find_some in H as [Hin Heq].
  split; [assumption | now apply String.eqb_eq].
Qed.

Lemma findById_none i l :
  findById i l = None <-> ~ In i (map id l).
Proof.
  unfold findById. induction l as [|a l IH]; simpl.
  - tauto.
  - destruct (String.eqb_spec (id a) i) as [E|E].
    + split; [discriminate | intros H; exfalso; apply H; now left].
    + rewrite IH. tauto.
Qed.

Lemma findById_in i l :
  In i (map id l) -> exists x, findById i l = Some x.
Proof.
  intros Hin. destruct (findById i l) as [x|] eqn:E.
  - now exists x.
  - apply findById_none in E. contradiction.
Qed.

Lemma someById_in i l : someById i l = true <-> In i (map id l).
Proof.
  unfold someById. rewrite existsb_exists, in_map_iff.
  split; intros [x [H1 H2]]; exists x.
  - apply String.eqb_eq in H2. tauto.
  - split; [tauto | apply String.eqb_eq; tauto].
Qed.

Lemma someById_find i l :
  someById i l = match findById i l with Some _ => true | None => false end.
Proof.
  unfold someById, findById. induction l as [|a l IH]; simpl; [reflexivity|].
  destruct (id a =? i)%string; simpl; [reflexivity | exact IH].
Qed.

Lemma removeById_absent i l : ~ In i (map id l) -> removeById i l = l.
Proof.
  unfold removeById. induction l as [|a l IH]; simpl; intros H.
  - reflexivity.
  - destruct (String.eqb_spec (id a) i) as [E|E]; simpl.
    + exfalso. apply H. now left.
    + f_equal. apply IH. tauto.
Qed.

Lemma removeById_app i l1 l2 :
  removeById i (l1 ++ l2) = removeById i l1 ++ removeById i l2.
Proof. apply filter_app. Qed.

Lemma removeById_ids i l : ~ In i (map id (removeById i l)).
Proof.
  unfold removeById. rewrite in_map_iff. intros [x [Hid Hin]].
  apply filter_In in Hin as [_ Hneg].
  rewrite <- Hid, String.eqb_refl in Hneg. discriminate.
Qed.

(** With distinct ids, the filter takes out the one item the search
    found. *)
Lemma find_remove_perm i l x :
  NoDup (map id l) -> findById i l = Some x ->
  Permutation l (x :: removeById i l).
Proof.
  unfold findById, removeById.
  induction l as [|a l IH]; simpl; intros Hnd Hfind; [discriminate|].
  inversion Hnd as [|? ? Hnotin Hnd']; subst.
  destruct (String.eqb_spec (id a) i) as [E|E]; simpl.
  - injection Hfind as <-.
    fold (removeById i l). rewrite removeById_absent; [reflexivity|].
    now rewrite <- E.
  - etransitivity; [apply perm_skip, IH; assumption | apply perm_swap].
Qed.

Lemma findById_app_absent i l1 l2 :
  ~ In i (map id l1) -> findById i (l1 ++ l2) = findById i l2.
Proof.
  unfold findById. induction l1 as [|a l1 IH]; simpl; intros H.
  - reflexivity.
  - destruct (String.eqb_spec (id a) i) as [E|E].
    + exfalso. apply H. now left.
    + apply IH. tauto.
Qed.

Lemma findById_singleton x : findById (id x) [x] = Some x.
Proof. unfold findById. simpl. now rewrite String.eqb_refl. Qed.

Lemma removeById_singleton x : removeById (id x) [x] = [].
Proof. unfold removeById. simpl. now rewrite String.eqb_refl. Qed.

(** Ids that are distinct over two lists put together are distinct in
    each and shared by none. *)
Lemma NoDup_ids_app l1 l2 :
  NoDup (map id (l1 ++ l2)) ->
  NoDup (map id l1) /\ NoDup (map id l2)
  /\ forall i, In i (map id l1) -> ~ In i (map id l2).
Proof.
  rewrite map_app. generalize (map id l1) (map id l2). clear.
  intros a b. induction a as [|h a IH]; simpl; intros H.
  - repeat split; [constructor | assumption | tauto].
  - inversion H as [|? ? Hnotin Hnd]; subst.
    destruct (IH Hnd) as (Ha & Hb & Hd).
    repeat split.
    + constructor; [|assumption]. intros Hin. apply Hnotin.
      apply in_or_app. now left.
    + assumption.
    + intros i [->|Hin] Hb'.
      * apply Hnotin. apply in_or_app. now right.
      * exact (Hd i Hin Hb').
Qed.

Lemma initialItems_ids_NoDup : NoDup (map id (initialItems 5)).
Proof.
  apply (NoDup_count_occ' string_dec).
  intros i Hin. simpl in Hin.
  repeat (destruct Hin as [<-|Hin]; [reflexivity|]). contradiction.
Qed.

Lemma initialItems_length : List.length (initialItems 5) = 15%nat.
Proof. reflexivity. Qed.

End ItemLists.

(** ** The total is the sum of the weights *)

Lemma fold_left_add_sumZ (A : Type) (w : A -> Z) (l : list A) (acc : Z) :
  fold_left (fun sum item => sum + w item) l acc = acc + sumZ (map w l).
Proof.
  revert acc. induction l as [|a l IH]; simpl; intros acc.
  - lia.
  - rewrite IH. lia.
Qed.

Lemma fold_left_pointwise (A B : Type) (f g : B -> A -> B) (l : list A)
      (b : B) :
  (forall acc a, f acc a = g acc a) -> fold_left f l b = fold_left g l b.
Proof.
  intros E. revert b. induction l as [|a l IH]; simpl; intros b.
  - reflexivity.
  - rewrite E. apply IH.
Qed.

Lemma Static_totalEnergy_sum (placed : list PlacedItem) :
  Static.totalEnergy placed
  = sumZ (map (fun item => Static.weight (type item)) placed).
Proof.
  unfold Static.totalEnergy.
  rewrite <- (Z.add_0_l (sumZ _)), <- fold_left_add_sumZ.
  apply fold_left_pointwise. intros sum item.
  destruct (type item); reflexivity.
Qed.

Lemma Counts_totalEnergy_sum (placed : list PlacedItem) :
  Counts.totalEnergy placed
  = sumZ (map (fun item => Counts.weight (type item)) placed).
Proof.
  unfold Counts.totalEnergy.
  rewrite <- (Z.add_0_l (sumZ _)), <- fold_left_add_sumZ.
  apply fold_left_pointwise. intros sum item.
  destruct (type item); reflexivity.
Qed.

Lemma Static_currentIsInRange_iff (s : Static.State) :
  Static.currentIsInRange s = true
  <-> Static.THRESHOLD_MIN <= Static.totalEnergy (Static.placedItems s)
                           <= Static.THRESHOLD_MAX.
Proof.
  unfold Static.currentIsInRange.
  rewrite andb_true_iff, Z.geb_le, Z.leb_le. tauto.
Qed.

Lemma Counts_isInRange_iff (s : Counts.State) :
  Counts.isInRange s = true
  <-> Counts.THRESHOLD_MIN <= Counts.totalEnergy (Counts.placedItems s)
                           <= Counts.THRESHOLD_MAX.
Proof.
  unfold Counts.isInRange.
  rewrite andb_true_iff, Z.geb_le, Z.leb_le. tauto.
Qed.

Lemma Dynamic_totalEnergy_sum (w : Weather.t) (placed : list PlacedItem) :
  Dynamic.totalEnergy w placed
  = fold_left (fun sum item => (sum + Dynamic.weight w (type item))%float)
              placed 0%float.
Proof.
  unfold Dynamic.totalEnergy. apply fold_left_pointwise. intros sum item.
  destruct (type item); reflexivity.
Qed.

(** ** Comparisons of binary64 numbers *)

Section FloatOrder.

Lemma SFcompare_antisym (f1 f2 : spec_float) :
  SFcompare f2 f1 = option_map CompOpp (SFcompare f1 f2).
Proof.
  destruct f1 as [s1|s1| |s1 m1 e1], f2 as [s2|s2| |s2 m2 e2];
    cbn [SFcompare option_map];
    try reflexivity;
    try (destruct s1; reflexivity); try (destruct s2; reflexivity);
    try (destruct s1, s2; reflexivity).
  rewrite (Z.compare_antisym e2 e1).
  destruct s1, s2; cbn [CompOpp]; try reflexivity;
    destruct (e2 ?= e1)%Z; cbn [CompOpp]; try reflexivity.
  all: change (PosDef.Pos.compare_cont Eq) with (Pos.compare_cont Eq).
  all: rewrite (Pos.compare_cont_antisym m1 m2 Eq); reflexivity.
Qed.

(** [a < b] excludes [b <= a]. *)
Lemma ltb_leb_false (a b : float) :
  (a <? b)%float = true -> (b <=? a)%float = false.
Proof.
  rewrite FloatAxioms.ltb_spec, FloatAxioms.leb_spec. unfold SFltb, SFleb.
  rewrite (SFcompare_antisym (Prim2SF a) (Prim2SF b)).
  destruct (SFcompare (Prim2SF a) (Prim2SF b)) as [[]|];
    cbn [option_map CompOpp]; congruence.
Qed.

Lemma is_nan_false_compare (a b : float) :
  PrimFloat.is_nan a = false -> PrimFloat.is_nan b = false ->
  SFcompare (Prim2SF a) (Prim2SF b) <> None.
Proof.
  unfold PrimFloat.is_nan. intros Ha Hb.
  apply negb_false_iff in Ha, Hb. rewrite FloatAxioms.eqb_spec in Ha, Hb.
  unfold SFeqb in Ha, Hb. revert Ha Hb.
  destruct (Prim2SF a) as [s1|s1| |s1 m1 e1],
           (Prim2SF b) as [s2|s2| |s2 m2 e2];
    cbn [SFcompare]; congruence.
Qed.

(** Two numbers, neither of them NaN, are comparable. *)
Lemma leb_false_ltb (a b : float) :
  PrimFloat.is_nan a = false -> PrimFloat.is_nan b = false ->
  (b <=? a)%float = false -> (a <? b)%float = true.
Proof.
  intros Ha Hb. pose proof (is_nan_false_compare a b Ha Hb) as Hc.
  rewrite FloatAxioms.ltb_spec, FloatAxioms.leb_spec. unfold SFltb, SFleb.
  rewrite (SFcompare_antisym (Prim2SF a) (Prim2SF b)).
  destruct (SFcompare (Prim2SF a) (Prim2SF b)) as [[]|];
    cbn [option_map CompOpp]; congruence.
Qed.

Lemma ltb_false_leb (a b : float) :
  PrimFloat.is_nan a = false -> PrimFloat.is_nan b = false ->
  (a <? b)%float = false -> (b <=? a)%float = true.
Proof.
  intros Ha Hb H. destruct (b <=? a)%float eqn:E; [reflexivity|].
  rewrite (leb_false_ltb a b Ha Hb E) in H. discriminate.
Qed.

(** Below 10 is not above 20. *)
Lemma below_min_not_above_max (t : float) :
  (t <? Sliders.THRESHOLD_MIN)%float = true ->
  (Sliders.THRESHOLD_MAX <? t)%float = false.
Proof.
  rewrite !FloatAxioms.ltb_spec. unfold SFltb.
  replace (Prim2SF Sliders.THRESHOLD_MIN)
    with (S754_finite false 5629499534213120 (-49))
    by (vm_compute; reflexivity).
  replace (Prim2SF Sliders.THRESHOLD_MAX)
    with (S754_finite false 5629499534213120 (-48))
    by (vm_compute; reflexivity).
  destruct (Prim2SF t) as [s|s| |s m e]; cbn [SFcompare].
  - reflexivity.
  - destruct s; [reflexivity | discriminate].
  - discriminate.
  - destruct s; [reflexivity|].
    destruct (Z.compare_spec e (-49)) as [->|Hlt|Hgt].
    + reflexivity.
    + intros _. destruct (Z.compare_spec (-48) e); [lia | lia | reflexivity].
    + discriminate.
Qed.

End FloatOrder.

(** ** The three-way state of the slider variant *)

Lemma classify_powered (t : float) :
  Sliders.classify t = Sliders.powered
  <-> (Sliders.THRESHOLD_MIN <=? t)%float = true
      /\ (t <=? Sliders.THRESHOLD_MAX)%float = true.
Proof.
  unfold Sliders.classify.
  destruct (Sliders.THRESHOLD_MIN <=? t)%float,
           (t <=? Sliders.THRESHOLD_MAX)%float,
           (Sliders.THRESHOLD_MAX <? t)%float;
    cbn [andb]; split; try tauto; try discriminate;
    intros [? ?]; discriminate.
Qed.

Lemma classify_overload (t : float) :
  Sliders.classify t = Sliders.overload
  <-> (Sliders.THRESHOLD_MAX <? t)%float = true.
Proof.
  unfold Sliders.classify.
  destruct (Sliders.THRESHOLD_MAX <? t)%float eqn:Habove.
  - rewrite (ltb_leb_false _ _ Habove), andb_false_r. tauto.
  - destruct (_ && _); split; discriminate.
Qed.

Lemma classify_off (t : float) :
  PrimFloat.is_nan t = false ->
  (Sliders.classify t = Sliders.off
   <-> (t <? Sliders.THRESHOLD_MIN)%float = true).
Proof.
  intros Hnan. unfold Sliders.classify.
  assert (Hmin : PrimFloat.is_nan Sliders.THRESHOLD_MIN = false)
    by (vm_compute; reflexivity).
  assert (Hmax : PrimFloat.is_nan Sliders.THRESHOLD_MAX = false)
    by (vm_compute; reflexivity).
  split.
  - destruct (Sliders.THRESHOLD_MAX <? t)%float eqn:Habove.
    + destruct (_ && _); discriminate.
    + rewrite (ltb_false_leb _ _ Hmax Hnan Habove), andb_true_r.
      destruct (Sliders.THRESHOLD_MIN <=? t)%float eqn:Hge; [discriminate|].
      intros _. now apply leb_false_ltb.
  - intros Hbelow.
    rewrite (ltb_leb_false _ _ Hbelow), andb_false_l.
    now rewrite (below_min_not_above_max _ Hbelow).
Qed.

(** ** The evaluator *)

(** C1.  The total of a list of placed items is the sum of the weights of
    their types: an integer sum in the two variants with the fixed weights
    2 / 6 / 12, and in the weather variant the binary64 additions from 0 in
    the order of the list.  The check is in range exactly when the total lies
    between the two thresholds, both included; out of range is below the
    minimum or above the maximum, and the lost screen of the item-based
    variant shows the fire exactly when the total is above the maximum.  The
    three-way state is that of the slider variant: powered exactly when the
    total is in range, overload exactly when it is above the maximum, and off
    exactly when it is below the minimum (for a total that is a number).  The
    total of the slider variant is the sum of the three inputs, each times
    its weight 1.2, 0.8 and 1: a slider at 10 alone gives 12, 8 and 10, and
    the three sliders at their initial 5 give 15, which is powered. *)
Theorem evaluator_total_and_verdict :
  (forall placed : list PlacedItem,
      Counts.totalEnergy placed
      = sumZ (map (fun item => Counts.weight (type item)) placed))
  /\ (forall s : Counts.State,
         let total := Counts.totalEnergy (Counts.placedItems s) in
         (Counts.isInRange s = true
          <-> Counts.THRESHOLD_MIN <= total <= Counts.THRESHOLD_MAX)
         /\ (Counts.isInRange s = false
             <-> total < Counts.THRESHOLD_MIN \/ total > Counts.THRESHOLD_MAX))
  /\ (forall placed : list PlacedItem,
         Static.totalEnergy placed
         = sumZ (map (fun item => Static.weight (type item)) placed))
  /\ (forall s : Static.State,
         let total := Static.totalEnergy (Static.placedItems s) in
         (Static.currentIsInRange s = true
          <-> Static.THRESHOLD_MIN <= total <= Static.THRESHOLD_MAX)
         /\ (Static.currentIsInRange s = false
             <-> total < Static.THRESHOLD_MIN \/ total > Static.THRESHOLD_MAX)
         /\ (Static.gameStatus s = lost ->
             (Static.getBackgroundImage s = Static.skylineFire
              <-> total > Static.THRESHOLD_MAX)))
  /\ (forall (w : Weather.t) (placed : list PlacedItem),
         Dynamic.totalEnergy w placed
         = fold_left
             (fun sum item => (sum + Dynamic.weight w (type item))%float)
             placed 0%float)
  /\ (forall s : Dynamic.State,
         let total := Dynamic.totalEnergy (Dynamic.weather s)
                                          (Dynamic.placedItems s) in
         Dynamic.currentIsInRange s = true
         <-> (Dynamic.THRESHOLD_MIN <=? total)%float = true
             /\ (total <=? Dynamic.THRESHOLD_MAX)%float = true)
  /\ (forall s : Sliders.State,
         let total := Sliders.totalEnergy s in
         (Sliders.cityState s = Sliders.powered
          <-> (Sliders.THRESHOLD_MIN <=? total)%float = true
              /\ (total <=? Sliders.THRESHOLD_MAX)%float = true)
         /\ (Sliders.cityState s = Sliders.overload
             <-> (Sliders.THRESHOLD_MAX <? total)%float = true)
         /\ (PrimFloat.is_nan total = false ->
             (Sliders.cityState s = Sliders.off
              <-> (total <? Sliders.THRESHOLD_MIN)%float = true)))
  /\ (forall s : Sliders.State,
         Sliders.totalEnergy s
         = (Sliders.solarInput s * 1.2 + Sliders.windInput s * 0.8
            + Sliders.hydroInput s * 1)%float)
  /\ Sliders.totalEnergy (Sliders.mkState 10 0 0) = 12%float
  /\ Sliders.totalEnergy (Sliders.mkState 0 10 0) = 8%float
  /\ Sliders.totalEnergy (Sliders.mkState 0 0 10) = 10%float
  /\ Sliders.totalEnergy Sliders.initialState = 15%float
  /\ Sliders.cityState Sliders.initialState = Sliders.powered.
Proof.
  split; [exact Counts_totalEnergy_sum|].
  split.
  { intros s total. split; [apply Counts_isInRange_iff|].
    rewrite <- not_true_iff_false, Counts_isInRange_iff.
    fold total. unfold Counts.THRESHOLD_MIN, Counts.THRESHOLD_MAX. lia. }
  split; [exact Static_totalEnergy_sum|].
  split.
  { intros s total. split; [apply Static_currentIsInRange_iff|]. split.
    - rewrite <- not_true_iff_false, Static_currentIsInRange_iff.
      fold total. unfold Static.THRESHOLD_MIN, Static.THRESHOLD_MAX. lia.
    - intros Hlost. unfold Static.getBackgroundImage. rewrite Hlost.
      fold total. destruct (Z.gtb_spec total Static.THRESHOLD_MAX).
      + split; [lia | reflexivity].
      + split; [discriminate | lia]. }
  split; [exact Dynamic_totalEnergy_sum|].
  split.
  { intros s total. unfold Dynamic.currentIsInRange. fold total.
    apply andb_true_iff. }
  split.
  { intros s total. unfold Sliders.cityState. fold total.
    split; [apply classify_powered|].
    split; [apply classify_overload | apply classify_off]. }
  split; [reflexivity|].
  repeat split; vm_compute; reflexivity.
Qed.

(** Scenario A of the fixtures (two solar and two wind items give 16, below
    the range), a lost screen on fire, and sliders at zero. *)
Lemma evaluator_total_and_verdict_witness :
  Static.totalEnergy
    [mkItem "solar-0" solar; mkItem "solar-1" solar;
     mkItem "wind-0" wind; mkItem "wind-1" wind] = 16
  /\ Static.getBackgroundImage
       (Static.mkState lost 0 true (initialItems 5) []) = Static.skylineFire
  /\ Sliders.cityState (Sliders.mkState 0 0 0) = Sliders.off.
Proof.
  destruct evaluator_total_and_verdict
    as (_ & _ & Hsum & Hstatic & _ & _ & Hsliders & _).
  split; [rewrite Hsum; reflexivity|].
  split.
  - destruct (Hstatic (Static.mkState lost 0 true (initialItems 5) []))
      as (_ & _ & Hfire).
    apply (Hfire eq_refl). vm_compute. reflexivity.
  - destruct (Hsliders (Sliders.mkState 0 0 0)) as (_ & _ & Hoff).
    apply Hoff; vm_compute; reflexivity.
Defined.

(** ** Committing a placement *)

Lemma Static_handleCheckEnergy_won (s : Static.State) :
  Static.currentIsInRange s = true ->
  Static.handleCheckEnergy s
  = Static.setGameStatus won (Static.setHasChecked true s).
Proof. unfold Static.handleCheckEnergy. now intros ->. Qed.

Lemma Static_handleCheckEnergy_failed (s : Static.State) :
  Static.currentIsInRange s = false ->
  Static.handleCheckEnergy s
  = let s2 := Static.setAttemptsLeft (Static.attemptsLeft s - 1)
                                     (Static.setHasChecked true s) in
    if Static.attemptsLeft s - 1 =? 0
    then Static.setGameStatus lost s2 else s2.
Proof. unfold Static.handleCheckEnergy. now intros ->. Qed.

Lemma Counts_handleCheckEnergy_won (s : Counts.State) :
  Counts.isInRange s = true ->
  Counts.handleCheckEnergy s = Counts.setGameStatus won s.
Proof. unfold Counts.handleCheckEnergy. now intros ->. Qed.

Lemma Counts_handleCheckEnergy_failed (s : Counts.State) :
  Counts.isInRange s = false ->
  Counts.handleCheckEnergy s
  = let s1 := Counts.setAttemptsLeft (Counts.attemptsLeft s - 1) s in
    if Counts.attemptsLeft s - 1 =? 0
    then Counts.setGameStatus lost s1 else s1.
Proof. unfold Counts.handleCheckEnergy. now intros ->. Qed.

Lemma Dynamic_handleCheckEnergy_won (s : Dynamic.State) :
  Dynamic.currentIsInRange s = true ->
  Dynamic.handleCheckEnergy s
  = Dynamic.setGameStatus won (Dynamic.setHasChecked true s).
Proof. unfold Dynamic.handleCheckEnergy. now intros ->. Qed.

Lemma Dynamic_handleCheckEnergy_failed (s : Dynamic.State) :
  Dynamic.currentIsInRange s = false ->
  Dynamic.handleCheckEnergy s
  = let s2 := Dynamic.setAttemptsLeft (Dynamic.attemptsLeft s - 1)
                                      (Dynamic.setHasChecked true s) in
    if Dynamic.attemptsLeft s - 1 =? 0
    then Dynamic.setGameStatus lost s2 else s2.
Proof. unfold Dynamic.handleCheckEnergy. now intros ->. Qed.

(** Closes the goals about the phase and the attempts after a failed check:
    the new count is 0 or it is not. *)
Ltac failed_check :=
  cbv zeta;
  match goal with
  | |- context [?n - 1 =? 0] =>
      destruct (Z.eqb_spec (n - 1) 0) as [Hzero|Hzero]
  end;
  cbn;
  repeat split; intros; try congruence; try lia.

(** C2.  In a state whose phase is playing, checking a total that is in
    range moves the phase to won and keeps the attempts; checking a total
    that is out of range takes exactly one attempt away, keeps the phase
    playing when attempts remain and moves it to lost exactly when none
    does.  This holds in the counter variant, in the item-based variant and
    in the weather variant. *)
Theorem commit_transition :
  (forall s : Counts.State,
      Counts.gameStatus s = playing ->
      let total := Counts.totalEnergy (Counts.placedItems s) in
      let s' := Counts.handleCheckEnergy s in
      (Counts.THRESHOLD_MIN <= total <= Counts.THRESHOLD_MAX ->
       Counts.gameStatus s' = won
       /\ Counts.attemptsLeft s' = Counts.attemptsLeft s)
      /\ (~ Counts.THRESHOLD_MIN <= total <= Counts.THRESHOLD_MAX ->
          Counts.attemptsLeft s' = Counts.attemptsLeft s - 1
          /\ (Counts.attemptsLeft s' > 0 -> Counts.gameStatus s' = playing)
          /\ (Counts.gameStatus s' = lost <-> Counts.attemptsLeft s' = 0)))
  /\ (forall s : Static.State,
         Static.gameStatus s = playing ->
         let total := Static.totalEnergy (Static.placedItems s) in
         let s' := Static.handleCheckEnergy s in
         (Static.THRESHOLD_MIN <= total <= Static.THRESHOLD_MAX ->
          Static.gameStatus s' = won
          /\ Static.attemptsLeft s' = Static.attemptsLeft s)
         /\ (~ Static.THRESHOLD_MIN <= total <= Static.THRESHOLD_MAX ->
             Static.attemptsLeft s' = Static.attemptsLeft s - 1
             /\ (Static.attemptsLeft s' > 0 -> Static.gameStatus s' = playing)
             /\ (Static.gameStatus s' = lost <-> Static.attemptsLeft s' = 0)))
  /\ (forall s : Dynamic.State,
         Dynamic.gameStatus s = playing ->
         let s' := Dynamic.handleCheckEnergy s in
         (Dynamic.currentIsInRange s = true ->
          Dynamic.gameStatus s' = won
          /\ Dynamic.attemptsLeft s' = Dynamic.attemptsLeft s)
         /\ (Dynamic.currentIsInRange s = false ->
             Dynamic.attemptsLeft s' = Dynamic.attemptsLeft s - 1
             /\ (Dynamic.attemptsLeft s' > 0 -> Dynamic.gameStatus s' = playing)
             /\ (Dynamic.gameStatus s' = lost
                 <-> Dynamic.attemptsLeft s' = 0))).
Proof.
  split; [|split].
  - intros s Hplaying total s'. subst s'. split.
    + intros Hin. apply Counts_isInRange_iff in Hin.
      rewrite (Counts_handleCheckEnergy_won s Hin). split; reflexivity.
    + intros Hout.
      assert (Hf : Counts.isInRange s = false).
      { apply not_true_iff_false. now rewrite Counts_isInRange_iff. }
      rewrite (Counts_handleCheckEnergy_failed s Hf). failed_check.
  - intros s Hplaying total s'. subst s'. split.
    + intros Hin. apply Static_currentIsInRange_iff in Hin.
      rewrite (Static_handleCheckEnergy_won s Hin). split; reflexivity.
    + intros Hout.
      assert (Hf : Static.currentIsInRange s = false).
      { apply not_true_iff_false. now rewrite Static_currentIsInRange_iff. }
      rewrite (Static_handleCheckEnergy_failed s Hf). failed_check.
  - intros s Hplaying s'. subst s'. split.
    + intros Hin.
      rewrite (Dynamic_handleCheckEnergy_won s Hin). split; reflexivity.
    + intros Hf.
      rewrite (Dynamic_handleCheckEnergy_failed s Hf). failed_check.
Qed.

(** A last failed check in the counter variant, the in-range placement of
    five hydro and four wind items (84), and a first failed check in the
    weather variant under the initial weather. *)
Lemma commit_transition_witness :
  Counts.gameStatus
    (Counts.handleCheckEnergy
       (Counts.mkState playing 1 4 5 5 [mkItem "u-1" solar])) = lost
  /\ Static.gameStatus
       (Static.handleCheckEnergy
          (Static.mkState playing 2 false
             [mkItem "hydro-0" hydro; mkItem "hydro-1" hydro;
              mkItem "hydro-2" hydro; mkItem "hydro-3" hydro;
              mkItem "hydro-4" hydro; mkItem "wind-0" wind;
              mkItem "wind-1" wind; mkItem "wind-2" wind;
              mkItem "wind-3" wind]
             [])) = won
  /\ Dynamic.attemptsLeft
       (Dynamic.handleCheckEnergy
          (Dynamic.mkState playing 3 false [mkItem "solar-0" solar]
             (Weather.mk 0 0 0) [])) = 2.
Proof.
  destruct commit_transition as (Hcounts & Hstatic & Hdynamic).
  split; [|split].
  - destruct (Hcounts (Counts.mkState playing 1 4 5 5 [mkItem "u-1" solar])
                      eq_refl) as [_ Hfail].
    destruct Hfail as (_ & _ & Hlost).
    + intros [H _]. vm_compute in H. apply H. reflexivity.
    + apply Hlost. reflexivity.
  - match goal with
    | |- Static.gameStatus (Static.handleCheckEnergy ?s) = _ =>
        destruct (Hstatic s eq_refl) as [Hwin _]
    end.
    apply Hwin. vm_compute. split; discriminate.
  - match goal with
    | |- Dynamic.attemptsLeft (Dynamic.handleCheckEnergy ?s) = _ =>
        destruct (Hdynamic s eq_refl) as [_ Hfail]
    end.
    apply Hfail. vm_compute. reflexivity.
Defined.

(** The spec's run of three failed checks in the weather variant: the
    attempts go 3, 2, 1, 0 and the phase is lost at the end only. *)
Example three_failed_checks :
  let s0 := Dynamic.mkState playing 3 false [mkItem "solar-0" solar]
                            (Weather.mk 0 0 0) [] in
  let s1 := Dynamic.handleCheckEnergy s0 in
  let s2 := Dynamic.handleCheckEnergy s1 in
  let s3 := Dynamic.handleCheckEnergy s2 in
  map Dynamic.attemptsLeft [s0; s1; s2; s3] = [3; 2; 1; 0]
  /\ map Dynamic.gameStatus [s0; s1; s2; s3]
     = [playing; playing; playing; lost].
Proof. vm_compute. split; reflexivity. Qed.

(** C10.  A check writes the phase, the attempts and the [hasChecked] flag
    only: the placed items, the available items (the three counters of the
    counter variant) and the weather are what they were, whether the check
    succeeds or fails, for the handler and for the button in front of it. *)
Theorem commit_frame :
  (forall s : Counts.State,
      let s' := Counts.handleCheckEnergy s in
      Counts.placedItems s' = Counts.placedItems s
      /\ Counts.availableSolar s' = Counts.availableSolar s
      /\ Counts.availableWind s' = Counts.availableWind s
      /\ Counts.availableHydro s' = Counts.availableHydro s)
  /\ (forall s : Counts.State,
         let s' := Counts.dispatch s Counts.CheckEnergy in
         Counts.placedItems s' = Counts.placedItems s
         /\ Counts.availableSolar s' = Counts.availableSolar s
         /\ Counts.availableWind s' = Counts.availableWind s
         /\ Counts.availableHydro s' = Counts.availableHydro s)
  /\ (forall s : Static.State,
         let s' := Static.handleCheckEnergy s in
         Static.placedItems s' = Static.placedItems s
         /\ Static.availableItems s' = Static.availableItems s)
  /\ (forall s : Static.State,
         let s' := Static.dispatch s Static.CheckEnergy in
         Static.placedItems s' = Static.placedItems s
         /\ Static.availableItems s' = Static.availableItems s)
  /\ (forall s : Dynamic.State,
         let s' := Dynamic.handleCheckEnergy s in
         Dynamic.placedItems s' = Dynamic.placedItems s
         /\ Dynamic.availableItems s' = Dynamic.availableItems s
         /\ Dynamic.weather s' = Dynamic.weather s)
  /\ (forall s : Dynamic.State,
         let s' := Dynamic.dispatch s Dynamic.CheckEnergy in
         Dynamic.placedItems s' = Dynamic.placedItems s
         /\ Dynamic.availableItems s' = Dynamic.availableItems s
         /\ Dynamic.weather s' = Dynamic.weather s).
Proof.
  assert (Hc : forall s : Counts.State,
             let s' := Counts.handleCheckEnergy s in
             Counts.placedItems s' = Counts.placedItems s
             /\ Counts.availableSolar s' = Counts.availableSolar s
             /\ Counts.availableWind s' = Counts.availableWind s
             /\ Counts.availableHydro s' = Counts.availableHydro s).
  { intros s. unfold Counts.handleCheckEnergy.
    destruct (Counts.isInRange s); [|destruct (_ =? 0)];
      cbn; repeat split. }
  assert (Hs : forall s : Static.State,
             let s' := Static.handleCheckEnergy s in
             Static.placedItems s' = Static.placedItems s
             /\ Static.availableItems s' = Static.availableItems s).
  { intros s. unfold Static.handleCheckEnergy.
    destruct (Static.currentIsInRange s); [|destruct (_ =? 0)];
      cbn; repeat split. }
  assert (Hd : forall s : Dynamic.State,
             let s' := Dynamic.handleCheckEnergy s in
             Dynamic.placedItems s' = Dynamic.placedItems s
             /\ Dynamic.availableItems s' = Dynamic.availableItems s
             /\ Dynamic.weather s' = Dynamic.weather s).
  { intros s. unfold Dynamic.handleCheckEnergy.
    destruct (Dynamic.currentIsInRange s); [|destruct (_ =? 0)];
      cbn; repeat split. }
  repeat split; try apply Hc; try apply Hs; try apply Hd.
  all: match goal with
       | |- context [Counts.dispatch ?s _] =>
           unfold Counts.dispatch; destruct (Counts.enabled s _);
           [apply (Hc s) | reflexivity]
       | |- context [Static.dispatch ?s _] =>
           unfold Static.dispatch; destruct (Static.enabled s _);
           [apply (Hs s) | reflexivity]
       | |- context [Dynamic.dispatch ?s _] =>
           unfold Dynamic.dispatch; destruct (Dynamic.enabled s _);
           [apply (Hd s) | reflexivity]
       end.
Qed.

(** ** Tests of the gates *)

Lemma GameStatus_eqb_eq (a b : GameStatus) :
  GameStatus_eqb a b = true <-> a = b.
Proof. destruct a, b; cbn; split; congruence. Qed.

Lemma length_eqb_0 (A : Type) (l : list A) :
  Nat.eqb (List.length l) 0 = true <-> l = [].
Proof. destruct l; cbn; split; congruence. Qed.

(** ** The two collections partition the stock *)

Section Moves.

Implicit Types (i : string) (x : PlacedItem).
Implicit Types (src dst av pl : list PlacedItem).

Lemma holdsStock_distinctIds av pl : holdsStock av pl -> distinctIds av pl.
Proof.
  unfold holdsStock, distinctIds. intros H.
  apply (Permutation_NoDup (l := map id (initialItems 5))).
  - apply Permutation_map. now symmetry.
  - apply initialItems_ids_NoDup.
Qed.

Lemma distinctIds_disjoint av pl : distinctIds av pl -> disjoint av pl.
Proof.
  intros H x Hav Hpl.
  destruct (NoDup_ids_app _ _ H) as (_ & _ & Hd).
  apply (Hd (id x)); now apply in_map.
Qed.

Lemma holdsStock_length av pl :
  holdsStock av pl -> (List.length av + List.length pl = totalItemCount)%nat.
Proof.
  intros H. apply Permutation_length in H.
  now rewrite length_app in H.
Qed.

(** Moving the item found in the source to the end of the destination
    keeps the items of the two lists. *)
Lemma move_to_grid_perm i av pl x :
  NoDup (map id av) -> findById i av = Some x ->
  Permutation (removeById i av ++ (pl ++ [x])) (av ++ pl).
Proof.
  intros Hnd Hfind.
  rewrite (find_remove_perm i av x Hnd Hfind) at 2.
  rewrite app_assoc. rewrite <- Permutation_cons_append. reflexivity.
Qed.

Lemma move_to_available_perm i av pl x :
  NoDup (map id pl) -> findById i pl = Some x ->
  Permutation ((av ++ [x]) ++ removeById i pl) (av ++ pl).
Proof.
  intros Hnd Hfind.
  rewrite (find_remove_perm i pl x Hnd Hfind) at 2.
  rewrite <- app_assoc. apply Permutation_app_head. reflexivity.
Qed.

Lemma holdsStock_move_to_grid i av pl x :
  holdsStock av pl -> findById i av = Some x ->
  holdsStock (removeById i av) (pl ++ [x]).
Proof.
  intros H Hfind. unfold holdsStock.
  rewrite move_to_grid_perm; [exact H | | exact Hfind].
  apply holdsStock_distinctIds, NoDup_ids_app in H. tauto.
Qed.

Lemma holdsStock_move_to_available i av pl x :
  holdsStock av pl -> findById i pl = Some x ->
  holdsStock (av ++ [x]) (removeById i pl).
Proof.
  intros H Hfind. unfold holdsStock.
  rewrite move_to_available_perm; [exact H | | exact Hfind].
  apply holdsStock_distinctIds, NoDup_ids_app in H. tauto.
Qed.

Lemma holdsStock_initial : holdsStock (initialItems 5) [].
Proof. unfold holdsStock. now rewrite app_nil_r. Qed.

(** An id of the grid is not an id of the stock left. *)
Lemma distinctIds_placed_not_available i av pl :
  distinctIds av pl -> In i (map id pl) -> findById i av = None.
Proof.
  intros H Hpl. apply findById_none. intros Hav.
  destruct (NoDup_ids_app _ _ H) as (_ & _ & Hd). exact (Hd i Hav Hpl).
Qed.

End Moves.

Lemma Static_handle_holdsStock (s : Static.State) (e : Static.Event) :
  holdsStock (Static.availableItems s) (Static.placedItems s) ->
  holdsStock (Static.availableItems (Static.handle s e))
             (Static.placedItems (Static.handle s e)).
Proof.
  intros H. destruct e as [|i|i| |]; cbn [Static.handle].
  - exact H.
  - unfold Static.handleDrop.
    destruct (findById i (Static.availableItems s)) as [x|] eqn:E; [|exact H].
    cbn. now apply holdsStock_move_to_grid.
  - unfold Static.handleRemoveItem.
    destruct (findById i (Static.placedItems s)) as [x|] eqn:E; [|exact H].
    cbn. now apply holdsStock_move_to_available.
  - unfold Static.handleCheckEnergy.
    destruct (Static.currentIsInRange s); [|destruct (_ =? 0)]; exact H.
  - apply holdsStock_initial.
Qed.

Lemma Static_reachable_holdsStock (s : Static.State) :
  Static.reachable s ->
  holdsStock (Static.availableItems s) (Static.placedItems s).
Proof.
  induction 1 as [|s e _ IH].
  - apply holdsStock_initial.
  - now apply Static_handle_holdsStock.
Qed.

Lemma Dynamic_handleDrop_holdsStock (s : Dynamic.State)
      (c : Dynamic.Container) (i : string) :
  holdsStock (Dynamic.availableItems s) (Dynamic.placedItems s) ->
  holdsStock (Dynamic.availableItems (Dynamic.handleDrop s c i))
             (Dynamic.placedItems (Dynamic.handleDrop s c i)).
Proof.
  intros H. unfold Dynamic.handleDrop. rewrite !someById_find.
  destruct (findById i (Dynamic.availableItems s)) as [x|] eqn:Eav.
  - destruct c.
    + destruct (findById i (Dynamic.placedItems s)) as [y|] eqn:Epl;
        [|exact H].
      exfalso. apply findById_some in Epl as [Hin <-].
      rewrite (distinctIds_placed_not_available (id y) _ _
                 (holdsStock_distinctIds _ _ H)) in Eav;
        [discriminate | now apply in_map].
    + cbn. now apply holdsStock_move_to_grid.
  - destruct (findById i (Dynamic.placedItems s)) as [y|] eqn:Epl;
      [|exact H].
    destruct c; [|exact H].
    cbn. now apply holdsStock_move_to_available.
Qed.

Lemma Dynamic_handle_holdsStock (s : Dynamic.State) (e : Dynamic.Event) :
  holdsStock (Dynamic.availableItems s) (Dynamic.placedItems s) ->
  holdsStock (Dynamic.availableItems (Dynamic.handle s e))
             (Dynamic.placedItems (Dynamic.handle s e)).
Proof.
  intros H. destruct e as [|c i|i|i|k v| |]; cbn [Dynamic.handle].
  - exact H.
  - now apply Dynamic_handleDrop_holdsStock.
  - unfold Dynamic.handleAddItem.
    destruct (findById i (Dynamic.availableItems s)) as [x|] eqn:E; [|exact H].
    cbn. now apply holdsStock_move_to_grid.
  - unfold Dynamic.handleRemoveItem.
    destruct (findById i (Dynamic.placedItems s)) as [x|] eqn:E; [|exact H].
    cbn. now apply holdsStock_move_to_available.
  - exact H.
  - unfold Dynamic.handleCheckEnergy.
    destruct (Dynamic.currentIsInRange s); [|destruct (_ =? 0)]; exact H.
  - apply holdsStock_initial.
Qed.

Lemma Dynamic_reachable_holdsStock (s : Dynamic.State) :
  Dynamic.reachable s ->
  holdsStock (Dynamic.availableItems s) (Dynamic.placedItems s).
Proof.
  induction 1 as [|s e _ IH].
  - apply holdsStock_initial.
  - now apply Dynamic_handle_holdsStock.
Qed.

(** C3.  In every state that a sequence of handler calls leads to from the
    initial state (start, drop or click to the grid, removal to the stock,
    check, replay, and the weather sliders of the weather variant), in any
    order and whatever the ids they are called with, no item is in both
    collections and the sizes of the two add up to the 15 items of the game,
    three types times five; the two collections together are the initial
    stock, each item once. *)
Theorem collections_partition_stock :
  (forall s : Static.State,
      Static.reachable s ->
      disjoint (Static.availableItems s) (Static.placedItems s)
      /\ (List.length (Static.availableItems s)
          + List.length (Static.placedItems s) = totalItemCount)%nat
      /\ Permutation (Static.availableItems s ++ Static.placedItems s)
                     (initialItems 5))
  /\ (forall s : Dynamic.State,
         Dynamic.reachable s ->
         disjoint (Dynamic.availableItems s) (Dynamic.placedItems s)
         /\ (List.length (Dynamic.availableItems s)
             + List.length (Dynamic.placedItems s) = totalItemCount)%nat
         /\ Permutation (Dynamic.availableItems s ++ Dynamic.placedItems s)
                        (initialItems 5)).
Proof.
  split; intros s Hreach.
  - apply Static_reachable_holdsStock in Hreach.
    split; [|split].
    + now apply distinctIds_disjoint, holdsStock_distinctIds.
    + now apply holdsStock_length.
    + exact Hreach.
  - apply Dynamic_reachable_holdsStock in Hreach.
    split; [|split].
    + now apply distinctIds_disjoint, holdsStock_distinctIds.
    + now apply holdsStock_length.
    + exact Hreach.
Qed.

(** After a start, a click on an item and a check. *)
Lemma collections_partition_stock_witness :
  (List.length
     (Static.availableItems
        (Static.handle
           (Static.handle
              (Static.handle Static.initialState Static.StartGame)
              (Static.Drop "solar-0"))
           Static.CheckEnergy))
   + List.length
       (Static.placedItems
          (Static.handle
             (Static.handle
                (Static.handle Static.initialState Static.StartGame)
                (Static.Drop "solar-0"))
             Static.CheckEnergy)) = totalItemCount)%nat
  /\ disjoint
       (Dynamic.availableItems
          (Dynamic.handle
             (Dynamic.handle Dynamic.initialState (Dynamic.AddItem "wind-3"))
             (Dynamic.WeatherChange Dynamic.sunKey 50)))
       (Dynamic.placedItems
          (Dynamic.handle
             (Dynamic.handle Dynamic.initialState (Dynamic.AddItem "wind-3"))
             (Dynamic.WeatherChange Dynamic.sunKey 50))).
Proof.
  destruct collections_partition_stock as [Hstatic Hdynamic].
  split.
  - apply Hstatic. repeat constructor.
  - apply Hdynamic. repeat constructor.
Defined.

(** ** Moving an item there and back *)

Lemma findById_present (l : list PlacedItem) (x : PlacedItem) :
  NoDup (map id l) -> In x l -> findById (id x) l = Some x.
Proof.
  unfold findById. induction l as [|a l IH]; cbn; intros Hnd Hin;
    [contradiction|].
  inversion Hnd as [|? ? Hnotin Hnd']; subst.
  destruct Hin as [->|Hin].
  - now rewrite String.eqb_refl.
  - destruct (String.eqb_spec (id a) (id x)) as [E|E].
    + exfalso. apply Hnotin. rewrite E. now apply in_map.
    + now apply IH.
Qed.

(** The lists after the item [x] of [av] went to the end of [pl] and came
    back. *)
Lemma there_and_back (av pl : list PlacedItem) (x : PlacedItem) :
  distinctIds av pl -> In x av ->
  findById (id x) av = Some x
  /\ findById (id x) (pl ++ [x]) = Some x
  /\ removeById (id x) (pl ++ [x]) = pl
  /\ Permutation (removeById (id x) av ++ [x]) av.
Proof.
  intros Hd Hin.
  destruct (NoDup_ids_app _ _ Hd) as (Hav & Hpl & Hdisj).
  assert (Hnot : ~ In (id x) (map id pl)).
  { apply Hdisj. now apply in_map. }
  assert (Hfind : findById (id x) av = Some x)
    by now apply findById_present.
  repeat split.
  - exact Hfind.
  - rewrite findById_app_absent by exact Hnot. apply findById_singleton.
  - rewrite removeById_app, removeById_singleton, app_nil_r.
    now apply removeById_absent.
  - rewrite <- Permutation_cons_append. symmetry.
    now apply find_remove_perm.
Qed.

Lemma Static_round_trip (s : Static.State) (x : PlacedItem) :
  distinctIds (Static.availableItems s) (Static.placedItems s) ->
  In x (Static.availableItems s) ->
  Static.handleRemoveItem (Static.handleDrop s (id x)) (id x)
  = Static.mkState (Static.gameStatus s) (Static.attemptsLeft s) false
      (Static.placedItems s)
      (removeById (id x) (Static.availableItems s) ++ [x]).
Proof.
  intros Hd Hin.
  destruct (there_and_back _ _ x Hd Hin) as (Hf1 & Hf2 & Hr & _).
  unfold Static.handleDrop. rewrite Hf1.
  unfold Static.handleRemoveItem. cbn -[findById removeById].
  rewrite Hf2, Hr. reflexivity.
Qed.

Lemma Dynamic_click_round_trip (s : Dynamic.State) (x : PlacedItem) :
  distinctIds (Dynamic.availableItems s) (Dynamic.placedItems s) ->
  In x (Dynamic.availableItems s) ->
  Dynamic.handleRemoveItem (Dynamic.handleAddItem s (id x)) (id x)
  = Dynamic.mkState (Dynamic.gameStatus s) (Dynamic.attemptsLeft s) false
      (Dynamic.placedItems s) (Dynamic.weather s)
      (removeById (id x) (Dynamic.availableItems s) ++ [x]).
Proof.
  intros Hd Hin.
  destruct (there_and_back _ _ x Hd Hin) as (Hf1 & Hf2 & Hr & _).
  unfold Dynamic.handleAddItem. rewrite Hf1.
  unfold Dynamic.handleRemoveItem. cbn -[findById removeById].
  rewrite Hf2, Hr. reflexivity.
Qed.

Lemma Dynamic_drag_round_trip (s : Dynamic.State) (x : PlacedItem) :
  distinctIds (Dynamic.availableItems s) (Dynamic.placedItems s) ->
  In x (Dynamic.availableItems s) ->
  Dynamic.handleDrop (Dynamic.handleDrop s Dynamic.powerGrid (id x))
                     Dynamic.available (id x)
  = Dynamic.mkState (Dynamic.gameStatus s) (Dynamic.attemptsLeft s) false
      (Dynamic.placedItems s) (Dynamic.weather s)
      (removeById (id x) (Dynamic.availableItems s) ++ [x]).
Proof.
  intros Hd Hin.
  destruct (there_and_back _ _ x Hd Hin) as (Hf1 & Hf2 & Hr & _).
  unfold Dynamic.handleDrop at 2. rewrite someById_find, Hf1.
  unfold Dynamic.handleDrop. cbn -[findById removeById someById].
  rewrite someById_find, Hf2, Hr.
  destruct (findById (id x) (removeById (id x) (Dynamic.availableItems s)))
    as [y|] eqn:E; [|reflexivity].
  exfalso. apply findById_some in E as [Hy Hid].
  apply (removeById_ids (id x) (Dynamic.availableItems s)).
  apply in_map_iff. exists y. split; assumption.
Qed.

(** C8.  In a state whose items have distinct ids, an item of the stock
    that is moved to the grid and back leaves both collections with the items
    they had: the grid is the list it was, and the stock is a permutation of
    what it was (the item is now its last).  This holds for the drop and the
    click of the item-based variant and for the clicks and the drags of the
    weather variant. *)
Theorem move_round_trip :
  (forall (s : Static.State) (x : PlacedItem),
      distinctIds (Static.availableItems s) (Static.placedItems s) ->
      In x (Static.availableItems s) ->
      let s' := Static.handleRemoveItem (Static.handleDrop s (id x)) (id x) in
      Permutation (Static.availableItems s') (Static.availableItems s)
      /\ Permutation (Static.placedItems s') (Static.placedItems s)
      /\ Static.placedItems s' = Static.placedItems s)
  /\ (forall (s : Dynamic.State) (x : PlacedItem),
         distinctIds (Dynamic.availableItems s) (Dynamic.placedItems s) ->
         In x (Dynamic.availableItems s) ->
         let s' :=
           Dynamic.handleRemoveItem (Dynamic.handleAddItem s (id x)) (id x) in
         Permutation (Dynamic.availableItems s') (Dynamic.availableItems s)
         /\ Permutation (Dynamic.placedItems s') (Dynamic.placedItems s)
         /\ Dynamic.placedItems s' = Dynamic.placedItems s)
  /\ (forall (s : Dynamic.State) (x : PlacedItem),
         distinctIds (Dynamic.availableItems s) (Dynamic.placedItems s) ->
         In x (Dynamic.availableItems s) ->
         let s' :=
           Dynamic.handleDrop (Dynamic.handleDrop s Dynamic.powerGrid (id x))
                              Dynamic.available (id x) in
         Permutation (Dynamic.availableItems s') (Dynamic.availableItems s)
         /\ Permutation (Dynamic.placedItems s') (Dynamic.placedItems s)
         /\ Dynamic.placedItems s' = Dynamic.placedItems s).
Proof.
  split; [|split]; intros s x Hd Hin s'; subst s'.
  - rewrite (Static_round_trip s x Hd Hin). cbn.
    destruct (there_and_back _ _ x Hd Hin) as (_ & _ & _ & Hperm).
    repeat split; [exact Hperm | reflexivity].
  - rewrite (Dynamic_click_round_trip s x Hd Hin). cbn.
    destruct (there_and_back _ _ x Hd Hin) as (_ & _ & _ & Hperm).
    repeat split; [exact Hperm | reflexivity].
  - rewrite (Dynamic_drag_round_trip s x Hd Hin). cbn.
    destruct (there_and_back _ _ x Hd Hin) as (_ & _ & _ & Hperm).
    repeat split; [exact Hperm | reflexivity].
Qed.

(** The ids are distinct in every state the handlers lead to, so the way
    there and back restores the collections of every such state. *)
Corollary move_round_trip_reachable :
  (forall (s : Static.State) (x : PlacedItem),
      Static.reachable s -> In x (Static.availableItems s) ->
      let s' := Static.handleRemoveItem (Static.handleDrop s (id x)) (id x) in
      Permutation (Static.availableItems s') (Static.availableItems s)
      /\ Static.placedItems s' = Static.placedItems s)
  /\ (forall (s : Dynamic.State) (x : PlacedItem),
         Dynamic.reachable s -> In x (Dynamic.availableItems s) ->
         let s' :=
           Dynamic.handleRemoveItem (Dynamic.handleAddItem s (id x)) (id x) in
         Permutation (Dynamic.availableItems s') (Dynamic.availableItems s)
         /\ Dynamic.placedItems s' = Dynamic.placedItems s).
Proof.
  split; intros s x Hreach Hin s'; subst s'.
  - apply Static_reachable_holdsStock, holdsStock_distinctIds in Hreach.
    rewrite (Static_round_trip s x Hreach Hin). cbn.
    destruct (there_and_back _ _ x Hreach Hin) as (_ & _ & _ & Hperm).
    split; [exact Hperm | reflexivity].
  - apply Dynamic_reachable_holdsStock, holdsStock_distinctIds in Hreach.
    rewrite (Dynamic_click_round_trip s x Hreach Hin). cbn.
    destruct (there_and_back _ _ x Hreach Hin) as (_ & _ & _ & Hperm).
    split; [exact Hperm | reflexivity].
Qed.

(** The first item of the stock, to the grid and back, in both variants. *)
Lemma move_round_trip_witness :
  Permutation
    (Static.availableItems
       (Static.handleRemoveItem
          (Static.handleDrop Static.initialState "solar-0") "solar-0"))
    (initialItems 5)
  /\ Dynamic.placedItems
       (Dynamic.handleDrop
          (Dynamic.handleDrop Dynamic.initialState Dynamic.powerGrid "solar-0")
          Dynamic.available "solar-0") = [].
Proof.
  destruct move_round_trip as (Hstatic & _ & Hdrag).
  split.
  - apply (Hstatic Static.initialState (mkItem "solar-0" solar)).
    + apply holdsStock_distinctIds, holdsStock_initial.
    + left. reflexivity.
  - apply (Hdrag Dynamic.initialState (mkItem "solar-0" solar)).
    + apply holdsStock_distinctIds, holdsStock_initial.
    + left. reflexivity.
Defined.

(** ** A move invalidates the last check *)

Lemma Static_playing_move_enabled (s : Static.State) (e : Static.Event) :
  Static.gameStatus s = playing -> Static_presentMove s e ->
  Static.dispatch s e = Static.handle s e.
Proof.
  intros Hp Hm. unfold Static.dispatch.
  destruct e; cbn in Hm; try contradiction; cbn [Static.enabled];
    rewrite Hp; reflexivity.
Qed.

Lemma Dynamic_playing_move_enabled (s : Dynamic.State) (e : Dynamic.Event) :
  Dynamic.gameStatus s = playing -> Dynamic_presentMove s e ->
  Dynamic.dispatch s e = Dynamic.handle s e.
Proof.
  intros Hp Hm. unfold Dynamic.dispatch.
  destruct e; cbn in Hm; try contradiction; cbn [Dynamic.enabled];
    rewrite Hp; reflexivity.
Qed.

Lemma Static_move_clears_check (s : Static.State) (e : Static.Event) :
  Static_presentMove s e ->
  Static.hasChecked (Static.handle s e) = false
  /\ Static.attemptsLeft (Static.handle s e) = Static.attemptsLeft s
  /\ Static.gameStatus (Static.handle s e) = Static.gameStatus s.
Proof.
  destruct e as [|i|i| |]; cbn [Static_presentMove Static.handle];
    try contradiction; intros Hin; apply findById_in in Hin as [x Hx].
  - unfold Static.handleDrop. rewrite Hx. repeat split.
  - unfold Static.handleRemoveItem. rewrite Hx. repeat split.
Qed.

Lemma Dynamic_move_clears_check (s : Dynamic.State) (e : Dynamic.Event) :
  Dynamic_presentMove s e ->
  Dynamic.hasChecked (Dynamic.handle s e) = false
  /\ Dynamic.attemptsLeft (Dynamic.handle s e) = Dynamic.attemptsLeft s
  /\ Dynamic.gameStatus (Dynamic.handle s e) = Dynamic.gameStatus s.
Proof.
  destruct e as [|c i|i|i|k v| |]; cbn [Dynamic_presentMove Dynamic.handle];
    try contradiction.
  - destruct c; intros Hin; pose proof Hin as Hsome;
      apply someById_in in Hsome; apply findById_in in Hin as [x Hx];
      unfold Dynamic.handleDrop; rewrite Hsome.
    + destruct (findById i (Dynamic.availableItems s));
        [|rewrite Hx]; repeat split.
    + rewrite Hx. repeat split.
  - intros Hin; apply findById_in in Hin as [x Hx].
    unfold Dynamic.handleAddItem. rewrite Hx. repeat split.
  - intros Hin; apply findById_in in Hin as [x Hx].
    unfold Dynamic.handleRemoveItem. rewrite Hx. repeat split.
Qed.

(** C9.  While the phase is playing, a move of an item that is in the
    collection it is taken from (a drop or a click towards the grid for an
    item of the stock, a click or a drop towards the stock for an item of the
    grid) reaches its handler, sets [hasChecked] to false and leaves
    [attemptsLeft] as it was. *)
Theorem move_clears_check :
  (forall (s : Static.State) (e : Static.Event),
      Static.gameStatus s = playing -> Static_presentMove s e ->
      let s' := Static.dispatch s e in
      s' = Static.handle s e
      /\ Static.hasChecked s' = false
      /\ Static.attemptsLeft s' = Static.attemptsLeft s)
  /\ (forall (s : Dynamic.State) (e : Dynamic.Event),
         Dynamic.gameStatus s = playing -> Dynamic_presentMove s e ->
         let s' := Dynamic.dispatch s e in
         s' = Dynamic.handle s e
         /\ Dynamic.hasChecked s' = false
         /\ Dynamic.attemptsLeft s' = Dynamic.attemptsLeft s).
Proof.
  split; intros s e Hp Hm s'; subst s'.
  - rewrite (Static_playing_move_enabled s e Hp Hm).
    destruct (Static_move_clears_check s e Hm) as (Hc & Ha & _).
    repeat split; assumption.
  - rewrite (Dynamic_playing_move_enabled s e Hp Hm).
    destruct (Dynamic_move_clears_check s e Hm) as (Hc & Ha & _).
    repeat split; assumption.
Qed.

(** After a failed check with one item on the grid, the item is taken back
    (item-based variant) or a second one is dragged in (weather variant). *)
Lemma move_clears_check_witness :
  Static.hasChecked
    (Static.dispatch
       (Static.mkState playing 4 true [mkItem "solar-0" solar]
                       (removeById "solar-0" (initialItems 5)))
       (Static.RemoveItem "solar-0")) = false
  /\ Dynamic.attemptsLeft
       (Dynamic.dispatch
          (Dynamic.mkState playing 2 true [mkItem "solar-0" solar]
                           (Weather.mk 0 0 0)
                           (removeById "solar-0" (initialItems 5)))
          (Dynamic.DropOn Dynamic.powerGrid "wind-0")) = 2.
Proof.
  destruct move_clears_check as [Hstatic Hdynamic].
  split.
  - apply (Hstatic
             (Static.mkState playing 4 true [mkItem "solar-0" solar]
                             (removeById "solar-0" (initialItems 5)))
             (Static.RemoveItem "solar-0")).
    + reflexivity.
    + left. reflexivity.
  - apply (Hdynamic
             (Dynamic.mkState playing 2 true [mkItem "solar-0" solar]
                              (Weather.mk 0 0 0)
                              (removeById "solar-0" (initialItems 5)))
             (Dynamic.DropOn Dynamic.powerGrid "wind-0")).
    + reflexivity.
    + left. reflexivity.
Defined.

(** ** A move of an item that is not there *)

Lemma Static_absent_move_noop (s : Static.State) (i : string) :
  (~ In i (map id (Static.availableItems s)) -> Static.handleDrop s i = s)
  /\ (~ In i (map id (Static.placedItems s)) ->
      Static.handleRemoveItem s i = s).
Proof.
  split; intros H; apply findById_none in H.
  - unfold Static.handleDrop. now rewrite H.
  - unfold Static.handleRemoveItem. now rewrite H.
Qed.

Lemma Counts_absent_move_noop (s : Counts.State) :
  (forall (t : EnergyType) (uuid : string),
      match t with
      | solar => Counts.availableSolar s
      | wind => Counts.availableWind s
      | hydro => Counts.availableHydro s
      end <= 0 ->
      Counts.handleDrop s t uuid = s)
  /\ (forall i : string,
         ~ In i (map id (Counts.placedItems s)) ->
         Counts.handleRemoveItem s i = s).
Proof.
  split.
  - intros t uuid H. unfold Counts.handleDrop.
    destruct t; cbn [EnergyType_eqb andb];
      match goal with
      | |- context [?n >? 0] => destruct (Z.gtb_spec n 0)
      end; try lia; reflexivity.
  - intros i H. apply findById_none in H.
    unfold Counts.handleRemoveItem. now rewrite H.
Qed.

Lemma Dynamic_absent_click_noop (s : Dynamic.State) (i : string) :
  (~ In i (map id (Dynamic.availableItems s)) ->
   Dynamic.handleAddItem s i = s)
  /\ (~ In i (map id (Dynamic.placedItems s)) ->
      Dynamic.handleRemoveItem s i = s).
Proof.
  split; intros H; apply findById_none in H.
  - unfold Dynamic.handleAddItem. now rewrite H.
  - unfold Dynamic.handleRemoveItem. now rewrite H.
Qed.

(** A drop of an id that is in neither collection does nothing; a drop of
    an id that is in the other collection only moves nothing, and writes
    [hasChecked]. *)
Lemma Dynamic_absent_drop (s : Dynamic.State) (i : string) :
  (~ In i (map id (Dynamic.availableItems s)) ->
   ~ In i (map id (Dynamic.placedItems s)) ->
   forall c, Dynamic.handleDrop s c i = s)
  /\ (~ In i (map id (Dynamic.availableItems s)) ->
      In i (map id (Dynamic.placedItems s)) ->
      Dynamic.handleDrop s Dynamic.powerGrid i = Dynamic.setHasChecked false s)
  /\ (~ In i (map id (Dynamic.placedItems s)) ->
      In i (map id (Dynamic.availableItems s)) ->
      Dynamic.handleDrop s Dynamic.available i = Dynamic.setHasChecked false s).
Proof.
  unfold Dynamic.handleDrop. rewrite !someById_find. repeat split.
  - intros Ha Hp c. apply findById_none in Ha, Hp. now rewrite Ha, Hp.
  - intros Ha Hp. apply findById_none in Ha.
    apply findById_in in Hp as [x Hx]. now rewrite Ha, Hx.
  - intros Hp Ha. apply findById_none in Hp.
    apply findById_in in Ha as [x Hx]. now rewrite Hp, Hx.
Qed.

(** C7.  The drop handler of the weather variant, called for the grid with
    the id of an item that is already on the grid (so not in the stock, the
    collection a move to the grid takes from), moves nothing and still sets
    [hasChecked] to false.  The state below is the one after the start, a
    click on the first solar item and a failed check; dragging that item
    within the grid changes it. *)
Theorem drop_without_move_clears_check :
  let s :=
    Dynamic.dispatch
      (Dynamic.dispatch
         (Dynamic.dispatch Dynamic.initialState Dynamic.StartGame)
         (Dynamic.AddItem "solar-0"))
      Dynamic.CheckEnergy in
  let s' := Dynamic.dispatch s (Dynamic.DropOn Dynamic.powerGrid "solar-0") in
  ~ In "solar-0"%string (map id (Dynamic.availableItems s))
  /\ Dynamic.hasChecked s = true
  /\ Dynamic.hasChecked s' = false
  /\ s' = Dynamic.setHasChecked false s
  /\ s' <> s.
Proof.
  cbv zeta. repeat split.
  - vm_compute. intros H.
    repeat (destruct H as [H|H]; [discriminate H|]). exact H.
  - intros H. apply (f_equal Dynamic.hasChecked) in H.
    vm_compute in H. discriminate H.
Qed.

(** ** The screens and their exit animations *)

(** A handler run in the render it was made in is the handler of the
    component. *)
Lemma Static_handleFrom_same (s : Static.State) (e : Static.Event) :
  Static.handleFrom s s e = Static.handle s e.
Proof. destruct e; reflexivity. Qed.

Lemma Counts_handleFrom_same (s : Counts.State) (e : Counts.Event) :
  Counts.handleFrom s s e = Counts.handle s e.
Proof. destruct e; reflexivity. Qed.

Lemma Dynamic_handleFrom_same (s : Dynamic.State) (e : Dynamic.Event) :
  Dynamic.handleFrom s s e = Dynamic.handle s e.
Proof. destruct e; reflexivity. Qed.

Lemma Static_cells_rerender (r s : Static.State) :
  Static.cells (Static.rerender r s) = s.
Proof. unfold Static.rerender. now destruct (GameStatus_eqb _ _). Qed.

Lemma Counts_cells_rerender (r s : Counts.State) :
  Counts.cells (Counts.rerender r s) = s.
Proof. unfold Counts.rerender. now destruct (GameStatus_eqb _ _). Qed.

Lemma Dynamic_cells_rerender (r s : Dynamic.State) :
  Dynamic.cells (Dynamic.rerender r s) = s.
Proof. unfold Dynamic.rerender. now destruct (GameStatus_eqb _ _). Qed.

Ltac split_hyps :=
  repeat match goal with
         | H : _ /\ _ |- _ => destruct H
         end.

(** Unfolds the invariant of the interface after an event and closes it
    from the phases [Hr] of the last render and [Hs] of the cells. *)
Ltac static_ui_goal Hr Hs :=
  unfold Static_uiInv, Static.rerender;
  cbn -[Static.currentIsInRange initialItems];
  rewrite ?Hr, ?Hs; cbn -[Static.currentIsInRange initialItems];
  rewrite ?Hr, ?Hs; cbn -[Static.currentIsInRange initialItems];
  intuition (try discriminate; try congruence; try lia).

Lemma Static_ui_steps_inv (u : Static.UI) :
  Static.ui_steps u -> Static_uiInv u.
Proof.
  induction 1 as [|[s r] e _ IH|[s r] _ IH].
  - split; [discriminate | split; reflexivity].
  - unfold Static.fire. cbn [Static.rendered Static.cells].
    destruct (Static.enabled r e) eqn:En; [|exact IH].
    destruct IH as [Hflag IH]. cbn [Static.rendered Static.cells] in *.
    destruct e as [|i|i| |];
      cbn [Static.enabled Static.handleFrom] in *.
    + apply GameStatus_eqb_eq in En. rewrite En in IH.
      unfold Static.handleStartGameFrom.
      destruct (Static.gameStatus s) eqn:Hs; try contradiction;
        split_hyps; try solve [static_ui_goal En Hs].
      subst. split; [discriminate | split; reflexivity].
    + apply GameStatus_eqb_eq in En. rewrite En in IH.
      unfold Static.handleDropFrom.
      destruct (findById i (Static.availableItems r));
        destruct (Static.gameStatus s) eqn:Hs; try contradiction;
        split_hyps; subst; static_ui_goal En Hs.
    + apply GameStatus_eqb_eq in En. rewrite En in IH.
      unfold Static.handleRemoveItemFrom.
      destruct (findById i (Static.placedItems r));
        destruct (Static.gameStatus s) eqn:Hs; try contradiction;
        split_hyps; subst; static_ui_goal En Hs.
    + apply andb_true_iff in En as [En _]. apply GameStatus_eqb_eq in En.
      rewrite En in IH. unfold Static.handleCheckEnergyFrom. cbv zeta.
      destruct (Static.currentIsInRange r) eqn:Hin;
        [|destruct (Z.eqb_spec (Static.attemptsLeft r - 1) 0)];
        destruct (Static.gameStatus s) eqn:Hs; try contradiction;
        split_hyps; subst; static_ui_goal En Hs.
    + unfold Static.handleReplayFrom.
      apply orb_true_iff in En as [En|En]; apply GameStatus_eqb_eq in En;
        rewrite En in IH;
        destruct (Static.gameStatus s) eqn:Hs; try contradiction;
        split_hyps; subst; static_ui_goal En Hs.
  - destruct IH as [Hflag IH]. cbn [Static.rendered Static.cells] in *.
    unfold Static.exitComplete, Static_uiInv.
    cbn [Static.rendered Static.cells].
    destruct (Static.gameStatus r) eqn:Hr, (Static.gameStatus s) eqn:Hs;
      try contradiction; split_hyps; subst;
      intuition (try discriminate; try congruence; try lia).
Qed.

Ltac counts_ui_goal Hr Hs :=
  unfold Counts_uiInv, Counts.rerender;
  cbn -[Counts.isInRange];
  rewrite ?Hr, ?Hs; cbn -[Counts.isInRange];
  rewrite ?Hr, ?Hs; cbn -[Counts.isInRange];
  intuition (try discriminate; try congruence; try lia).

Lemma Counts_ui_steps_inv (u : Counts.UI) :
  Counts.ui_steps u -> Counts_uiInv u.
Proof.
  induction 1 as [|[s r] e _ IH|[s r] _ IH].
  - split; reflexivity.
  - unfold Counts.fire. cbn [Counts.rendered Counts.cells].
    destruct (Counts.enabled r e) eqn:En; [|exact IH].
    unfold Counts_uiInv in IH. cbn [Counts.rendered Counts.cells] in *.
    destruct e as [|t i|i| |];
      cbn [Counts.enabled Counts.handleFrom] in *.
    + apply GameStatus_eqb_eq in En. rewrite En in IH.
      unfold Counts.handleStartGameFrom.
      destruct (Counts.gameStatus s) eqn:Hs; try contradiction;
        split_hyps; try solve [counts_ui_goal En Hs].
      subst. reflexivity.
    + apply GameStatus_eqb_eq in En. rewrite En in IH.
      unfold Counts.handleDropFrom.
      destruct (EnergyType_eqb t solar && (Counts.availableSolar r >? 0));
        [|destruct (EnergyType_eqb t wind && (Counts.availableWind r >? 0));
          [|destruct (EnergyType_eqb t hydro
                      && (Counts.availableHydro r >? 0))]];
        destruct (Counts.gameStatus s) eqn:Hs; try contradiction;
        split_hyps; subst; counts_ui_goal En Hs.
    + apply GameStatus_eqb_eq in En. rewrite En in IH.
      unfold Counts.handleRemoveItemFrom.
      destruct (findById i (Counts.placedItems r)) as [x|]; cbv zeta;
        [destruct (type x); cbn [EnergyType_eqb]|];
        destruct (Counts.gameStatus s) eqn:Hs; try contradiction;
        split_hyps; subst; counts_ui_goal En Hs.
    + apply andb_true_iff in En as [En _]. apply GameStatus_eqb_eq in En.
      rewrite En in IH. unfold Counts.handleCheckEnergyFrom. cbv zeta.
      destruct (Counts.isInRange r) eqn:Hin;
        [|destruct (Z.eqb_spec (Counts.attemptsLeft r - 1) 0)];
        destruct (Counts.gameStatus s) eqn:Hs; try contradiction;
        split_hyps; subst; counts_ui_goal En Hs.
    + unfold Counts.handleReplayFrom.
      apply orb_true_iff in En as [En|En]; apply GameStatus_eqb_eq in En;
        rewrite En in IH;
        destruct (Counts.gameStatus s) eqn:Hs; try contradiction;
        split_hyps; subst; counts_ui_goal En Hs.
  - unfold Counts_uiInv in IH. cbn [Counts.rendered Counts.cells] in *.
    unfold Counts.exitComplete, Counts_uiInv.
    cbn [Counts.rendered Counts.cells].
    destruct (Counts.gameStatus r) eqn:Hr, (Counts.gameStatus s) eqn:Hs;
      try contradiction; split_hyps; subst;
      intuition (try discriminate; try congruence; try lia).
Qed.

Ltac dynamic_ui_goal Hr Hs :=
  unfold Dynamic_uiInv, Dynamic.rerender;
  cbn -[Dynamic.currentIsInRange initialItems];
  rewrite ?Hr, ?Hs; cbn -[Dynamic.currentIsInRange initialItems];
  rewrite ?Hr, ?Hs; cbn -[Dynamic.currentIsInRange initialItems];
  intuition (try discriminate; try congruence; try lia).

Lemma Dynamic_ui_steps_inv (u : Dynamic.UI) :
  Dynamic.ui_steps u -> Dynamic_uiInv u.
Proof.
  induction 1 as [|[s r] e _ IH|[s r] _ IH].
  - split; [discriminate | split; reflexivity].
  - unfold Dynamic.fire, Dynamic.offered.
    cbn [Dynamic.rendered Dynamic.cells].
    destruct IH as [Hflag IH]. cbn [Dynamic.rendered Dynamic.cells] in *.
    destruct e as [|c i|i|i|k v| |];
      cbn [Dynamic.enabled Dynamic.handleFrom] in *.
    + destruct (GameStatus_eqb (Dynamic.gameStatus r) intro) eqn:En;
        [|split; assumption].
      apply GameStatus_eqb_eq in En. rewrite En in IH.
      unfold Dynamic.handleStartGameFrom.
      destruct (Dynamic.gameStatus s) eqn:Hs; try contradiction;
        split_hyps; try solve [dynamic_ui_goal En Hs].
      subst. split; [discriminate | split; reflexivity].
    + destruct (GameStatus_eqb (Dynamic.gameStatus r) playing) eqn:En;
        [|split; assumption].
      apply GameStatus_eqb_eq in En. rewrite En in IH.
      unfold Dynamic.handleDropFrom. cbv zeta.
      destruct (match findById i (Dynamic.availableItems r) with
                | Some x => Some x
                | None => findById i (Dynamic.placedItems r)
                end);
        [destruct c;
         [destruct (someById i (Dynamic.placedItems r))
         |destruct (someById i (Dynamic.availableItems r))]|];
        destruct (Dynamic.gameStatus s) eqn:Hs; try contradiction;
        split_hyps; subst; dynamic_ui_goal En Hs.
    + destruct (GameStatus_eqb (Dynamic.gameStatus r) playing) eqn:En;
        [|split; assumption].
      apply GameStatus_eqb_eq in En. rewrite En in IH.
      unfold Dynamic.handleAddItemFrom.
      destruct (findById i (Dynamic.availableItems r));
        destruct (Dynamic.gameStatus s) eqn:Hs; try contradiction;
        split_hyps; subst; dynamic_ui_goal En Hs.
    + destruct (GameStatus_eqb (Dynamic.gameStatus r) playing) eqn:En;
        [|split; assumption].
      apply GameStatus_eqb_eq in En. rewrite En in IH.
      unfold Dynamic.handleRemoveItemFrom.
      destruct (findById i (Dynamic.placedItems r));
        destruct (Dynamic.gameStatus s) eqn:Hs; try contradiction;
        split_hyps; subst; dynamic_ui_goal En Hs.
    + destruct (GameStatus_eqb (Dynamic.gameStatus s) playing) eqn:En;
        [|split; assumption].
      apply GameStatus_eqb_eq in En. rewrite En in IH.
      unfold Dynamic.handleWeatherChange. cbv zeta.
      destruct (Dynamic.gameStatus r) eqn:Hr; try contradiction;
        split_hyps; subst; dynamic_ui_goal Hr En.
    + destruct (GameStatus_eqb (Dynamic.gameStatus r) playing
                && negb (Nat.eqb (List.length (Dynamic.placedItems r)) 0))
        eqn:En; [|split; assumption].
      apply andb_true_iff in En as [En _]. apply GameStatus_eqb_eq in En.
      rewrite En in IH. unfold Dynamic.handleCheckEnergyFrom. cbv zeta.
      destruct (Dynamic.currentIsInRange r) eqn:Hin;
        [|destruct (Z.eqb_spec (Dynamic.attemptsLeft r - 1) 0)];
        destruct (Dynamic.gameStatus s) eqn:Hs; try contradiction;
        split_hyps; subst; dynamic_ui_goal En Hs.
    + destruct (GameStatus_eqb (Dynamic.gameStatus r) won
                || GameStatus_eqb (Dynamic.gameStatus r) lost) eqn:En;
        [|split; assumption].
      unfold Dynamic.handleReplayFrom.
      apply orb_true_iff in En as [En|En]; apply GameStatus_eqb_eq in En;
        rewrite En in IH;
        destruct (Dynamic.gameStatus s) eqn:Hs; try contradiction;
        split_hyps; subst; dynamic_ui_goal En Hs.
  - destruct IH as [Hflag IH]. cbn [Dynamic.rendered Dynamic.cells] in *.
    unfold Dynamic.exitComplete, Dynamic_uiInv.
    cbn [Dynamic.rendered Dynamic.cells].
    destruct (Dynamic.gameStatus r) eqn:Hr, (Dynamic.gameStatus s) eqn:Hs;
      try contradiction; split_hyps; subst;
      intuition (try discriminate; try congruence; try lia).
Qed.

(** An event on a screen rendered from the current cells, followed by the
    end of the exit animation it may have started, is [dispatch]. *)
Lemma Static_settled_dispatch (s : Static.State) (e : Static.Event) :
  Static.ui_steps (Static.mkUI s s) ->
  Static.ui_steps (Static.mkUI (Static.dispatch s e) (Static.dispatch s e)).
Proof.
  intros H. unfold Static.dispatch.
  destruct (Static.enabled s e) eqn:En; [|exact H].
  pose proof (Static.ui_steps_exit _ (Static.ui_steps_fire _ e H)) as H'.
  unfold Static.fire, Static.exitComplete in H'.
  cbn [Static.rendered Static.cells] in H'.
  now rewrite En, Static_cells_rerender, Static_handleFrom_same in H'.
Qed.

Lemma Counts_settled_dispatch (s : Counts.State) (e : Counts.Event) :
  Counts.ui_steps (Counts.mkUI s s) ->
  Counts.ui_steps (Counts.mkUI (Counts.dispatch s e) (Counts.dispatch s e)).
Proof.
  intros H. unfold Counts.dispatch.
  destruct (Counts.enabled s e) eqn:En; [|exact H].
  pose proof (Counts.ui_steps_exit _ (Counts.ui_steps_fire _ e H)) as H'.
  unfold Counts.fire, Counts.exitComplete in H'.
  cbn [Counts.rendered Counts.cells] in H'.
  now rewrite En, Counts_cells_rerender, Counts_handleFrom_same in H'.
Qed.

Lemma Dynamic_settled_offered (s : Dynamic.State) (e : Dynamic.Event) :
  Dynamic.offered (Dynamic.mkUI s s) e = Dynamic.enabled s e.
Proof. destruct e; reflexivity. Qed.

Lemma Dynamic_settled_dispatch (s : Dynamic.State) (e : Dynamic.Event) :
  Dynamic.ui_steps (Dynamic.mkUI s s) ->
  Dynamic.ui_steps
    (Dynamic.mkUI (Dynamic.dispatch s e) (Dynamic.dispatch s e)).
Proof.
  intros H. unfold Dynamic.dispatch.
  destruct (Dynamic.enabled s e) eqn:En; [|exact H].
  pose proof (Dynamic.ui_steps_exit _ (Dynamic.ui_steps_fire _ e H)) as H'.
  unfold Dynamic.fire, Dynamic.exitComplete in H'.
  rewrite Dynamic_settled_offered, En in H'.
  cbn [Dynamic.rendered Dynamic.cells] in H'.
  now rewrite Dynamic_cells_rerender, Dynamic_handleFrom_same in H'.
Qed.

Lemma Static_play_settled (events : list Static.Event) :
  Static.ui_steps (Static.mkUI (Static_play events) (Static_play events)).
Proof.
  unfold Static_play. generalize Static.ui_steps_init.
  unfold Static.initialUI. generalize Static.initialState.
  induction events as [|e events IH]; intros s H; [exact H|].
  apply IH, Static_settled_dispatch, H.
Qed.

Lemma Counts_play_settled (events : list Counts.Event) :
  Counts.ui_steps (Counts.mkUI (Counts_play events) (Counts_play events)).
Proof.
  unfold Counts_play. generalize Counts.ui_steps_init.
  unfold Counts.initialUI. generalize Counts.initialState.
  induction events as [|e events IH]; intros s H; [exact H|].
  apply IH, Counts_settled_dispatch, H.
Qed.

Lemma Dynamic_play_settled (events : list Dynamic.Event) :
  Dynamic.ui_steps
    (Dynamic.mkUI (Dynamic_play events) (Dynamic_play events)).
Proof.
  unfold Dynamic_play. generalize Dynamic.ui_steps_init.
  unfold Dynamic.initialUI. generalize Dynamic.initialState.
  induction events as [|e events IH]; intros s H; [exact H|].
  apply IH, Dynamic_settled_dispatch, H.
Qed.

Lemma Static_play_reachable (events : list Static.Event) :
  Static.ui_reachable (Static_play events).
Proof.
  eexists. split; [apply (Static_play_settled events) | reflexivity].
Qed.

Lemma Counts_play_reachable (events : list Counts.Event) :
  Counts.ui_reachable (Counts_play events).
Proof.
  eexists. split; [apply (Counts_play_settled events) | reflexivity].
Qed.

Lemma Dynamic_play_reachable (events : list Dynamic.Event) :
  Dynamic.ui_reachable (Dynamic_play events).
Proof.
  eexists. split; [apply (Dynamic_play_settled events) | reflexivity].
Qed.

Lemma Static_fires_steps (events : list Static.Event) (u : Static.UI) :
  Static.ui_steps u -> Static.ui_steps (Static_fires u events).
Proof.
  unfold Static_fires. revert u.
  induction events as [|e events IH]; intros u H; [exact H|].
  apply IH. now constructor.
Qed.

Lemma Counts_fires_steps (events : list Counts.Event) (u : Counts.UI) :
  Counts.ui_steps u -> Counts.ui_steps (Counts_fires u events).
Proof.
  unfold Counts_fires. revert u.
  induction events as [|e events IH]; intros u H; [exact H|].
  apply IH. now constructor.
Qed.

(** ** Start and replay *)

Lemma Static_handleReplay_initial (s : Static.State) :
  Static.handleReplay s = Static.initialState.
Proof. reflexivity. Qed.

Lemma Counts_handleReplay_initial (s : Counts.State) :
  Counts.handleReplay s = Counts.initialState.
Proof. reflexivity. Qed.

Lemma Dynamic_handleReplay_initial (s : Dynamic.State) :
  Dynamic.handleReplay s = Dynamic.initialState.
Proof. reflexivity. Qed.

(** The only state of the cells with the phase intro is the initial one:
    that phase is left by the start button and entered by the replay button
    only, and the replay handler writes every cell. *)
Lemma Static_intro_is_initial (s : Static.State) :
  Static.ui_reachable s -> Static.gameStatus s = intro ->
  s = Static.initialState.
Proof.
  intros ([s' r] & Hu & <-) Hi. apply Static_ui_steps_inv in Hu.
  destruct Hu as [_ Hu]. cbn [Static.cells Static.rendered] in *.
  rewrite Hi in Hu. destruct (Static.gameStatus r); tauto.
Qed.

Lemma Counts_intro_is_initial (s : Counts.State) :
  Counts.ui_reachable s -> Counts.gameStatus s = intro ->
  s = Counts.initialState.
Proof.
  intros ([s' r] & Hu & <-) Hi. apply Counts_ui_steps_inv in Hu.
  unfold Counts_uiInv in Hu. cbn [Counts.cells Counts.rendered] in *.
  rewrite Hi in Hu. destruct (Counts.gameStatus r); tauto.
Qed.

Lemma Dynamic_intro_is_initial (s : Dynamic.State) :
  Dynamic.ui_reachable s -> Dynamic.gameStatus s = intro ->
  s = Dynamic.initialState.
Proof.
  intros ([s' r] & Hu & <-) Hi. apply Dynamic_ui_steps_inv in Hu.
  destruct Hu as [_ Hu]. cbn [Dynamic.cells Dynamic.rendered] in *.
  rewrite Hi in Hu. destruct (Dynamic.gameStatus r); tauto.
Qed.

(** The start handler does not reset: called after a check and a drop
    that were made on the intro screen (handler calls in an order the
    screens do not offer), it leaves the used attempt used and the placed
    item placed. *)
Lemma start_does_not_reset :
  ~ (forall s : Static.State,
        Static.reachable s ->
        Static.gameStatus s = intro ->
        let s' := Static.handleStartGame s in
        Static.gameStatus s' = playing
        /\ Static.attemptsLeft s' = 5
        /\ Static.placedItems s' = []
        /\ Static.availableItems s' = initialItems 5).
Proof.
  intros H.
  destruct (H (Static.handle
                 (Static.handle Static.initialState Static.CheckEnergy)
                 (Static.Drop "solar-0"))
              ltac:(repeat constructor) eq_refl)
    as (_ & Hattempts & Hplaced & _).
  vm_compute in Hattempts. discriminate Hattempts.
Qed.

(** C5.  In every state with the phase intro that the component can be in,
    the start button reaches its handler, and after it the phase is playing,
    the attempts are at their maximum (5, and 3 in the weather variant),
    nothing is placed and the full stock is available (the three counters
    are 5 in the counter variant).  The handler itself writes the phase (and
    clears [hasChecked]) only: the other cells have these values because the
    only such state is the initial one, which the replay handler restores.
    On the page, the start button of a mounted intro screen runs that
    handler on the current cells. *)
Theorem start_game_from_intro :
  (forall s : Static.State,
      Static.ui_reachable s -> Static.gameStatus s = intro ->
      let s' := Static.handleStartGame s in
      Static.dispatch s Static.StartGame = s'
      /\ Static.gameStatus s' = playing
      /\ Static.attemptsLeft s' = 5
      /\ Static.placedItems s' = []
      /\ Static.availableItems s' = initialItems 5)
  /\ (forall u : Static.UI,
         Static.gameStatus (Static.rendered u) = intro ->
         Static.cells (Static.fire u Static.StartGame)
         = Static.handleStartGame (Static.cells u))
  /\ (forall s : Counts.State,
         Counts.ui_reachable s -> Counts.gameStatus s = intro ->
         let s' := Counts.handleStartGame s in
         Counts.dispatch s Counts.StartGame = s'
         /\ Counts.gameStatus s' = playing
         /\ Counts.attemptsLeft s' = 5
         /\ Counts.placedItems s' = []
         /\ Counts.availableSolar s' = 5
         /\ Counts.availableWind s' = 5
         /\ Counts.availableHydro s' = 5)
  /\ (forall u : Counts.UI,
         Counts.gameStatus (Counts.rendered u) = intro ->
         Counts.cells (Counts.fire u Counts.StartGame)
         = Counts.handleStartGame (Counts.cells u))
  /\ (forall s : Dynamic.State,
         Dynamic.ui_reachable s -> Dynamic.gameStatus s = intro ->
         let s' := Dynamic.handleStartGame s in
         Dynamic.dispatch s Dynamic.StartGame = s'
         /\ Dynamic.gameStatus s' = playing
         /\ Dynamic.attemptsLeft s' = 3
         /\ Dynamic.placedItems s' = []
         /\ Dynamic.availableItems s' = initialItems 5)
  /\ (forall u : Dynamic.UI,
         Dynamic.gameStatus (Dynamic.rendered u) = intro ->
         Dynamic.cells (Dynamic.fire u Dynamic.StartGame)
         = Dynamic.handleStartGame (Dynamic.cells u)).
Proof.
  repeat match goal with |- _ /\ _ => split end.
  - intros s Hr Hi. rewrite (Static_intro_is_initial s Hr Hi).
    repeat split.
  - intros u Hi. unfold Static.fire. cbn [Static.enabled].
    rewrite Hi. cbn [GameStatus_eqb]. apply Static_cells_rerender.
  - intros s Hr Hi. rewrite (Counts_intro_is_initial s Hr Hi).
    repeat split.
  - intros u Hi. unfold Counts.fire. cbn [Counts.enabled].
    rewrite Hi. cbn [GameStatus_eqb]. apply Counts_cells_rerender.
  - intros s Hr Hi. rewrite (Dynamic_intro_is_initial s Hr Hi).
    repeat split.
  - intros u Hi. unfold Dynamic.fire, Dynamic.offered.
    cbn [Dynamic.enabled]. rewrite Hi. cbn [GameStatus_eqb].
    apply Dynamic_cells_rerender.
Qed.

(** A second game: a game lost by five checks of one item, the replay
    button, then the start button; and the same with the three attempts of
    the weather variant. *)
Lemma start_game_from_intro_witness :
  Static.attemptsLeft
    (Static.handleStartGame
       (Static_play [Static.StartGame; Static.Drop "solar-0";
                     Static.CheckEnergy; Static.CheckEnergy;
                     Static.CheckEnergy; Static.CheckEnergy;
                     Static.CheckEnergy; Static.Replay])) = 5
  /\ Dynamic.placedItems
       (Dynamic.handleStartGame
          (Dynamic_play [Dynamic.StartGame; Dynamic.AddItem "solar-0";
                         Dynamic.CheckEnergy; Dynamic.CheckEnergy;
                         Dynamic.CheckEnergy; Dynamic.Replay])) = [].
Proof.
  destruct start_game_from_intro as (Hstatic & _ & _ & _ & Hdynamic & _).
  split.
  - destruct (Hstatic
                (Static_play [Static.StartGame; Static.Drop "solar-0";
                              Static.CheckEnergy; Static.CheckEnergy;
                              Static.CheckEnergy; Static.CheckEnergy;
                              Static.CheckEnergy; Static.Replay])
                (Static_play_reachable _) ltac:(reflexivity))
      as (_ & _ & Ha & _).
    exact Ha.
  - destruct (Hdynamic
                (Dynamic_play [Dynamic.StartGame; Dynamic.AddItem "solar-0";
                               Dynamic.CheckEnergy; Dynamic.CheckEnergy;
                               Dynamic.CheckEnergy; Dynamic.Replay])
                (Dynamic_play_reachable _) ltac:(reflexivity))
      as (_ & _ & _ & Hp & _).
    exact Hp.
Defined.

(** ** The gate of the check button *)

(** The handler itself has no guard: called on an empty grid it takes an
    attempt.  The guard is the button. *)
Example handleCheckEnergy_unguarded :
  Static.attemptsLeft
    (Static.handleCheckEnergy
       (Static.mkState playing 5 false [] (initialItems 5))) = 4.
Proof. reflexivity. Qed.

(** The check button of the counter variant, whatever the screen it is
    on: with nothing placed, or in a phase that is not playing, the cells
    are after it what they were.  A playing screen that is leaving still
    offers the button, and its handler runs: it writes the phase, or the 0
    and the phase, that the check before it wrote. *)
Lemma Counts_check_rejected (u : Counts.UI) :
  Counts.ui_steps u ->
  Counts.placedItems (Counts.cells u) = []
  \/ Counts.gameStatus (Counts.cells u) <> playing ->
  Counts.cells (Counts.fire u Counts.CheckEnergy) = Counts.cells u.
Proof.
  intros Hu Hc. apply Counts_ui_steps_inv in Hu. destruct u as [s r].
  unfold Counts_uiInv in Hu. cbn [Counts.cells Counts.rendered] in *.
  unfold Counts.fire. cbn [Counts.cells Counts.rendered Counts.enabled].
  destruct (GameStatus_eqb (Counts.gameStatus r) playing) eqn:En;
    [|reflexivity].
  apply GameStatus_eqb_eq in En. rewrite En in Hu.
  destruct (Counts.gameStatus s) eqn:Hs; try contradiction.
  - destruct Hu as [-> _]. destruct Hc as [Hc|Hc]; [|congruence].
    rewrite Hc. reflexivity.
  - cbn [andb]. destruct (negb _); [|reflexivity].
    rewrite Counts_cells_rerender. cbn [Counts.handleFrom].
    unfold Counts.handleCheckEnergyFrom. destruct Hu as [-> _].
    destruct s; cbn in *; subst; reflexivity.
  - cbn [andb]. destruct (negb _); [|reflexivity].
    rewrite Counts_cells_rerender. cbn [Counts.handleFrom].
    unfold Counts.handleCheckEnergyFrom. destruct Hu as (-> & -> & Hz).
    destruct s; cbn in *; subst; reflexivity.
Qed.

(** In the variants with the [hasChecked] flag the handler first sets the
    flag: a check with nothing placed changes no cell, and a check in a phase
    that is not playing changes no cell but, at most, that flag. *)
Lemma Static_check_rejected (u : Static.UI) :
  Static.ui_steps u ->
  let s := Static.cells u in
  let s' := Static.cells (Static.fire u Static.CheckEnergy) in
  (Static.gameStatus s = playing -> Static.placedItems s = [] -> s' = s)
  /\ (Static.gameStatus s <> playing ->
      s' = s \/ s' = Static.setHasChecked true s).
Proof.
  intros Hu. cbv zeta. apply Static_ui_steps_inv in Hu. destruct u as [s r].
  destruct Hu as [_ Hu]. cbn [Static.cells Static.rendered] in *.
  unfold Static.fire. cbn [Static.cells Static.rendered Static.enabled].
  destruct (GameStatus_eqb (Static.gameStatus r) playing) eqn:En;
    [|split; intros; auto].
  apply GameStatus_eqb_eq in En. rewrite En in Hu.
  destruct (Static.gameStatus s) eqn:Hs; try contradiction;
    (split; [intros Hp; try discriminate Hp | intros Hp; try congruence]).
  - intros He. destruct Hu as [-> _]. rewrite He. reflexivity.
  - cbn [andb]. destruct (negb _); [right|now left].
    rewrite Static_cells_rerender. cbn [Static.handleFrom].
    unfold Static.handleCheckEnergyFrom. destruct Hu as [-> _].
    destruct s; cbn in *; subst; reflexivity.
  - cbn [andb]. destruct (negb _); [right|now left].
    rewrite Static_cells_rerender. cbn [Static.handleFrom].
    unfold Static.handleCheckEnergyFrom. destruct Hu as (-> & -> & Hz).
    destruct s; cbn in *; subst; reflexivity.
Qed.

Lemma Dynamic_check_rejected (u : Dynamic.UI) :
  Dynamic.ui_steps u ->
  let s := Dynamic.cells u in
  let s' := Dynamic.cells (Dynamic.fire u Dynamic.CheckEnergy) in
  (Dynamic.gameStatus s = playing -> Dynamic.placedItems s = [] -> s' = s)
  /\ (Dynamic.gameStatus s <> playing ->
      s' = s \/ s' = Dynamic.setHasChecked true s).
Proof.
  intros Hu. cbv zeta. apply Dynamic_ui_steps_inv in Hu.
  destruct u as [s r].
  destruct Hu as [_ Hu]. cbn [Dynamic.cells Dynamic.rendered] in *.
  unfold Dynamic.fire, Dynamic.offered.
  cbn [Dynamic.cells Dynamic.rendered Dynamic.enabled].
  destruct (GameStatus_eqb (Dynamic.gameStatus r) playing) eqn:En;
    [|split; intros; auto].
  apply GameStatus_eqb_eq in En. rewrite En in Hu.
  destruct (Dynamic.gameStatus s) eqn:Hs; try contradiction;
    (split; [intros Hp; try discriminate Hp | intros Hp; try congruence]).
  - intros He. destruct Hu as [-> _]. rewrite He. reflexivity.
  - cbn [andb]. destruct (negb _); [right|now left].
    rewrite Dynamic_cells_rerender. cbn [Dynamic.handleFrom].
    unfold Dynamic.handleCheckEnergyFrom. destruct Hu as [-> _].
    destruct s; cbn in *; subst; reflexivity.
  - cbn [andb]. destruct (negb _); [right|now left].
    rewrite Dynamic_cells_rerender. cbn [Dynamic.handleFrom].
    unfold Dynamic.handleCheckEnergyFrom. destruct Hu as (-> & -> & Hz).
    destruct s; cbn in *; subst; reflexivity.
Qed.

(** C6.  The check button is rendered on the playing screen, with
    [disabled={placedItems.length === 0}]; the handler has no test of its own.
    In the counter variant that is enough: with nothing placed, or in a phase
    that is not playing, a check leaves every cell as it was, on whatever
    screen the button is.  In the variants with the [hasChecked] flag it is
    not: the playing screen stays mounted while it fades out after the check
    that ended the game, a click on a placed item of that screen clears the
    flag, and the check button of that screen then sets it again, in the
    phase lost (or won) and, in the first game below, with no item placed.
    The flag is the only cell such a check can change. *)
Theorem check_on_leaving_screen :
  (forall u : Counts.UI,
      Counts.ui_steps u ->
      Counts.placedItems (Counts.cells u) = []
      \/ Counts.gameStatus (Counts.cells u) <> playing ->
      Counts.cells (Counts.fire u Counts.CheckEnergy) = Counts.cells u)
  /\ (forall u : Static.UI,
         Static.ui_steps u ->
         let s := Static.cells u in
         let s' := Static.cells (Static.fire u Static.CheckEnergy) in
         (Static.gameStatus s = playing -> Static.placedItems s = [] ->
          s' = s)
         /\ (Static.gameStatus s <> playing ->
             s' = s \/ s' = Static.setHasChecked true s))
  /\ (forall u : Dynamic.UI,
         Dynamic.ui_steps u ->
         let s := Dynamic.cells u in
         let s' := Dynamic.cells (Dynamic.fire u Dynamic.CheckEnergy) in
         (Dynamic.gameStatus s = playing -> Dynamic.placedItems s = [] ->
          s' = s)
         /\ (Dynamic.gameStatus s <> playing ->
             s' = s \/ s' = Dynamic.setHasChecked true s))
  /\ (let u :=
        Static_fires
          (Static.exitComplete (Static.fire Static.initialUI Static.StartGame))
          [Static.Drop "solar-0"; Static.CheckEnergy; Static.CheckEnergy;
           Static.CheckEnergy; Static.CheckEnergy; Static.CheckEnergy;
           Static.RemoveItem "solar-0"] in
      Static.ui_steps u
      /\ Static.gameStatus (Static.cells u) = lost
      /\ Static.placedItems (Static.cells u) = []
      /\ Static.hasChecked (Static.cells u) = false
      /\ Static.enabled (Static.rendered u) Static.CheckEnergy = true
      /\ Static.cells (Static.fire u Static.CheckEnergy)
         = Static.setHasChecked true (Static.cells u)
      /\ Static.cells (Static.fire u Static.CheckEnergy) <> Static.cells u)
  /\ (let u :=
        Static_fires
          (Static.exitComplete (Static.fire Static.initialUI Static.StartGame))
          [Static.Drop "hydro-0"; Static.Drop "hydro-1"; Static.Drop "hydro-2";
           Static.Drop "hydro-3"; Static.Drop "hydro-4"; Static.Drop "wind-0";
           Static.Drop "wind-1"; Static.Drop "wind-2"; Static.Drop "wind-3";
           Static.CheckEnergy; Static.RemoveItem "hydro-0"] in
      Static.ui_steps u
      /\ Static.gameStatus (Static.cells u) = won
      /\ Static.hasChecked (Static.cells u) = false
      /\ Static.enabled (Static.rendered u) Static.CheckEnergy = true
      /\ Static.cells (Static.fire u Static.CheckEnergy)
         = Static.setHasChecked true (Static.cells u)
      /\ Static.cells (Static.fire u Static.CheckEnergy) <> Static.cells u).
Proof.
  split; [exact Counts_check_rejected|].
  split; [exact Static_check_rejected|].
  split; [exact Dynamic_check_rejected|].
  split; cbv zeta.
  - split; [apply Static_fires_steps; repeat constructor|].
    vm_compute. repeat split. discriminate.
  - split; [apply Static_fires_steps; repeat constructor|].
    vm_compute. repeat split. discriminate.
Qed.

(** A game of the counter variant lost by five checks of one item; on
    the playing screen that fades out, the placed item is clicked and the
    check button pressed once more. *)
Lemma check_on_leaving_screen_witness :
  let u :=
    Counts_fires
      (Counts.exitComplete (Counts.fire Counts.initialUI Counts.StartGame))
      [Counts.Drop solar "u-1"; Counts.CheckEnergy; Counts.CheckEnergy;
       Counts.CheckEnergy; Counts.CheckEnergy; Counts.CheckEnergy;
       Counts.RemoveItem "u-1"] in
  Counts.cells (Counts.fire u Counts.CheckEnergy) = Counts.cells u.
Proof.
  destruct check_on_leaving_screen as (Hcounts & _).
  cbv zeta. apply Hcounts.
  - apply Counts_fires_steps. repeat constructor.
  - right. vm_compute. discriminate.
Defined.

(** ** The weights of the weather variant *)

(** [nearestHundredths m e] is the integer [n] with
    [n - 1/2 <= 100 * m * 2^e < n + 1/2]: the nearest one, and the larger of
    the two when [100 * m * 2^e] is half-way. *)
Lemma nearestHundredths_nearest (m : positive) (e : Z) :
  let n := nearestHundredths m e in
  (0 <= e -> n = 100 * Z.pos m * 2 ^ e)
  /\ (e < 0 ->
      (2 * n - 1) * 2 ^ (- e) <= 200 * Z.pos m < (2 * n + 1) * 2 ^ (- e)).
Proof.
  unfold nearestHundredths. split; intros He.
  - destruct (Z.leb_spec 0 e); [reflexivity | lia].
  - destruct (Z.leb_spec 0 e); [lia|].
    replace (1 - e) with (Z.succ (- e)) by lia.
    rewrite Z.pow_succ_r by lia.
    assert (Hpos : 0 < 2 ^ (- e)) by (apply Z.pow_pos_nonneg; lia).
    set (p := 2 ^ (- e)) in *.
    pose proof (Z.mul_div_le (200 * Z.pos m + p) (2 * p) ltac:(lia)).
    pose proof (Z.mul_succ_div_gt (200 * Z.pos m + p) (2 * p) ltac:(lia)).
    set (n := (200 * Z.pos m + p) / (2 * p)) in *.
    split; nia.
Qed.

(** The rounding on some numbers: a tie goes up, 1.005 is below the tie as
    a binary64 number, a small negative number keeps its sign. *)
Example toFixed2_examples :
  toFixed2 0.125 = Hundredths false 13
  /\ toFixed2 1.005 = Hundredths false 100
  /\ toFixed2 (-0.001) = Hundredths true 0
  /\ toFixed2 1e21 = Plain 1e21
  /\ Number (Hundredths false 140) = 1.4%float
  /\ Number (Hundredths true 0) = (-0)%float.
Proof. vm_compute. repeat split. Qed.

(** With the sun slider at 7, the weight of a solar item is 1.4 and not the
    quotient [0.07 * 100 / 5], which is 1.4000000000000001: the weight is not
    the unrounded expression, and the total adds the rounded weights. *)
Lemma rounded_weight_is_summed :
  ~ (forall (w : Weather.t) (t : EnergyType),
        Dynamic.weight w t = unroundedWeight w t)
  /\ ~ (forall (w : Weather.t) (placed : list PlacedItem),
           Dynamic.totalEnergy w placed
           = fold_left
               (fun sum item => (sum + unroundedWeight w (type item))%float)
               placed 0%float).
Proof.
  split; intros H.
  - specialize (H (Dynamic.weather
                     (Dynamic.handleWeatherChange Dynamic.initialState
                                                  Dynamic.sunKey 7))
                  solar).
    apply (f_equal Prim2SF) in H. vm_compute in H. discriminate H.
  - specialize (H (Dynamic.weather
                     (Dynamic.handleWeatherChange Dynamic.initialState
                                                  Dynamic.sunKey 7))
                  [mkItem "solar-0" solar]).
    apply (f_equal Prim2SF) in H. vm_compute in H. discriminate H.
Qed.

(** C4, amended.  In the weather variant the weight of an item is
    [weather[category] * 100 / 5] rounded to two decimals, the number that
    [Number(x.toFixed(2))] returns, and the total adds these rounded weights:
    the rounding is part of the weight, not of its display alone.  With the
    sun at 0.5 (the slider at 50) the weight of a solar item is 10 and three
    solar items total 30.  At each of the 101 positions [v] of a slider the
    weight is the binary64 number [v / 5]. *)
Theorem dynamic_weight_rounded :
  (forall (w : Weather.t) (t : EnergyType),
      Dynamic.weight w t = Number (toFixed2 (unroundedWeight w t)))
  /\ (forall (w : Weather.t) (placed : list PlacedItem),
         Dynamic.totalEnergy w placed
         = fold_left
             (fun sum item =>
                (sum + Number (toFixed2 (unroundedWeight w (type item))))%float)
             placed 0%float)
  /\ Dynamic.weather
       (Dynamic.handleWeatherChange Dynamic.initialState Dynamic.sunKey 50)
     = Weather.mk 0.5 0 0
  /\ Dynamic.SOLAR_WEIGHT (Weather.mk 0.5 0 0) = 10%float
  /\ Dynamic.totalEnergy (Weather.mk 0.5 0 0)
       [mkItem "solar-0" solar; mkItem "solar-1" solar; mkItem "solar-2" solar]
     = 30%float
  /\ forallb
       (fun v =>
          (Dynamic.SOLAR_WEIGHT
             (Dynamic.weather
                (Dynamic.handleWeatherChange Dynamic.initialState
                                             Dynamic.sunKey (sliderValue v)))
           =? sliderValue v / 5)%float)
       (seq 0 101) = true.
Proof.
  assert (Hw : forall (w : Weather.t) (t : EnergyType),
             Dynamic.weight w t = Number (toFixed2 (unroundedWeight w t))).
  { intros w t. destruct t; reflexivity. }
  split; [exact Hw|]. split.
  { intros w placed. rewrite Dynamic_totalEnergy_sum.
    apply fold_left_pointwise. intros sum item. now rewrite Hw. }
  repeat split; vm_compute; reflexivity.
Qed.

(** ** The counters of the first variant *)

Lemma placedOf_cons (t : EnergyType) (x : PlacedItem) (l : list PlacedItem) :
  placedOf t (x :: l)
  = (if EnergyType_eqb (type x) t then 1 else 0) + placedOf t l.
Proof.
  unfold placedOf. cbn [filter].
  destruct (EnergyType_eqb (type x) t); cbn [List.length]; lia.
Qed.

Lemma placedOf_perm (t : EnergyType) (l l' : list PlacedItem) :
  Permutation l l' -> placedOf t l = placedOf t l'.
Proof.
  intros H. unfold placedOf. f_equal.
  apply Permutation_length. induction H; cbn [filter].
  - reflexivity.
  - destruct (EnergyType_eqb (type x) t); [apply perm_skip|]; assumption.
  - destruct (EnergyType_eqb (type x) t), (EnergyType_eqb (type y) t);
      try reflexivity. apply perm_swap.
  - etransitivity; eassumption.
Qed.

Lemma placedOf_total (l : list PlacedItem) :
  placedOf solar l + placedOf wind l + placedOf hydro l
  = Z.of_nat (List.length l).
Proof.
  induction l as [|x l IH]; [reflexivity|].
  rewrite !placedOf_cons. cbn [List.length].
  destruct (type x); cbn [EnergyType_eqb]; lia.
Qed.

(** With fresh ids, every counter and the placed items of its type add up
    to five, and no counter is negative. *)
Lemma Counts_reachable_counters (s : Counts.State) :
  Counts.reachable s ->
  NoDup (map id (Counts.placedItems s))
  /\ forall t : EnergyType,
       0 <= Counts.availableOf s t
       /\ Counts.availableOf s t + placedOf t (Counts.placedItems s) = 5.
Proof.
  induction 1 as [|s e _ [Hnd Hcount] Hfresh].
  - split; [constructor|]. intros t. destruct t; cbn; lia.
  - destruct e as [|t u|i| |]; cbn [Counts.handle Counts.freshId] in *.
    + split; assumption.
    + assert (Hnd' : NoDup (map id (Counts.placedItems s ++ [mkItem u t]))).
      { rewrite map_app. apply NoDup_app; [assumption | | ].
        - repeat constructor. intros [].
        - intros a Ha [<-|[]]. contradiction. }
      assert (Hadd : forall t',
                 placedOf t' (Counts.placedItems s ++ [mkItem u t])
                 = placedOf t' (Counts.placedItems s)
                   + (if EnergyType_eqb t t' then 1 else 0)).
      { intros t'.
        rewrite (placedOf_perm t' _ (mkItem u t :: Counts.placedItems s)).
        - rewrite placedOf_cons. cbn [type]. lia.
        - symmetry. apply Permutation_cons_append. }
      unfold Counts.handleDrop.
      pose proof (Hcount solar) as Hs. pose proof (Hcount wind) as Hw.
      pose proof (Hcount hydro) as Hh. cbn [Counts.availableOf] in Hs, Hw, Hh.
      destruct t; cbn [EnergyType_eqb andb];
        match goal with
        | |- context [?n >? 0] => destruct (Z.gtb_spec n 0)
        end;
        (split; [assumption || exact Hnd' |]);
        intros t'; try apply Hcount;
        destruct t'; cbn -[placedOf]; rewrite Hadd;
        cbn [EnergyType_eqb]; lia.
    + unfold Counts.handleRemoveItem.
      destruct (findById i (Counts.placedItems s)) as [x|] eqn:E;
        [|split; assumption].
      pose proof (find_remove_perm i _ x Hnd E) as Hperm.
      assert (Hnd' : NoDup (map id (removeById i (Counts.placedItems s)))).
      { apply (Permutation_map id) in Hperm.
        apply (Permutation_NoDup Hperm) in Hnd.
        now inversion Hnd. }
      assert (Hsub : forall t',
                 placedOf t' (Counts.placedItems s)
                 = (if EnergyType_eqb (type x) t' then 1 else 0)
                   + placedOf t' (removeById i (Counts.placedItems s))).
      { intros t'. rewrite (placedOf_perm t' _ _ Hperm).
        apply placedOf_cons. }
      pose proof (Hcount solar) as Hs. pose proof (Hcount wind) as Hw.
      pose proof (Hcount hydro) as Hh. cbn [Counts.availableOf] in Hs, Hw, Hh.
      rewrite Hsub in Hs, Hw, Hh.
      assert (Hge : forall t',
                 0 <= placedOf t' (removeById i (Counts.placedItems s)))
        by (intros t'; unfold placedOf; lia).
      pose proof (Hge solar). pose proof (Hge wind). pose proof (Hge hydro).
      destruct (type x); cbn [EnergyType_eqb] in *;
        (split; [exact Hnd'|]); intros t'; destruct t'; cbn -[placedOf]; lia.
    + unfold Counts.handleCheckEnergy.
      destruct (Counts.isInRange s); [|destruct (_ =? 0)];
        split; assumption.
    + split; [constructor|]. intros t. destruct t; cbn; lia.
Qed.

(** The counter variant keeps the stock as three counters: with fresh ids
    the counters and the number of placed items add up to the 15 items of the
    game. *)
Lemma Counts_conservation (s : Counts.State) :
  Counts.reachable s ->
  Counts.availableSolar s + Counts.availableWind s + Counts.availableHydro s
  + Z.of_nat (List.length (Counts.placedItems s)) = Z.of_nat totalItemCount.
Proof.
  intros H. destruct (Counts_reachable_counters s H) as [_ Hcount].
  pose proof (Hcount solar) as [_ Hs]. pose proof (Hcount wind) as [_ Hw].
  pose proof (Hcount hydro) as [_ Hh]. cbn [Counts.availableOf] in Hs, Hw, Hh.
  rewrite <- placedOf_total. unfold totalItemCount. lia.
Qed.

(** The premise on the ids is needed: two drops under one id, and the
    removal takes both items off the grid and gives one back. *)
Example Counts_shared_id_loses_an_item :
  let s := Counts.handleRemoveItem
             (Counts.handleDrop
                (Counts.handleDrop
                   (Counts.handleStartGame Counts.initialState) solar "u")
                wind "u")
             "u" in
  Counts.placedItems s = []
  /\ Counts.availableSolar s + Counts.availableWind s
     + Counts.availableHydro s = 14.
Proof. vm_compute. split; reflexivity. Qed.

(** * Further properties of the handlers *)

(** ** The total of the item-based variant *)

Lemma sumZ_perm (l l' : list Z) : Permutation l l' -> sumZ l = sumZ l'.
Proof. induction 1; unfold sumZ in *; cbn [fold_right] in *; lia. Qed.

Lemma sumZ_app (l l' : list Z) : sumZ (l ++ l') = sumZ l + sumZ l'.
Proof.
  induction l as [|a l IH]; unfold sumZ in *; cbn [fold_right app] in *; lia.
Qed.

Lemma Static_totalEnergy_app (l l' : list PlacedItem) :
  Static.totalEnergy (l ++ l') = Static.totalEnergy l + Static.totalEnergy l'.
Proof. now rewrite !Static_totalEnergy_sum, map_app, sumZ_app. Qed.

Lemma Static_totalEnergy_cons (x : PlacedItem) (l : list PlacedItem) :
  Static.totalEnergy (x :: l)
  = Static.weight (type x) + Static.totalEnergy l.
Proof. now rewrite !Static_totalEnergy_sum. Qed.

Lemma Static_totalEnergy_perm (placed placed' : list PlacedItem) :
  Permutation placed placed' ->
  Static.totalEnergy placed = Static.totalEnergy placed'.
Proof.
  intros H. rewrite !Static_totalEnergy_sum.
  apply sumZ_perm, Permutation_map, H.
Qed.

Lemma Counts_totalEnergy_perm (placed placed' : list PlacedItem) :
  Permutation placed placed' ->
  Counts.totalEnergy placed = Counts.totalEnergy placed'.
Proof.
  intros H. rewrite !Counts_totalEnergy_sum.
  apply sumZ_perm, Permutation_map, H.
Qed.

(** The order of the placed items does not matter to the totals with the
    fixed weights: two lists with the same items have the same total, in the
    item-based and in the counter variant. *)
Theorem totalEnergy_order_irrelevant (placed placed' : list PlacedItem) :
  Permutation placed placed' ->
  Static.totalEnergy placed = Static.totalEnergy placed'
  /\ Counts.totalEnergy placed = Counts.totalEnergy placed'.
Proof.
  intros H. split.
  - now apply Static_totalEnergy_perm.
  - now apply Counts_totalEnergy_perm.
Qed.

Lemma totalEnergy_order_irrelevant_witness :
  Static.totalEnergy [mkItem "hydro-0" hydro; mkItem "solar-0" solar]
  = Static.totalEnergy [mkItem "solar-0" solar; mkItem "hydro-0" hydro].
Proof.
  apply (totalEnergy_order_irrelevant
           [mkItem "hydro-0" hydro; mkItem "solar-0" solar]
           [mkItem "solar-0" solar; mkItem "hydro-0" hydro]).
  apply perm_swap.
Defined.

Lemma placedOf_app (t : EnergyType) (l l' : list PlacedItem) :
  placedOf t (l ++ l') = placedOf t l + placedOf t l'.
Proof.
  unfold placedOf. rewrite filter_app, length_app. lia.
Qed.

Lemma placedOf_nonneg (t : EnergyType) (l : list PlacedItem) :
  0 <= placedOf t l.
Proof. unfold placedOf. lia. Qed.

(** The total as the weighted sum of a perceptron: each weight times the
    number of placed items of its type. *)
Lemma Static_totalEnergy_weighted (placed : list PlacedItem) :
  Static.totalEnergy placed
  = Static.SOLAR_WEIGHT * placedOf solar placed
    + Static.WIND_WEIGHT * placedOf wind placed
    + Static.HYDRO_WEIGHT * placedOf hydro placed.
Proof.
  induction placed as [|x l IH]; [reflexivity|].
  rewrite Static_totalEnergy_cons, !placedOf_cons, IH.
  unfold Static.SOLAR_WEIGHT, Static.WIND_WEIGHT, Static.HYDRO_WEIGHT.
  destruct (type x); cbn [Static.weight EnergyType_eqb];
    unfold Static.SOLAR_WEIGHT, Static.WIND_WEIGHT, Static.HYDRO_WEIGHT; lia.
Qed.

Lemma holdsStock_placedOf (av pl : list PlacedItem) (t : EnergyType) :
  holdsStock av pl -> placedOf t av + placedOf t pl = 5.
Proof.
  intros H. rewrite <- placedOf_app, (placedOf_perm t _ _ H).
  destruct t; reflexivity.
Qed.

Lemma Static_reachable_placedOf (s : Static.State) (t : EnergyType) :
  Static.reachable s -> 0 <= placedOf t (Static.placedItems s) <= 5.
Proof.
  intros Hreach. apply Static_reachable_holdsStock in Hreach.
  pose proof (holdsStock_placedOf _ _ t Hreach).
  pose proof (placedOf_nonneg t (Static.availableItems s)).
  pose proof (placedOf_nonneg t (Static.placedItems s)). lia.
Qed.

(** In every state the handlers lead to, the total on the grid is the
    weighted count of the placed items, at most five of a type; it lies
    between 0 and 100, and with the total of the items still available it
    makes exactly 100. *)
Theorem Static_total_bounds (s : Static.State) :
  Static.reachable s ->
  let total := Static.totalEnergy (Static.placedItems s) in
  (forall t : EnergyType, 0 <= placedOf t (Static.placedItems s) <= 5)
  /\ total = 2 * placedOf solar (Static.placedItems s)
             + 6 * placedOf wind (Static.placedItems s)
             + 12 * placedOf hydro (Static.placedItems s)
  /\ 0 <= total <= 100
  /\ Static.totalEnergy (Static.availableItems s) + total = 100.
Proof.
  intros Hreach total. subst total.
  assert (Hcount : forall t, 0 <= placedOf t (Static.placedItems s) <= 5)
    by (intros t; now apply Static_reachable_placedOf).
  apply Static_reachable_holdsStock in Hreach.
  pose proof (Static_totalEnergy_weighted (Static.placedItems s)) as Hw.
  unfold Static.SOLAR_WEIGHT, Static.WIND_WEIGHT, Static.HYDRO_WEIGHT in Hw.
  pose proof (Hcount solar). pose proof (Hcount wind).
  pose proof (Hcount hydro).
  repeat split; try apply Hcount; try lia.
  rewrite <- Static_totalEnergy_app.
  rewrite (Static_totalEnergy_perm _ _ Hreach). reflexivity.
Qed.

Lemma Static_total_bounds_witness :
  0 <= Static.totalEnergy
         (Static.placedItems
            (Static.handle (Static.handle Static.initialState Static.StartGame)
                           (Static.Drop "hydro-2"))) <= 100.
Proof.
  apply (Static_total_bounds
           (Static.handle (Static.handle Static.initialState Static.StartGame)
                          (Static.Drop "hydro-2"))).
  repeat constructor.
Defined.

(** A check can only succeed on a grid with at least four hydro items and
    at least nine items in all: the stock has five items of a type. *)
Theorem Static_winning_placement (s : Static.State) :
  Static.reachable s -> Static.currentIsInRange s = true ->
  4 <= placedOf hydro (Static.placedItems s)
  /\ (9 <= List.length (Static.placedItems s))%nat.
Proof.
  intros Hreach Hin. apply Static_currentIsInRange_iff in Hin.
  pose proof (Static_totalEnergy_weighted (Static.placedItems s)) as Hw.
  unfold Static.SOLAR_WEIGHT, Static.WIND_WEIGHT, Static.HYDRO_WEIGHT in Hw.
  pose proof (Static_reachable_placedOf s solar Hreach).
  pose proof (Static_reachable_placedOf s wind Hreach).
  pose proof (Static_reachable_placedOf s hydro Hreach).
  pose proof (placedOf_total (Static.placedItems s)).
  unfold Static.THRESHOLD_MIN, Static.THRESHOLD_MAX in Hin.
  split; lia.
Qed.

Lemma Static_handles_reachable (events : list Static.Event) (s : Static.State) :
  Static.reachable s -> Static.reachable (fold_left Static.handle events s).
Proof.
  revert s. induction events as [|e events IH]; intros s H; [exact H|].
  apply IH. now constructor.
Qed.

(** Five hydro and four wind items: 84. *)
Lemma Static_winning_placement_witness :
  4 <= placedOf hydro
         (Static.placedItems
            (fold_left Static.handle
               [Static.StartGame; Static.Drop "hydro-0"; Static.Drop "hydro-1";
                Static.Drop "hydro-2"; Static.Drop "hydro-3";
                Static.Drop "hydro-4"; Static.Drop "wind-0";
                Static.Drop "wind-1"; Static.Drop "wind-2";
                Static.Drop "wind-3"]
               Static.initialState)).
Proof.
  apply (Static_winning_placement
           (fold_left Static.handle
              [Static.StartGame; Static.Drop "hydro-0"; Static.Drop "hydro-1";
               Static.Drop "hydro-2"; Static.Drop "hydro-3";
               Static.Drop "hydro-4"; Static.Drop "wind-0";
               Static.Drop "wind-1"; Static.Drop "wind-2";
               Static.Drop "wind-3"]
              Static.initialState)).
  - apply Static_handles_reachable. constructor.
  - vm_compute. reflexivity.
Defined.

(** ** What each screen guarantees *)

(** The attempts, from the invariant of the page. *)
Ltac attempts_goal :=
  split;
  [lia
  |split; intros Hx;
   first [discriminate Hx | reflexivity | lia]].

(** On the screens, the attempts stay between 0 and their maximum (5, and
    3 in the weather variant), and the game is lost exactly when none is
    left. *)
Theorem attempts_on_screens :
  (forall s : Static.State,
      Static.ui_reachable s ->
      0 <= Static.attemptsLeft s <= 5
      /\ (Static.gameStatus s = lost <-> Static.attemptsLeft s = 0))
  /\ (forall s : Counts.State,
         Counts.ui_reachable s ->
         0 <= Counts.attemptsLeft s <= 5
         /\ (Counts.gameStatus s = lost <-> Counts.attemptsLeft s = 0))
  /\ (forall s : Dynamic.State,
         Dynamic.ui_reachable s ->
         0 <= Dynamic.attemptsLeft s <= 3
         /\ (Dynamic.gameStatus s = lost <-> Dynamic.attemptsLeft s = 0)).
Proof.
  split; [|split]; intros s ([s' r] & Hu & <-).
  - apply Static_ui_steps_inv in Hu. destruct Hu as [_ Hu].
    cbn [Static.cells Static.rendered] in *.
    destruct (Static.gameStatus r), (Static.gameStatus s');
      try contradiction; split_hyps; subst;
      cbn [Static.attemptsLeft Static.initialState]; attempts_goal.
  - apply Counts_ui_steps_inv in Hu. unfold Counts_uiInv in Hu.
    cbn [Counts.cells Counts.rendered] in *.
    destruct (Counts.gameStatus r), (Counts.gameStatus s');
      try contradiction; split_hyps; subst;
      cbn [Counts.attemptsLeft Counts.initialState]; attempts_goal.
  - apply Dynamic_ui_steps_inv in Hu. destruct Hu as [_ Hu].
    cbn [Dynamic.cells Dynamic.rendered] in *.
    destruct (Dynamic.gameStatus r), (Dynamic.gameStatus s');
      try contradiction; split_hyps; subst;
      cbn [Dynamic.attemptsLeft Dynamic.initialState]; attempts_goal.
Qed.

(** A game of the weather variant lost by three checks of one item under
    the initial weather. *)
Lemma attempts_on_screens_witness :
  Dynamic.attemptsLeft
    (Dynamic_play [Dynamic.StartGame; Dynamic.AddItem "solar-0";
                   Dynamic.CheckEnergy; Dynamic.CheckEnergy;
                   Dynamic.CheckEnergy]) = 0.
Proof.
  destruct attempts_on_screens as (_ & _ & Hdynamic).
  apply (Hdynamic
           (Dynamic_play [Dynamic.StartGame; Dynamic.AddItem "solar-0";
                          Dynamic.CheckEnergy; Dynamic.CheckEnergy;
                          Dynamic.CheckEnergy])).
  - apply Dynamic_play_reachable.
  - reflexivity.
Defined.

(** *** Events on screens rendered from the current cells *)

Lemma Static_dispatch_screenInv (s : Static.State) (e : Static.Event) :
  Static_screenInv s -> Static_screenInv (Static.dispatch s e).
Proof.
  intros IH.
  unfold Static.dispatch. destruct (Static.enabled s e) eqn:En; [|exact IH].
  unfold Static_screenInv in IH.
  destruct e as [|i|i| |]; cbn [Static.enabled Static.handle] in *.
  - apply GameStatus_eqb_eq in En. rewrite En in IH. subst s.
    cbn. split; [lia | discriminate].
  - apply GameStatus_eqb_eq in En. rewrite En in IH.
    unfold Static.handleDrop.
    destruct (findById i (Static.availableItems s)).
    + unfold Static_screenInv. cbn -[Static.currentIsInRange].
      rewrite En. split; [tauto | discriminate].
    + unfold Static_screenInv. now rewrite En.
  - apply GameStatus_eqb_eq in En. rewrite En in IH.
    unfold Static.handleRemoveItem.
    destruct (findById i (Static.placedItems s)).
    + unfold Static_screenInv. cbn -[Static.currentIsInRange].
      rewrite En. split; [tauto | discriminate].
    + unfold Static_screenInv. now rewrite En.
  - apply andb_true_iff in En as [En _]. apply GameStatus_eqb_eq in En.
    rewrite En in IH. destruct IH as [Hatt _].
    unfold Static.handleCheckEnergy.
    destruct (Static.currentIsInRange s) eqn:Hr.
    + unfold Static_screenInv. cbn -[Static.currentIsInRange].
      tauto.
    + cbv zeta. destruct (Z.eqb_spec (Static.attemptsLeft s - 1) 0) as [Hz|Hz];
        unfold Static_screenInv; cbn -[Static.currentIsInRange];
        rewrite ?En.
      * tauto.
      * split; [lia | tauto].
  - reflexivity.
Qed.

Lemma Counts_dispatch_screenInv (s : Counts.State) (e : Counts.Event) :
  Counts_screenInv s -> Counts_screenInv (Counts.dispatch s e).
Proof.
  intros IH.
  unfold Counts.dispatch. destruct (Counts.enabled s e) eqn:En; [|exact IH].
  unfold Counts_screenInv in IH.
  destruct e as [|t u|i| |]; cbn [Counts.enabled Counts.handle] in *.
  - apply GameStatus_eqb_eq in En. rewrite En in IH. subst s.
    cbn. lia.
  - apply GameStatus_eqb_eq in En. rewrite En in IH.
    unfold Counts.handleDrop, Counts_screenInv.
    repeat match goal with
           | |- context [if ?b then _ else _] => destruct b
           end; cbn; rewrite En; exact IH.
  - apply GameStatus_eqb_eq in En. rewrite En in IH.
    unfold Counts.handleRemoveItem, Counts_screenInv.
    destruct (findById i (Counts.placedItems s)) as [x|];
      [destruct (type x)|]; cbn; rewrite En; exact IH.
  - apply andb_true_iff in En as [En _]. apply GameStatus_eqb_eq in En.
    rewrite En in IH.
    unfold Counts.handleCheckEnergy.
    destruct (Counts.isInRange s) eqn:Hr.
    + unfold Counts_screenInv. cbn -[Counts.isInRange].
      tauto.
    + cbv zeta. destruct (Z.eqb_spec (Counts.attemptsLeft s - 1) 0) as [Hz|Hz];
        unfold Counts_screenInv; cbn -[Counts.isInRange];
        rewrite ?En.
      * tauto.
      * lia.
  - reflexivity.
Qed.

Lemma Dynamic_dispatch_screenInv (s : Dynamic.State) (e : Dynamic.Event) :
  Dynamic_screenInv s -> Dynamic_screenInv (Dynamic.dispatch s e).
Proof.
  intros IH.
  unfold Dynamic.dispatch. destruct (Dynamic.enabled s e) eqn:En; [|exact IH].
  unfold Dynamic_screenInv in IH.
  destruct e as [|c i|i|i|k v| |]; cbn [Dynamic.enabled Dynamic.handle] in *.
  - apply GameStatus_eqb_eq in En. rewrite En in IH. subst s.
    cbn. split; [lia | discriminate].
  - apply GameStatus_eqb_eq in En. rewrite En in IH.
    unfold Dynamic.handleDrop, Dynamic_screenInv.
    destruct (findById i (Dynamic.availableItems s));
      [|destruct (findById i (Dynamic.placedItems s))];
      [| |now rewrite En];
      destruct c;
      repeat match goal with
             | |- context [if ?b then _ else _] => destruct b
             end;
      cbn -[Dynamic.currentIsInRange]; rewrite En;
      (split; [tauto | discriminate]).
  - apply GameStatus_eqb_eq in En. rewrite En in IH.
    unfold Dynamic.handleAddItem, Dynamic_screenInv.
    destruct (findById i (Dynamic.availableItems s));
      [|now rewrite En].
    cbn -[Dynamic.currentIsInRange]. rewrite En.
    split; [tauto | discriminate].
  - apply GameStatus_eqb_eq in En. rewrite En in IH.
    unfold Dynamic.handleRemoveItem, Dynamic_screenInv.
    destruct (findById i (Dynamic.placedItems s));
      [|now rewrite En].
    cbn -[Dynamic.currentIsInRange]. rewrite En.
    split; [tauto | discriminate].
  - apply GameStatus_eqb_eq in En. rewrite En in IH.
    unfold Dynamic.handleWeatherChange, Dynamic_screenInv.
    cbn -[Dynamic.currentIsInRange]. rewrite En.
    split; [tauto | discriminate].
  - apply andb_true_iff in En as [En _]. apply GameStatus_eqb_eq in En.
    rewrite En in IH. destruct IH as [Hatt _].
    unfold Dynamic.handleCheckEnergy.
    destruct (Dynamic.currentIsInRange s) eqn:Hr.
    + unfold Dynamic_screenInv. cbn -[Dynamic.currentIsInRange].
      tauto.
    + cbv zeta.
      destruct (Z.eqb_spec (Dynamic.attemptsLeft s - 1) 0) as [Hz|Hz];
        unfold Dynamic_screenInv; cbn -[Dynamic.currentIsInRange];
        rewrite ?En.
      * tauto.
      * split; [lia | tauto].
  - reflexivity.
Qed.

Lemma Static_play_screenInv (events : list Static.Event) :
  Static_screenInv (Static_play events).
Proof.
  unfold Static_play.
  assert (H : Static_screenInv Static.initialState) by reflexivity.
  revert H. generalize Static.initialState.
  induction events as [|e events IH]; intros s H; [exact H|].
  apply IH, Static_dispatch_screenInv, H.
Qed.

Lemma Counts_play_screenInv (events : list Counts.Event) :
  Counts_screenInv (Counts_play events).
Proof.
  unfold Counts_play.
  assert (H : Counts_screenInv Counts.initialState) by reflexivity.
  revert H. generalize Counts.initialState.
  induction events as [|e events IH]; intros s H; [exact H|].
  apply IH, Counts_dispatch_screenInv, H.
Qed.

Lemma Dynamic_play_screenInv (events : list Dynamic.Event) :
  Dynamic_screenInv (Dynamic_play events).
Proof.
  unfold Dynamic_play.
  assert (H : Dynamic_screenInv Dynamic.initialState) by reflexivity.
  revert H. generalize Dynamic.initialState.
  induction events as [|e events IH]; intros s H; [exact H|].
  apply IH, Dynamic_dispatch_screenInv, H.
Qed.

(** As long as every event is made on a screen rendered from the current
    cells (no click on a screen that is fading out), the won screen is only
    reached with a total in the range and the lost screen only with a total
    out of it: the totals these screens print were checked as they stand.
    A click on the screen that is fading out breaks this: in the last game
    below the check finds the total 84, a placed hydro item of the leaving
    playing screen is then clicked, and the won screen is mounted on cells
    whose total is 72. *)
Theorem verdict_on_settled_screens :
  (forall events : list Static.Event,
      let s := Static_play events in
      let total := Static.totalEnergy (Static.placedItems s) in
      (Static.gameStatus s = won ->
       Static.THRESHOLD_MIN <= total <= Static.THRESHOLD_MAX)
      /\ (Static.gameStatus s = lost ->
          total < Static.THRESHOLD_MIN \/ Static.THRESHOLD_MAX < total))
  /\ (forall events : list Counts.Event,
         let s := Counts_play events in
         let total := Counts.totalEnergy (Counts.placedItems s) in
         (Counts.gameStatus s = won ->
          Counts.THRESHOLD_MIN <= total <= Counts.THRESHOLD_MAX)
         /\ (Counts.gameStatus s = lost ->
             total < Counts.THRESHOLD_MIN \/ Counts.THRESHOLD_MAX < total))
  /\ (forall events : list Dynamic.Event,
         let s := Dynamic_play events in
         (Dynamic.gameStatus s = won -> Dynamic.currentIsInRange s = true)
         /\ (Dynamic.gameStatus s = lost ->
             Dynamic.currentIsInRange s = false))
  /\ (let u :=
        Static.exitComplete
          (Static_fires
             (Static.exitComplete
                (Static.fire Static.initialUI Static.StartGame))
             [Static.Drop "hydro-0"; Static.Drop "hydro-1";
              Static.Drop "hydro-2"; Static.Drop "hydro-3";
              Static.Drop "hydro-4"; Static.Drop "wind-0";
              Static.Drop "wind-1"; Static.Drop "wind-2";
              Static.Drop "wind-3"; Static.CheckEnergy;
              Static.RemoveItem "hydro-0"]) in
      Static.ui_steps u
      /\ Static.rendered u = Static.cells u
      /\ Static.gameStatus (Static.cells u) = won
      /\ Static.totalEnergy (Static.placedItems (Static.cells u)) = 72).
Proof.
  split; [|split; [|split]].
  - intros events s total.
    pose proof (Static_play_screenInv events) as Hr. fold s in Hr.
    unfold Static_screenInv in Hr.
    split; intros Hst; rewrite Hst in Hr.
    + apply Static_currentIsInRange_iff. tauto.
    + destruct Hr as (_ & Hout & _).
      apply not_true_iff_false in Hout.
      rewrite Static_currentIsInRange_iff in Hout. fold total in Hout. lia.
  - intros events s total.
    pose proof (Counts_play_screenInv events) as Hr. fold s in Hr.
    unfold Counts_screenInv in Hr.
    split; intros Hst; rewrite Hst in Hr.
    + apply Counts_isInRange_iff. tauto.
    + destruct Hr as (_ & Hout).
      apply not_true_iff_false in Hout.
      rewrite Counts_isInRange_iff in Hout. fold total in Hout. lia.
  - intros events s.
    pose proof (Dynamic_play_screenInv events) as Hr. fold s in Hr.
    unfold Dynamic_screenInv in Hr.
    split; intros Hst; rewrite Hst in Hr; tauto.
  - cbv zeta. split.
    + constructor. apply Static_fires_steps. repeat constructor.
    + vm_compute. repeat split.
Qed.

Lemma verdict_on_settled_screens_witness :
  Static.THRESHOLD_MIN
  <= Static.totalEnergy
       (Static.placedItems
          (Static_play
             [Static.StartGame; Static.Drop "hydro-0"; Static.Drop "hydro-1";
              Static.Drop "hydro-2"; Static.Drop "hydro-3";
              Static.Drop "hydro-4"; Static.Drop "wind-0";
              Static.Drop "wind-1"; Static.Drop "wind-2";
              Static.Drop "wind-3"; Static.CheckEnergy]))
  <= Static.THRESHOLD_MAX.
Proof.
  destruct verdict_on_settled_screens as (Hstatic & _ & _).
  apply (Hstatic
           [Static.StartGame; Static.Drop "hydro-0"; Static.Drop "hydro-1";
            Static.Drop "hydro-2"; Static.Drop "hydro-3";
            Static.Drop "hydro-4"; Static.Drop "wind-0";
            Static.Drop "wind-1"; Static.Drop "wind-2";
            Static.Drop "wind-3"; Static.CheckEnergy]).
  reflexivity.
Defined.

(** No render of the playing screen has [isInRange] true, in the variants
    with the [hasChecked] flag: the total of the playing screen is never
    printed in the colour of success.  A check that finds the total in
    range leaves the playing screen, which fades out as it was rendered
    before that check, and whatever changes the total clears the flag. *)
Theorem playing_screen_never_in_range :
  (forall u : Static.UI,
      Static.ui_steps u ->
      Static.gameStatus (Static.rendered u) = playing ->
      Static.isInRange (Static.rendered u) = false)
  /\ (forall u : Dynamic.UI,
         Dynamic.ui_steps u ->
         Dynamic.gameStatus (Dynamic.rendered u) = playing ->
         Dynamic.isInRange (Dynamic.rendered u) = false).
Proof.
  split; intros u Hu Hp.
  - apply Static_ui_steps_inv in Hu. destruct Hu as [Hflag _].
    unfold Static.isInRange.
    destruct (Static.hasChecked (Static.rendered u)); [|reflexivity].
    now apply Hflag.
  - apply Dynamic_ui_steps_inv in Hu. destruct Hu as [Hflag _].
    unfold Dynamic.isInRange.
    destruct (Dynamic.hasChecked (Dynamic.rendered u)); [|reflexivity].
    now apply Hflag.
Qed.

(** The playing screen that fades out after a winning check of 84. *)
Lemma playing_screen_never_in_range_witness :
  Static.isInRange
    (Static.rendered
       (Static_fires
          (Static.exitComplete
             (Static.fire Static.initialUI Static.StartGame))
          [Static.Drop "hydro-0"; Static.Drop "hydro-1";
           Static.Drop "hydro-2"; Static.Drop "hydro-3";
           Static.Drop "hydro-4"; Static.Drop "wind-0";
           Static.Drop "wind-1"; Static.Drop "wind-2";
           Static.Drop "wind-3"; Static.CheckEnergy])) = false.
Proof.
  destruct playing_screen_never_in_range as (Hstatic & _).
  apply Hstatic.
  - apply Static_fires_steps. repeat constructor.
  - reflexivity.
Defined.

(** The background of the item-based variant, as long as every event is
    made on a screen rendered from the current cells: the lit skyline
    exactly in the phase won, the fire exactly in the phase lost with a total
    above the maximum, and in the phase lost the dark skyline exactly when
    the total is below the minimum.  A click on the screen that is fading
    out breaks the last: in the game below the fifth check fails on the
    total 90, a placed wind item of the leaving playing screen is then
    clicked, and the lost game has the dark skyline with the total 84. *)
Theorem background_on_settled_screens :
  (forall events : list Static.Event,
      let s := Static_play events in
      let total := Static.totalEnergy (Static.placedItems s) in
      (Static.getBackgroundImage s = Static.skylineLight
       <-> Static.gameStatus s = won)
      /\ (Static.getBackgroundImage s = Static.skylineFire
          <-> Static.gameStatus s = lost /\ Static.THRESHOLD_MAX < total)
      /\ (Static.gameStatus s = lost ->
          (Static.getBackgroundImage s = Static.skylineDark
           <-> total < Static.THRESHOLD_MIN)))
  /\ (let u :=
        Static_fires
          (Static.exitComplete
             (Static.fire Static.initialUI Static.StartGame))
          [Static.Drop "hydro-0"; Static.Drop "hydro-1";
           Static.Drop "hydro-2"; Static.Drop "hydro-3";
           Static.Drop "hydro-4"; Static.Drop "wind-0";
           Static.Drop "wind-1"; Static.Drop "wind-2";
           Static.Drop "wind-3"; Static.Drop "wind-4";
           Static.CheckEnergy; Static.CheckEnergy; Static.CheckEnergy;
           Static.CheckEnergy; Static.CheckEnergy;
           Static.RemoveItem "wind-0"] in
      Static.ui_steps u
      /\ Static.gameStatus (Static.cells u) = lost
      /\ Static.totalEnergy (Static.placedItems (Static.cells u)) = 84
      /\ Static.getBackgroundImage (Static.cells u) = Static.skylineDark).
Proof.
  split.
  - intros events s total.
    pose proof (Static_play_screenInv events) as Hr. fold s in Hr.
    unfold Static_screenInv in Hr.
    unfold Static.getBackgroundImage. fold total.
    unfold Static.THRESHOLD_MIN, Static.THRESHOLD_MAX in *.
    destruct (Static.gameStatus s);
      try (repeat split; try discriminate; try tauto;
           intros [? _]; discriminate).
    destruct Hr as (_ & Hlost & _).
    apply not_true_iff_false in Hlost.
    rewrite Static_currentIsInRange_iff in Hlost. fold total in Hlost.
    unfold Static.THRESHOLD_MIN, Static.THRESHOLD_MAX in Hlost.
    destruct (Z.gtb_spec total 88).
    + repeat split; try discriminate; try tauto; try lia.
    + repeat split; try discriminate; try tauto; try lia.
  - cbv zeta. split.
    + apply Static_fires_steps. repeat constructor.
    + vm_compute. repeat split.
Qed.

Lemma background_on_settled_screens_witness :
  Static.getBackgroundImage
    (Static_play [Static.StartGame; Static.Drop "solar-0"; Static.CheckEnergy;
                  Static.CheckEnergy; Static.CheckEnergy; Static.CheckEnergy;
                  Static.CheckEnergy]) = Static.skylineDark.
Proof.
  destruct background_on_settled_screens as (Hsettled & _).
  apply (Hsettled
           [Static.StartGame; Static.Drop "solar-0"; Static.CheckEnergy;
            Static.CheckEnergy; Static.CheckEnergy; Static.CheckEnergy;
            Static.CheckEnergy]).
  - reflexivity.
  - vm_compute. reflexivity.
Defined.

(** ** Moves *)

Lemma findById_removed (i : string) (l : list PlacedItem) :
  findById i (removeById i l) = None.
Proof. apply findById_none, removeById_ids. Qed.

(** A move made twice is made once: after a drop of an id, no item of the
    stock has that id, and a second drop of it changes nothing; the same for
    the removal from the grid, in both item-based variants. *)
Theorem move_twice_is_once :
  (forall (s : Static.State) (i : string),
      Static.handleDrop (Static.handleDrop s i) i = Static.handleDrop s i
      /\ Static.handleRemoveItem (Static.handleRemoveItem s i) i
         = Static.handleRemoveItem s i)
  /\ (forall (s : Dynamic.State) (i : string),
         Dynamic.handleAddItem (Dynamic.handleAddItem s i) i
         = Dynamic.handleAddItem s i
         /\ Dynamic.handleRemoveItem (Dynamic.handleRemoveItem s i) i
            = Dynamic.handleRemoveItem s i).
Proof.
  split; intros s i; split.
  - unfold Static.handleDrop at 2 3.
    destruct (findById i (Static.availableItems s)) eqn:E.
    + unfold Static.handleDrop. cbn -[findById removeById].
      now rewrite findById_removed.
    + unfold Static.handleDrop. now rewrite E.
  - unfold Static.handleRemoveItem at 2 3.
    destruct (findById i (Static.placedItems s)) eqn:E.
    + unfold Static.handleRemoveItem. cbn -[findById removeById].
      now rewrite findById_removed.
    + unfold Static.handleRemoveItem. now rewrite E.
  - unfold Dynamic.handleAddItem at 2 3.
    destruct (findById i (Dynamic.availableItems s)) eqn:E.
    + unfold Dynamic.handleAddItem. cbn -[findById removeById].
      now rewrite findById_removed.
    + unfold Dynamic.handleAddItem. now rewrite E.
  - unfold Dynamic.handleRemoveItem at 2 3.
    destruct (findById i (Dynamic.placedItems s)) eqn:E.
    + unfold Dynamic.handleRemoveItem. cbn -[findById removeById].
      now rewrite findById_removed.
    + unfold Dynamic.handleRemoveItem. now rewrite E.
Qed.

(** A drop adds the weight of the item it finds to the total; with distinct
    ids on the grid, a removal takes the weight of the item it finds off the
    total. *)
Theorem move_changes_total (s : Static.State) (i : string) (x : PlacedItem) :
  (findById i (Static.availableItems s) = Some x ->
   Static.totalEnergy (Static.placedItems (Static.handleDrop s i))
   = Static.totalEnergy (Static.placedItems s) + Static.weight (type x))
  /\ (NoDup (map id (Static.placedItems s)) ->
      findById i (Static.placedItems s) = Some x ->
      Static.totalEnergy (Static.placedItems (Static.handleRemoveItem s i))
      = Static.totalEnergy (Static.placedItems s) - Static.weight (type x)).
Proof.
  split.
  - intros E. unfold Static.handleDrop. rewrite E.
    cbn -[Static.totalEnergy removeById].
    rewrite Static_totalEnergy_app, Static_totalEnergy_cons.
    change (Static.totalEnergy []) with 0. lia.
  - intros Hnd E. unfold Static.handleRemoveItem. rewrite E.
    cbn -[Static.totalEnergy removeById].
    rewrite (Static_totalEnergy_perm _ _ (find_remove_perm i _ x Hnd E)).
    rewrite Static_totalEnergy_cons. lia.
Qed.

Lemma move_changes_total_witness :
  Static.totalEnergy
    (Static.placedItems
       (Static.handleRemoveItem
          (Static.mkState playing 5 false
             [mkItem "wind-0" wind; mkItem "hydro-0" hydro] [])
          "hydro-0")) = 18 - 12.
Proof.
  apply (move_changes_total
           (Static.mkState playing 5 false
              [mkItem "wind-0" wind; mkItem "hydro-0" hydro] [])
           "hydro-0" (mkItem "hydro-0" hydro)).
  - repeat constructor; cbn; intuition discriminate.
  - reflexivity.
Defined.

(** In the weather variant a drop on the grid of an id that is not on the
    grid does what the click on the available item does, and a drop on the
    stock of an id that is not in the stock does what the click on the placed
    item does. *)
Theorem drop_is_click (s : Dynamic.State) (i : string) :
  (~ In i (map id (Dynamic.placedItems s)) ->
   Dynamic.handleDrop s Dynamic.powerGrid i = Dynamic.handleAddItem s i)
  /\ (~ In i (map id (Dynamic.availableItems s)) ->
      Dynamic.handleDrop s Dynamic.available i = Dynamic.handleRemoveItem s i).
Proof.
  unfold Dynamic.handleDrop, Dynamic.handleAddItem, Dynamic.handleRemoveItem.
  rewrite !someById_find. split; intros H; apply findById_none in H.
  - destruct (findById i (Dynamic.availableItems s)); [reflexivity|].
    now rewrite H.
  - rewrite H. now destruct (findById i (Dynamic.placedItems s)).
Qed.

Lemma drop_is_click_witness :
  Dynamic.handleDrop Dynamic.initialState Dynamic.powerGrid "wind-0"
  = Dynamic.handleAddItem Dynamic.initialState "wind-0".
Proof.
  destruct (drop_is_click Dynamic.initialState "wind-0") as [Hgrid _].
  apply Hgrid. intros H. exact H.
Defined.

(** ** Attempts *)

(** No handler but the replay gives attempts back: any other call leaves
    [attemptsLeft] as it was or takes exactly one away. *)
Theorem attempts_never_increase :
  (forall (s : Static.State) (e : Static.Event),
      e <> Static.Replay ->
      Static.attemptsLeft s - 1 <= Static.attemptsLeft (Static.handle s e)
                                <= Static.attemptsLeft s)
  /\ (forall (s : Counts.State) (e : Counts.Event),
         e <> Counts.Replay ->
         Counts.attemptsLeft s - 1 <= Counts.attemptsLeft (Counts.handle s e)
                                   <= Counts.attemptsLeft s)
  /\ (forall (s : Dynamic.State) (e : Dynamic.Event),
         e <> Dynamic.Replay ->
         Dynamic.attemptsLeft s - 1 <= Dynamic.attemptsLeft (Dynamic.handle s e)
                                    <= Dynamic.attemptsLeft s).
Proof.
  split; [|split]; intros s e Hne.
  - destruct e as [|i|i| |]; cbn [Static.handle]; try congruence.
    + cbn. lia.
    + unfold Static.handleDrop.
      destruct (findById i (Static.availableItems s)); cbn; lia.
    + unfold Static.handleRemoveItem.
      destruct (findById i (Static.placedItems s)); cbn; lia.
    + unfold Static.handleCheckEnergy.
      destruct (Static.currentIsInRange s); [|destruct (_ =? 0)]; cbn; lia.
  - destruct e as [|t u|i| |]; cbn [Counts.handle]; try congruence.
    + cbn. lia.
    + unfold Counts.handleDrop.
      repeat match goal with
             | |- context [if ?b then _ else _] => destruct b
             end; cbn; lia.
    + unfold Counts.handleRemoveItem.
      destruct (findById i (Counts.placedItems s)) as [x|];
        [destruct (type x)|]; cbn; lia.
    + unfold Counts.handleCheckEnergy.
      destruct (Counts.isInRange s); [|destruct (_ =? 0)]; cbn; lia.
  - destruct e as [|c i|i|i|k v| |]; cbn [Dynamic.handle]; try congruence.
    + cbn. lia.
    + unfold Dynamic.handleDrop.
      destruct (findById i (Dynamic.availableItems s));
        [|destruct (findById i (Dynamic.placedItems s))];
        try lia;
        destruct c;
        repeat match goal with
               | |- context [if ?b then _ else _] => destruct b
               end; cbn; lia.
    + unfold Dynamic.handleAddItem.
      destruct (findById i (Dynamic.availableItems s)); cbn; lia.
    + unfold Dynamic.handleRemoveItem.
      destruct (findById i (Dynamic.placedItems s)); cbn; lia.
    + cbn. lia.
    + unfold Dynamic.handleCheckEnergy.
      destruct (Dynamic.currentIsInRange s); [|destruct (_ =? 0)]; cbn; lia.
Qed.

Lemma attempts_never_increase_witness :
  Static.attemptsLeft
    (Static.handle (Static.mkState playing 2 false [] (initialItems 5))
                   Static.CheckEnergy) <= 2.
Proof.
  destruct attempts_never_increase as (Hstatic & _ & _).
  apply (Hstatic (Static.mkState playing 2 false [] (initialItems 5))
                 Static.CheckEnergy).
  discriminate.
Defined.

(** ** The counter variant *)




(** A drop under a fresh id followed by the removal of that id gives the
    state back, counters and grid. *)
Theorem Counts_drop_remove (s : Counts.State) (t : EnergyType) (u : string) :
  0 < Counts.availableOf s t ->
  ~ In u (map id (Counts.placedItems s)) ->
  Counts.handleRemoveItem (Counts.handleDrop s t u) u = s.
Proof.
  intros Hpos Hfresh.
  assert (Hfind : findById u (Counts.placedItems s ++ [mkItem u t])
                  = Some (mkItem u t)).
  { rewrite findById_app_absent by exact Hfresh.
    apply (findById_singleton (mkItem u t)). }
  assert (Hrem : removeById u (Counts.placedItems s ++ [mkItem u t])
                 = Counts.placedItems s).
  { rewrite removeById_app.
    change (removeById u [mkItem u t])
      with (removeById (id (mkItem u t)) [mkItem u t]).
    rewrite removeById_singleton, app_nil_r.
    now apply removeById_absent. }
  destruct s as [g a cs cw ch pl]. cbn [Counts.placedItems] in *.
  unfold Counts.handleDrop.
  destruct t; cbn [EnergyType_eqb andb Counts.availableOf
                   Counts.availableSolar Counts.availableWind
                   Counts.availableHydro] in *;
    match goal with
    | |- context [?n >? 0] => destruct (Z.gtb_spec n 0); [|lia]
    end;
    unfold Counts.handleRemoveItem;
    cbn -[findById removeById Z.add Z.sub];
    rewrite Hfind, Hrem; cbn -[Z.add Z.sub];
    unfold Counts.setPlacedItems, Counts.setAvailableSolar,
      Counts.setAvailableWind, Counts.setAvailableHydro;
    cbn -[Z.add Z.sub]; f_equal; lia.
Qed.

Lemma Counts_drop_remove_witness :
  Counts.handleRemoveItem
    (Counts.handleDrop (Counts.handleStartGame Counts.initialState) wind "u-7")
    "u-7"
  = Counts.handleStartGame Counts.initialState.
Proof.
  apply (Counts_drop_remove (Counts.handleStartGame Counts.initialState)
                            wind "u-7").
  - reflexivity.
  - intros H. exact H.
Defined.

(** ** The weather sliders *)

(** A weather slider writes its own intensity, the value over 100, and
    clears [hasChecked]; the other two intensities, the phase, the attempts
    and the two collections stay.  On one slider the last position wins; two
    different sliders can be moved in either order. *)
Theorem weather_change_algebra (s : Dynamic.State) (k k' : Dynamic.WeatherKey)
        (v v' : float) :
  (let s' := Dynamic.handleWeatherChange s k v in
   Dynamic.gameStatus s' = Dynamic.gameStatus s
   /\ Dynamic.attemptsLeft s' = Dynamic.attemptsLeft s
   /\ Dynamic.placedItems s' = Dynamic.placedItems s
   /\ Dynamic.availableItems s' = Dynamic.availableItems s
   /\ Dynamic.hasChecked s' = false
   /\ match k with
      | Dynamic.sunKey =>
          Dynamic.weather s'
          = Weather.mk (v / 100) (Weather.wind (Dynamic.weather s))
                       (Weather.rain (Dynamic.weather s))
      | Dynamic.windKey =>
          Dynamic.weather s'
          = Weather.mk (Weather.sun (Dynamic.weather s)) (v / 100)
                       (Weather.rain (Dynamic.weather s))
      | Dynamic.rainKey =>
          Dynamic.weather s'
          = Weather.mk (Weather.sun (Dynamic.weather s))
                       (Weather.wind (Dynamic.weather s)) (v / 100)
      end)
  /\ Dynamic.handleWeatherChange (Dynamic.handleWeatherChange s k v) k v'
     = Dynamic.handleWeatherChange s k v'
  /\ (k <> k' ->
      Dynamic.handleWeatherChange (Dynamic.handleWeatherChange s k v) k' v'
      = Dynamic.handleWeatherChange (Dynamic.handleWeatherChange s k' v') k v).
Proof.
  split; [|split].
  - destruct k; cbn; repeat split.
  - destruct k; reflexivity.
  - intros Hne. destruct k, k'; try congruence; reflexivity.
Qed.

Lemma weather_change_algebra_witness :
  Dynamic.handleWeatherChange
    (Dynamic.handleWeatherChange Dynamic.initialState Dynamic.sunKey 30)
    Dynamic.rainKey 70
  = Dynamic.handleWeatherChange
      (Dynamic.handleWeatherChange Dynamic.initialState Dynamic.rainKey 70)
      Dynamic.sunKey 30.
Proof.
  apply (weather_change_algebra Dynamic.initialState Dynamic.sunKey
                                Dynamic.rainKey 30 70).
  discriminate.
Defined.

Lemma Dynamic_zero_weather_total (placed : list PlacedItem) :
  Dynamic.totalEnergy (Weather.mk 0 0 0) placed = 0%float.
Proof.
  unfold Dynamic.totalEnergy.
  induction placed as [|x l IH]; [reflexivity|].
  cbn [fold_left].
  replace (if EnergyType_eqb (type x) solar
           then (0 + Dynamic.SOLAR_WEIGHT (Weather.mk 0 0 0))%float
           else if EnergyType_eqb (type x) wind
                then (0 + Dynamic.WIND_WEIGHT (Weather.mk 0 0 0))%float
                else if EnergyType_eqb (type x) hydro
                     then (0 + Dynamic.HYDRO_WEIGHT (Weather.mk 0 0 0))%float
                     else 0%float)
    with 0%float by (destruct (type x); vm_compute; reflexivity).
  exact IH.
Qed.

(** Under the weather the game starts with, all sliders at 0, every item
    weighs nothing: whatever is placed, the total is 0, and a check cannot
    succeed and costs an attempt. *)
Theorem no_win_under_initial_weather (s : Dynamic.State) :
  Dynamic.weather s = Dynamic.weather Dynamic.initialState ->
  Dynamic.totalEnergy (Dynamic.weather s) (Dynamic.placedItems s) = 0%float
  /\ Dynamic.currentIsInRange s = false
  /\ Dynamic.attemptsLeft (Dynamic.handleCheckEnergy s)
     = Dynamic.attemptsLeft s - 1.
Proof.
  intros Hw.
  assert (Htotal : Dynamic.totalEnergy (Dynamic.weather s)
                                       (Dynamic.placedItems s) = 0%float).
  { rewrite Hw. apply Dynamic_zero_weather_total. }
  assert (Hout : Dynamic.currentIsInRange s = false).
  { unfold Dynamic.currentIsInRange. rewrite Htotal. reflexivity. }
  repeat split; try assumption.
  rewrite (Dynamic_handleCheckEnergy_failed s Hout). cbv zeta.
  destruct (_ =? 0); reflexivity.
Qed.

Lemma no_win_under_initial_weather_witness :
  Dynamic.currentIsInRange
    (Dynamic_play [Dynamic.StartGame; Dynamic.AddItem "hydro-0";
                   Dynamic.AddItem "hydro-1"]) = false.
Proof.
  apply (no_win_under_initial_weather
           (Dynamic_play [Dynamic.StartGame; Dynamic.AddItem "hydro-0";
                          Dynamic.AddItem "hydro-1"])).
  reflexivity.
Defined.

(** ** Binary64 sums at the thresholds of the weather variant *)

(** In the weather variant the verdict depends on the order of the placed
    items.  With the wind slider at 3 and the rain slider at 97, the five
    wind items and then the five hydro items total 100 and a check wins; the
    same ten items placed in the reverse order total 99.99999999999997 and
    the check fails. *)
Theorem verdict_depends_on_order :
  exists events1 events2 : list Dynamic.Event,
    let s1 := Dynamic_play events1 in
    let s2 := Dynamic_play events2 in
    Dynamic.weather s1 = Dynamic.weather s2
    /\ Dynamic.placedItems s2 = rev (Dynamic.placedItems s1)
    /\ Dynamic.gameStatus s1 = playing
    /\ Dynamic.gameStatus s2 = playing
    /\ Dynamic.gameStatus (Dynamic.dispatch s1 Dynamic.CheckEnergy) = won
    /\ Dynamic.gameStatus (Dynamic.dispatch s2 Dynamic.CheckEnergy) = playing.
Proof.
  exists ([Dynamic.StartGame;
           Dynamic.WeatherChange Dynamic.windKey 3;
           Dynamic.WeatherChange Dynamic.rainKey 97]
          ++ map Dynamic.AddItem
               ["wind-0"; "wind-1"; "wind-2"; "wind-3"; "wind-4";
                "hydro-0"; "hydro-1"; "hydro-2"; "hydro-3"; "hydro-4"]%string).
  exists ([Dynamic.StartGame;
           Dynamic.WeatherChange Dynamic.windKey 3;
           Dynamic.WeatherChange Dynamic.rainKey 97]
          ++ map Dynamic.AddItem
               ["hydro-4"; "hydro-3"; "hydro-2"; "hydro-1"; "hydro-0";
                "wind-4"; "wind-3"; "wind-2"; "wind-1"; "wind-0"]%string).
  vm_compute. repeat split.
Qed.

(** The total the screen prints has two decimals, the check compares the
    binary64 sum.  With the wind slider at 16 and the rain slider at 84 the
    ten wind and hydro items total 99.99999999999999: the screen prints
    100.00, the lower end of the range, and the check fails.  With the
    sliders at 53 and 97 they total 150.00000000000003: the screen prints
    150.00, the upper end, and the check fails. *)
Theorem printed_total_in_range_check_fails :
  exists events_low events_high : list Dynamic.Event,
    let low := Dynamic_play events_low in
    let high := Dynamic_play events_high in
    toFixed2 (Dynamic.totalEnergy (Dynamic.weather low)
                                  (Dynamic.placedItems low))
    = Hundredths false 10000
    /\ Dynamic.gameStatus low = playing
    /\ Dynamic.currentIsInRange low = false
    /\ toFixed2 (Dynamic.totalEnergy (Dynamic.weather high)
                                     (Dynamic.placedItems high))
       = Hundredths false 15000
    /\ Dynamic.gameStatus high = playing
    /\ Dynamic.currentIsInRange high = false.
Proof.
  exists ([Dynamic.StartGame;
           Dynamic.WeatherChange Dynamic.windKey 16;
           Dynamic.WeatherChange Dynamic.rainKey 84]
          ++ map Dynamic.AddItem
               ["wind-0"; "wind-1"; "wind-2"; "wind-3"; "wind-4";
                "hydro-0"; "hydro-1"; "hydro-2"; "hydro-3"; "hydro-4"]%string).
  exists ([Dynamic.StartGame;
           Dynamic.WeatherChange Dynamic.windKey 53;
           Dynamic.WeatherChange Dynamic.rainKey 97]
          ++ map Dynamic.AddItem
               ["wind-0"; "wind-1"; "wind-2"; "wind-3"; "wind-4";
                "hydro-0"; "hydro-1"; "hydro-2"; "hydro-3"; "hydro-4"]%string).
  vm_compute. repeat split.
Qed.

(** ** The slider variant on its sliders *)

Lemma inputPositions_checked :
  forallb
    (fun a =>
       forallb
         (fun b =>
            forallb
              (fun c =>
                 let total := Sliders.totalEnergy (Sliders.mkState a b c) in
                 negb (PrimFloat.is_nan total)
                 && (0 <=? total)%float && (total <=? 30)%float)
              inputPositions)
         inputPositions)
    inputPositions = true.
Proof. vm_compute. reflexivity. Qed.

(** At every position of the three input sliders (0 to 10 in steps of 0.5)
    the total is a number between 0 and 30, and the city is off exactly when
    the total is below the minimum. *)
Theorem slider_totals_are_numbers (a b c : float) :
  In a inputPositions -> In b inputPositions -> In c inputPositions ->
  let s := Sliders.mkState a b c in
  PrimFloat.is_nan (Sliders.totalEnergy s) = false
  /\ (0 <=? Sliders.totalEnergy s)%float = true
  /\ (Sliders.totalEnergy s <=? 30)%float = true
  /\ (Sliders.cityState s = Sliders.off
      <-> (Sliders.totalEnergy s <? Sliders.THRESHOLD_MIN)%float = true).
Proof.
  intros Ha Hb Hc s.
  pose proof inputPositions_checked as H.
  rewrite forallb_forall in H. specialize (H a Ha).
  rewrite forallb_forall in H. specialize (H b Hb).
  rewrite forallb_forall in H. specialize (H c Hc).
  cbv zeta in H. fold s in H.
  apply andb_true_iff in H as [H Hle].
  apply andb_true_iff in H as [Hnan Hge].
  apply negb_true_iff in Hnan.
  repeat split; try assumption; now apply classify_off.
Qed.

Lemma slider_totals_are_numbers_witness :
  PrimFloat.is_nan (Sliders.totalEnergy (Sliders.mkState 5 5 5)) = false.
Proof.
  apply (slider_totals_are_numbers 5 5 5);
    vm_compute; do 10 right; left; reflexivity.
Defined.
